(** * Positive-prompt extraction from PNG metadata

    A shallow embedding of the extraction logic of the repository:
    - [comfyprompt_extractor.py] (and its copy in [comfy_drop_ui.py]):
      the workflow / prompt-graph extractors and their pipeline;
    - [unified_extractor_ui.py]: the type-robust variants of the same
      extractors and the strict parameters extractor;
    - [prompt_extractor.py] (and its copy in [wlsh_prompt_extractor_ui.py]):
      the simple parameters extractor and the debug view of the parameters;
    - [comfyui_extractor.py]: the ComfyUI entries of the metadata and the
      node types of the summary;
    - the argument handling of [main] in [comfyprompt_extractor.py] and the
      counters of [update_results] in the two multi-file windows.

    Python values are decoded JSON values; Python exceptions are an explicit
    error result; the shared [processed_nodes] set is threaded explicitly. *)

From Stdlib Require Import List String Ascii ZArith Lia Bool.
From Stdlib Require Import SpecFloat DecimalString.
Import ListNotations.

Set Warnings "-register-all".

Local Open Scope list_scope.
Local Open Scope string_scope.

(** ** Python [str] methods

    A character is a code point below 256 (Rocq's [ascii]); [str.lower],
    [str.isspace] and the line boundaries of [str.splitlines] are written out
    on that range. *)

Module PyStr.

Definition LF : ascii := "010"%char.
Definition CR : ascii := "013"%char.
Definition COLON : ascii := ":"%char.
Definition DQUOTE : ascii := "034"%char.

Definition between (lo hi n : nat) : bool := (lo <=? n)%nat && (n <=? hi)%nat.

(** [c.isspace()]: TAB..CR, FS..US, space, NEL and NBSP. *)
Definition isspace (c : ascii) : bool :=
  let n := nat_of_ascii c in
  between 9 13 n || between 28 32 n || (n =? 133)%nat || (n =? 160)%nat.

(** [c.lower()]: A-Z and the accented capitals, the multiplication sign
    aside, move up by 32. *)
Definition lower_char (c : ascii) : ascii :=
  let n := nat_of_ascii c in
  if between 65 90 n || (between 192 222 n && negb (n =? 215)%nat)
  then ascii_of_nat (n + 32) else c.

Fixpoint lower (s : string) : string :=
  match s with
  | EmptyString => EmptyString
  | String c s' => String (lower_char c) (lower s')
  end.

Fixpoint lstrip (s : string) : string :=
  match s with
  | EmptyString => EmptyString
  | String c s' => if isspace c then lstrip s' else s
  end.

Fixpoint rstrip (s : string) : string :=
  match s with
  | EmptyString => EmptyString
  | String c s' =>
      match rstrip s' with
      | EmptyString => if isspace c then EmptyString else String c EmptyString
      | r => String c r
      end
  end.

Definition strip (s : string) : string := rstrip (lstrip s).

(** [s.startswith(p)] *)
Definition startswith (s p : string) : bool := String.prefix p s.

(** [sub in s] *)
Fixpoint contains (sub s : string) : bool :=
  String.prefix sub s ||
  match s with
  | EmptyString => false
  | String _ s' => contains sub s'
  end.

(** [c in s] for a single character *)
Fixpoint has_char (c : ascii) (s : string) : bool :=
  match s with
  | EmptyString => false
  | String d s' => Ascii.eqb c d || has_char c s'
  end.

(** [s[:n]] *)
Fixpoint take (n : nat) (s : string) : string :=
  match n, s with
  | S n', String c s' => String c (take n' s')
  | _, _ => EmptyString
  end.

(** [s.split(sep)] for a one-character separator: never the empty list. *)
Fixpoint split (sep : ascii) (s : string) : list string :=
  match s with
  | EmptyString => [EmptyString]
  | String c s' =>
      if Ascii.eqb c sep then EmptyString :: split sep s'
      else match split sep s' with
           | [] => [String c EmptyString]
           | h :: t => String c h :: t
           end
  end.

(** [s.split(sep, 1)]: one element when [sep] does not occur, else two. *)
Fixpoint split1 (sep : ascii) (s : string) : list string :=
  match s with
  | EmptyString => [EmptyString]
  | String c s' =>
      if Ascii.eqb c sep then [EmptyString; s']
      else match split1 sep s' with
           | [] => [String c EmptyString]
           | h :: t => String c h :: t
           end
  end.

(** [sep.join(l)] *)
Fixpoint join (sep : string) (l : list string) : string :=
  match l with
  | [] => EmptyString
  | [x] => x
  | x :: rest => x ++ sep ++ join sep rest
  end.

(** The line boundaries of [str.splitlines]: LF, VT, FF, CR, FS, GS, RS,
    NEL (CR LF counts once). *)
Definition is_linebreak (c : ascii) : bool :=
  let n := nat_of_ascii c in
  between 10 13 n || between 28 30 n || (n =? 133)%nat.

Fixpoint splitlines (s : string) : list string :=
  match s with
  | EmptyString => []
  | String c s' =>
      if is_linebreak c then
        match s' with
        | String d s'' =>
            if Ascii.eqb c CR && Ascii.eqb d LF
            then EmptyString :: splitlines s''
            else EmptyString :: splitlines s'
        | EmptyString => [EmptyString]
        end
      else match splitlines s' with
           | [] => [String c EmptyString]
           | h :: t => String c h :: t
           end
  end.

(** A one-line string and a string of two lines, for examples. *)
Definition nl : string := String LF EmptyString.

End PyStr.

(** ** Python values, exceptions and results *)

(** The exceptions the extractors can meet.  [OtherException] stands for any
    other subclass of [Exception] a library call may raise, [Exception_] for
    the bare [Exception] the file-level functions re-raise. *)
Inductive exn : Type :=
| AttributeError
| TypeError
| KeyError
| IndexError
| JSONDecodeError
| OtherException
| Exception_.

Inductive result (A : Type) : Type :=
| Ok (a : A)
| Err (e : exn).
Arguments Ok {A} a.
Arguments Err {A} e.

Definition bind {A B : Type} (m : result A) (f : A -> result B) : result B :=
  match m with
  | Ok a => f a
  | Err e => Err e
  end.

Notation "x <- m ;; k" := (bind m (fun x => k))
  (at level 61, m at next level, right associativity).

(** [a or b] and [a and b] on conditions that may raise: the right operand
    is evaluated only when the left one does not decide. *)
Definition orM (a b : result bool) : result bool :=
  x <- a;; if x then Ok true else b.
Definition andM (a b : result bool) : result bool :=
  x <- a;; if x then b else Ok false.
Infix "|||" := orM (at level 50, left associativity).
Infix "&&&" := andM (at level 40, left associativity).

(** [try: m except Exception: h] *)
Definition catch {A : Type} (m : result A) (h : exn -> result A) : result A :=
  match m with
  | Ok a => Ok a
  | Err e => h e
  end.

(** A value decoded by [json.loads].  A float carries its double ([fval])
    and its [repr] ([frepr]), the text [str] returns for it; a dict is the
    list of its items in insertion order (its keys are distinct in a dict
    that Python built). *)
Inductive json : Type :=
| JNull
| JBool (b : bool)
| JInt (z : Z)
| JFloat (fval : spec_float) (frepr : string)
| JStr (s : string)
| JArr (l : list json)
| JObj (items : list (string * json)).

Definition is_dict (v : json) : bool :=
  match v with JObj _ => true | _ => false end.
Definition is_list (v : json) : bool :=
  match v with JArr _ => true | _ => false end.
Definition is_str (v : json) : bool :=
  match v with JStr _ => true | _ => false end.

(** [bool(v)] *)
Definition truthy (v : json) : bool :=
  match v with
  | JNull => false
  | JBool b => b
  | JInt z => negb (z =? 0)%Z
  | JFloat f _ => match f with S754_zero _ => false | _ => true end
  | JStr s => negb (s =? "")
  | JArr l => match l with [] => false | _ => true end
  | JObj l => match l with [] => false | _ => true end
  end.

(** [v == 'lit'] for a string literal *)
Definition eq_str (v : json) (lit : string) : bool :=
  match v with
  | JStr s => s =? lit
  | _ => false
  end.

(** *** Dictionaries *)

Fixpoint assoc {A : Type} (k : string) (l : list (string * A)) : option A :=
  match l with
  | [] => None
  | (k', v) :: rest => if k' =? k then Some v else assoc k rest
  end.

(** [d.get(k, default)]: only a dict has the method. *)
Definition get (d : json) (k : string) (default : json) : result json :=
  match d with
  | JObj items =>
      match assoc k items with
      | Some v => Ok v
      | None => Ok default
      end
  | _ => Err AttributeError
  end.

(** [k in c] for a string [k]: key of a dict, element of a list, substring
    of a string. *)
Definition contains_str (k : string) (c : json) : result bool :=
  match c with
  | JObj items => Ok (match assoc k items with Some _ => true | None => false end)
  | JArr l => Ok (existsb (fun x => eq_str x k) l)
  | JStr s => Ok (PyStr.contains k s)
  | _ => Err TypeError
  end.

(** [c[k]] for a string [k] *)
Definition getitem_str (c : json) (k : string) : result json :=
  match c with
  | JObj items =>
      match assoc k items with
      | Some v => Ok v
      | None => Err KeyError
      end
  | _ => Err TypeError
  end.

(** [len(c)] *)
Definition len (c : json) : result nat :=
  match c with
  | JArr l => Ok (List.length l)
  | JStr s => Ok (String.length s)
  | JObj items => Ok (List.length items)
  | _ => Err TypeError
  end.

(** [c[0]]: a decoded dict has string keys only. *)
Definition getitem0 (c : json) : result json :=
  match c with
  | JArr (x :: _) => Ok x
  | JArr [] => Err IndexError
  | JStr (String ch _) => Ok (JStr (String ch EmptyString))
  | JStr EmptyString => Err IndexError
  | JObj _ => Err KeyError
  | _ => Err TypeError
  end.

(** [for x in c]: the elements of a list, the characters of a string, the
    keys of a dict. *)
Definition iter (c : json) : result (list json) :=
  match c with
  | JArr l => Ok l
  | JStr s => Ok (map (fun ch => JStr (String ch EmptyString)) (list_ascii_of_string s))
  | JObj items => Ok (map (fun kv => JStr (fst kv)) items)
  | _ => Err TypeError
  end.

(** [d.items()] *)
Definition items (d : json) : result (list (string * json)) :=
  match d with
  | JObj l => Ok l
  | _ => Err AttributeError
  end.

(** *** String methods on values: a value that is not a [str] has none. *)

Definition str_lower (v : json) : result string :=
  match v with JStr s => Ok (PyStr.lower s) | _ => Err AttributeError end.
Definition str_strip (v : json) : result string :=
  match v with JStr s => Ok (PyStr.strip s) | _ => Err AttributeError end.

(** *** [str] and [repr] *)

Definition str_of_Z (z : Z) : string := NilZero.string_of_int (Z.to_int z).

Definition hex_digit (n : nat) : ascii :=
  if (n <? 10)%nat then ascii_of_nat (48 + n) else ascii_of_nat (87 + n).

(** A character [str.isprintable] rejects: the control characters, NBSP and
    the soft hyphen. *)
Definition unprintable (c : ascii) : bool :=
  let n := nat_of_ascii c in
  (n <? 32)%nat || PyStr.between 127 160 n || (n =? 173)%nat.

Definition repr_char (quote c : ascii) : string :=
  let n := nat_of_ascii c in
  if Ascii.eqb c "\"%char then "\\"
  else if Ascii.eqb c quote then String "\"%char (String c EmptyString)
  else if (n =? 9)%nat then "\t"
  else if (n =? 10)%nat then "\n"
  else if (n =? 13)%nat then "\r"
  else if unprintable c
       then String "\"%char (String "x"%char
              (String (hex_digit (n / 16)) (String (hex_digit (n mod 16)) EmptyString)))
  else String c EmptyString.

Fixpoint repr_chars (quote : ascii) (s : string) : string :=
  match s with
  | EmptyString => EmptyString
  | String c s' => repr_char quote c ++ repr_chars quote s'
  end.

(** [repr(s)]: single quotes, unless [s] has a single quote and no double
    quote. *)
Definition repr_string (s : string) : string :=
  let quote := if PyStr.has_char "'"%char s && negb (PyStr.has_char PyStr.DQUOTE s)
               then PyStr.DQUOTE else "'"%char in
  String quote (repr_chars quote s ++ String quote EmptyString).

Fixpoint repr (v : json) : string :=
  match v with
  | JNull => "None"
  | JBool true => "True"
  | JBool false => "False"
  | JInt z => str_of_Z z
  | JFloat _ r => r
  | JStr s => repr_string s
  | JArr l => "[" ++ PyStr.join ", " (map repr l) ++ "]"
  | JObj l =>
      "{" ++ PyStr.join ", " (map (fun kv => repr_string (fst kv) ++ ": " ++ repr (snd kv)) l)
          ++ "}"
  end.

(** [str(v)] *)
Definition str (v : json) : string :=
  match v with
  | JStr s => s
  | _ => repr v
  end.

(** ['\n'.join(str(x) for x in l)] *)
Definition join_lines (l : list json) : string := PyStr.join PyStr.nl (map str l).

(** *** The set of processed node identifiers

    Set membership hashes its argument, so a list or a dict raises
    [TypeError]; equality is Python's: [True == 1 == 1.0], and a value is
    equal to itself (the decoder hands out one NaN object). *)

Definition hashable (v : json) : bool :=
  match v with
  | JArr _ | JObj _ => false
  | _ => true
  end.

Definition float_eq_Z (f : spec_float) (z : Z) : bool :=
  match f with
  | S754_zero _ => (z =? 0)%Z
  | S754_finite s m e =>
      let a := if s then Z.neg m else Z.pos m in
      if (0 <=? e)%Z then (z =? a * 2 ^ e)%Z
      else ((a mod 2 ^ (- e) =? 0) && (z =? a / 2 ^ (- e)))%Z
  | _ => false
  end.

Definition float_eq (f g : spec_float) : bool :=
  match f, g with
  | S754_nan, S754_nan => true
  | _, _ => SFeqb f g
  end.

Definition Z_of_bool (b : bool) : Z := if b then 1%Z else 0%Z.

Definition key_eqb (a b : json) : bool :=
  match a, b with
  | JNull, JNull => true
  | JStr s, JStr t => s =? t
  | JBool x, JBool y => Bool.eqb x y
  | JBool x, JInt z | JInt z, JBool x => (Z_of_bool x =? z)%Z
  | JBool x, JFloat f _ | JFloat f _, JBool x => float_eq_Z f (Z_of_bool x)
  | JInt x, JInt y => (x =? y)%Z
  | JInt z, JFloat f _ | JFloat f _, JInt z => float_eq_Z f z
  | JFloat f _, JFloat g _ => float_eq f g
  | _, _ => false
  end.

Definition pyset : Type := list json.

(** [x in s] *)
Definition set_in (x : json) (s : pyset) : result bool :=
  if hashable x then Ok (existsb (key_eqb x) s) else Err TypeError.

(** [s.add(x)] *)
Definition set_add (x : json) (s : pyset) : pyset := x :: s.

(** ** Prompt records and the extraction loop *)

(** The [prompt_info] dict the extractors build.  A workflow record keeps the
    node type under ['node_type'], a prompt-data record under ['class_type'];
    [node_type] holds either, and [source] tells which. *)
Record prompt_info : Type := mk_prompt_info {
  text : json;
  node_id : json;
  node_type : json;
  title : json;
  source : string
}.

Notation "' pat <- m ;; k" := (bind m (fun x => match x with pat => k end))
  (at level 61, pat pattern, m at next level, right associativity).

(** The body shared by the two [for] loops: [step] decides whether the entry
    yields a record; a record is appended to [positive_prompts] and its
    identifier added to [processed_nodes].  An exception leaves the loop and
    the function, so no list is returned. *)
Fixpoint emit_loop {A : Type} (step : A -> pyset -> result (option prompt_info))
    (entries : list A) (processed_nodes : pyset)
  : result (list prompt_info * pyset) :=
  match entries with
  | [] => Ok ([], processed_nodes)
  | entry :: rest =>
      r <- step entry processed_nodes;;
      match r with
      | None => emit_loop step rest processed_nodes
      | Some info =>
          '(more, final) <- emit_loop step rest (set_add (node_id info) processed_nodes);;
          Ok (info :: more, final)
      end
  end.

(** ['negative' not in prompt_text.lower()[:50]] *)
Definition no_negative_at_start (prompt_text : json) : result bool :=
  l <- str_lower prompt_text;;
  Ok (negb (PyStr.contains "negative" (PyStr.take 50 l))).

(** [prompt_text.strip() != ''] and [prompt_text.strip() == ''] *)
Definition strip_nonempty (prompt_text : json) : result bool :=
  s <- str_strip prompt_text;; Ok (negb (s =? "")).
Definition strip_empty (prompt_text : json) : result bool :=
  s <- str_strip prompt_text;; Ok (s =? "").

(** [prompt_text.lower().strip().startswith('negative')] *)
Definition starts_negative (prompt_text : json) : result bool :=
  l <- str_lower prompt_text;;
  Ok (PyStr.startswith (PyStr.strip l) "negative").

(** The test for a text-encode node, the same in both files. *)
Definition is_text_encode (node node_type : json) : result bool :=
  Ok (eq_str node_type "CLIPTextEncode")
  ||| (l <- str_lower node_type;; Ok (PyStr.contains "cliptext" l))
  ||| (properties <- get node "properties" (JObj []);;
       name <- get properties "Node name for S&R" JNull;;
       Ok (eq_str name "CLIPTextEncode")).

(** [widgets_values and len(widgets_values) > 0] *)
Definition has_widgets (widgets_values : json) : result bool :=
  Ok (truthy widgets_values) &&& (n <- len widgets_values;; Ok (0 <? n)%nat).

(** A value of the metadata mapping [img.info].  Only what the extractors
    observe of it is kept: a [str]; a [bytes] with the outcome of
    [.decode('utf-8', errors='ignore')] and of [str(.)]; a list or a dict
    with the outcome of [json.dumps(., ensure_ascii=False)]; anything else
    with the outcome of [str(.)]. *)
Inductive meta_value : Type :=
| MStr (s : string)
| MBytes (decoded as_str : result string)
| MContainer (dumped : result string)
| MOther (as_str : result string).

Definition metadata_map : Type := list (string * meta_value).

(** [except Exception as e: raise Exception(f"Error reading PNG file: {e}")] *)
Definition reraise {A : Type} (m : result A) : result A :=
  catch m (fun _ => Err Exception_).

(** [json.loads] is the library's: a parameter of the pipelines.  Whatever it
    raises that is not [JSONDecodeError] passes the [except] clauses. *)
Definition loader : Type := meta_value -> result json.

(** [try: data = json.loads(v); ... except json.JSONDecodeError: handler] *)
Definition try_loads {A : Type} (json_loads : loader) (v : meta_value)
    (body : json -> result A) (handler : result A) : result A :=
  match json_loads v with
  | Ok data => body data
  | Err JSONDecodeError => handler
  | Err e => Err e
  end.

(** [for key in possible_keys: if key in parsed_params: ...], in both
    parameters extractors: the value of the first key that is present. *)
Fixpoint first_present (keys : list string) (parsed_params : list (string * json))
  : option json :=
  match keys with
  | [] => None
  | key :: rest =>
      match assoc key parsed_params with
      | Some value => Some value
      | None => first_present rest parsed_params
      end
  end.

(** ** comfyprompt_extractor.py (and comfy_drop_ui.py) *)

Module comfyprompt_extractor.

Definition workflow_node (node : json) (processed_nodes : pyset)
  : result (option prompt_info) :=
  node_id <- get node "id" JNull;;
  node_type <- get node "type" (JStr "");;
  raw_title <- get node "title" (JStr "");;
  title <- str_lower raw_title;;
  seen <- set_in node_id processed_nodes;;
  if seen then Ok None else
  clip <- is_text_encode node node_type;;
  if negb clip then Ok None else
  widgets_values <- get node "widgets_values" (JArr []);;
  some <- has_widgets widgets_values;;
  if negb some then Ok None else
  prompt_text <- getitem0 widgets_values;;
  is_positive <-
    (Ok (PyStr.contains "positive" title)
     ||| Ok (PyStr.contains "pos" title)
     ||| (Ok (title =? "") &&& strip_nonempty prompt_text
          &&& no_negative_at_start prompt_text)
     ||| (Ok (title =? "untitled") &&& strip_nonempty prompt_text
          &&& no_negative_at_start prompt_text));;
  is_negative <-
    (Ok (PyStr.contains "negative" title)
     ||| Ok (PyStr.contains "neg" title)
     ||| strip_empty prompt_text
     ||| starts_negative prompt_text);;
  if is_positive && negb is_negative then
    shown_title <- get node "title" (JStr "Untitled");;
    Ok (Some {| text := prompt_text;
                node_id := node_id;
                node_type := node_type;
                title := shown_title;
                source := "workflow" |})
  else Ok None.

Definition extract_positive_from_workflow (workflow_data : json)
    (processed_nodes : pyset) : result (list prompt_info * pyset) :=
  nodes <- get workflow_data "nodes" (JArr []);;
  node_list <- iter nodes;;
  emit_loop workflow_node node_list processed_nodes.

Definition prompt_entry (entry : string * json) (processed_nodes : pyset)
  : result (option prompt_info) :=
  let '(key, value) := entry in
  if negb (is_dict value) then Ok None else
  class_type <- get value "class_type" (JStr "");;
  seen <- set_in (JStr key) processed_nodes;;
  if seen then Ok None else
  if negb (eq_str class_type "CLIPTextEncode") then Ok None else
  inputs <- get value "inputs" (JObj []);;
  has_text <- contains_str "text" inputs;;
  text_content <-
    (if has_text then getitem_str inputs "text"
     else has_prompt <- contains_str "prompt" inputs;;
          if has_prompt then getitem_str inputs "prompt" else Ok (JStr ""));;
  go <- (Ok (truthy text_content)
         &&& (s <- str_strip text_content;; Ok (truthy (JStr s))));;
  if negb go then Ok None else
  is_negative <-
    (strip_empty text_content
     ||| Ok (PyStr.contains "negative"
               (PyStr.take 50 (PyStr.lower (str text_content)))));;
  if negb is_negative then
    Ok (Some {| text := text_content;
                node_id := JStr key;
                node_type := class_type;
                title := JStr ("Node " ++ key);
                source := "prompt_data" |})
  else Ok None.

Definition extract_positive_from_prompt_data (prompt_data : json)
    (processed_nodes : pyset) : result (list prompt_info * pyset) :=
  entries <- items prompt_data;;
  emit_loop prompt_entry entries processed_nodes.

Section Pipeline.
Variable json_loads : loader.

(** The body of [extract_positive_prompts_only] from [metadata = img.info]
    on; the value is [result['positive_prompts']]. *)
Definition extract_positive_prompts_only (metadata : metadata_map)
  : result (list prompt_info) :=
  reraise (
    let processed_nodes : pyset := [] in
    '(from_workflow, processed_nodes) <-
      match assoc "workflow" metadata with
      | Some v =>
          try_loads json_loads v
            (fun workflow_data =>
               extract_positive_from_workflow workflow_data processed_nodes)
            (Ok ([], processed_nodes))
      | None => Ok ([], processed_nodes)
      end;;
    match from_workflow, assoc "prompt" metadata with
    | [], Some v =>
        '(from_prompt, _) <-
          try_loads json_loads v
            (fun prompt_data =>
               extract_positive_from_prompt_data prompt_data processed_nodes)
            (Ok ([], processed_nodes));;
        Ok (from_workflow ++ from_prompt)%list
    | _, _ => Ok from_workflow
    end).
End Pipeline.

End comfyprompt_extractor.

(** ** unified_extractor_ui.py *)

Module unified_extractor_ui.

(** [isinstance(v, (str, int, float))]: a [bool] is an [int]. *)
Definition is_str_int_float (v : json) : bool :=
  match v with
  | JStr _ | JInt _ | JFloat _ _ | JBool _ => true
  | _ => false
  end.

Definition workflow_node (node : json) (processed_nodes : pyset)
  : result (option prompt_info) :=
  node_id <- get node "id" JNull;;
  node_type <- get node "type" (JStr "");;
  raw_title <- get node "title" (JStr "");;
  title <- str_lower raw_title;;
  seen <- set_in node_id processed_nodes;;
  if seen then Ok None else
  clip <- is_text_encode node node_type;;
  if negb clip then Ok None else
  widgets_values <- get node "widgets_values" (JArr []);;
  some <- has_widgets widgets_values;;
  if negb some then Ok None else
  prompt_text <- getitem0 widgets_values;;
  is_positive <-
    (Ok (PyStr.contains "positive" title)
     ||| Ok (PyStr.contains "pos" title)
     ||| (Ok (title =? "") &&& Ok (is_str prompt_text)
          &&& strip_nonempty prompt_text &&& no_negative_at_start prompt_text)
     ||| (Ok (title =? "untitled") &&& Ok (is_str prompt_text)
          &&& strip_nonempty prompt_text &&& no_negative_at_start prompt_text));;
  is_negative <-
    (Ok (PyStr.contains "negative" title)
     ||| Ok (PyStr.contains "neg" title)
     ||| (Ok (is_str prompt_text)
          &&& (strip_empty prompt_text ||| starts_negative prompt_text)));;
  let prompt_text :=
    match prompt_text with
    | JArr l => JStr (join_lines l)
    | _ => prompt_text
    end in
  if is_positive && negb is_negative && is_str_int_float prompt_text then
    shown_title <- get node "title" (JStr "Untitled");;
    Ok (Some {| text := JStr (str prompt_text);
                node_id := node_id;
                node_type := node_type;
                title := shown_title;
                source := "workflow" |})
  else Ok None.

Definition extract_positive_from_workflow (workflow_data : json)
    (processed_nodes : pyset) : result (list prompt_info * pyset) :=
  nodes <- get workflow_data "nodes" (JArr []);;
  node_list <- iter nodes;;
  emit_loop workflow_node node_list processed_nodes.

(** The normalisation of [text_content] to a string. *)
Definition normalize (text_content : json) : string :=
  match text_content with
  | JArr l => join_lines l
  | JStr s => s
  | other => str other
  end.

Definition prompt_entry (entry : string * json) (processed_nodes : pyset)
  : result (option prompt_info) :=
  let '(key, value) := entry in
  if negb (is_dict value) then Ok None else
  class_type <- get value "class_type" (JStr "");;
  seen <- set_in (JStr key) processed_nodes;;
  if seen then Ok None else
  if negb (eq_str class_type "CLIPTextEncode") then Ok None else
  inputs <- get value "inputs" (JObj []);;
  has_text <- contains_str "text" inputs;;
  text_content <-
    (if has_text then getitem_str inputs "text"
     else has_prompt <- contains_str "prompt" inputs;;
          if has_prompt then getitem_str inputs "prompt" else Ok JNull);;
  match text_content with
  | JNull => Ok None
  | _ =>
      let text_content := normalize text_content in
      if negb (PyStr.strip text_content =? "") then
        let is_negative :=
          PyStr.contains "negative" (PyStr.take 50 (PyStr.lower text_content)) in
        if negb is_negative then
          Ok (Some {| text := JStr text_content;
                      node_id := JStr key;
                      node_type := class_type;
                      title := JStr ("Node " ++ key);
                      source := "prompt_data" |})
        else Ok None
      else Ok None
  end.

Definition extract_positive_from_prompt_data (prompt_data : json)
    (processed_nodes : pyset) : result (list prompt_info * pyset) :=
  entries <- items prompt_data;;
  emit_loop prompt_entry entries processed_nodes.

Definition possible_keys : list string :=
  ["Positive prompt"; "positive prompt"; "Positive Prompt"; "positive_prompt";
   "prompt"; "Prompt"].

Definition param_names : list string :=
  ["negative prompt"; "steps"; "sampler"; "cfg scale"; "seed"; "size"; "model";
   "clip skip"].

(** The [while j < len(lines)] loop: the lines collected before the first
    parameter line. *)
Fixpoint continuation (lines : list string) : list string :=
  match lines with
  | [] => []
  | next_line :: rest =>
      let nl := PyStr.lower (PyStr.strip next_line) in
      if PyStr.has_char PyStr.COLON nl
         && existsb (fun param => PyStr.contains param nl) param_names
      then []
      else PyStr.rstrip next_line :: continuation rest
  end.

(** [while k < len(out_lines) and out_lines[k].strip() == '': k += 1],
    then [out_lines[k:]]. *)
Fixpoint drop_blank (out_lines : list string) : list string :=
  match out_lines with
  | [] => []
  | l :: rest => if PyStr.strip l =? "" then drop_blank rest else out_lines
  end.

(** The text format: the [for i, line in enumerate(lines)] loop. *)
Fixpoint scan_lines (lines : list string) : result (option string) :=
  match lines with
  | [] => Ok None
  | line :: rest =>
      let line_stripped_lower := PyStr.lower (PyStr.strip line) in
      if PyStr.startswith line_stripped_lower "positive prompt:" then
        prompt_text <-
          (if PyStr.has_char PyStr.COLON line then
             match nth_error (PyStr.split1 PyStr.COLON line) 1 with
             | Some after => Ok (PyStr.strip after)
             | None => Err IndexError
             end
           else Ok "");;
        let prompt_lines :=
          ((if truthy (JStr prompt_text) then [prompt_text] else [])
             ++ continuation rest)%list in
        let full_prompt := PyStr.rstrip (PyStr.join PyStr.nl prompt_lines) in
        let out_lines := drop_blank (PyStr.splitlines full_prompt) in
        match out_lines with
        | [] => Ok None
        | _ => Ok (Some (PyStr.join PyStr.nl out_lines))
        end
      else scan_lines rest
  end.

(** The coercion of [metadata['parameters']] to a string. *)
Definition coerce (parameters_data : meta_value) : result string :=
  match parameters_data with
  | MBytes decoded as_str => catch decoded (fun _ => as_str)
  | MContainer dumped => dumped
  | MStr s => Ok s
  | MOther as_str => as_str
  end.

Section Parameters.
Variable json_loads : loader.

(** What the [try: ... except json.JSONDecodeError: pass] block returns,
    if it returns: [Some r] for [return r]. *)
Definition json_format (parameters_data : string)
  : result (option (option string)) :=
  try_loads json_loads (MStr parameters_data)
    (fun parsed_params =>
       match parsed_params with
       | JObj entries =>
           match first_present possible_keys entries with
           | Some value =>
               match value with
               | JArr l => Ok (Some (Some (join_lines l)))
               | JNull => Ok (Some None)
               | _ => Ok (Some (Some (str value)))
               end
           | None => Ok None
           end
       | _ => Ok None
       end)
    (Ok None).

(** The body of the outer [try]. *)
Definition strict_body (metadata : metadata_map) : result (option string) :=
  match assoc "parameters" metadata with
  | None => Ok None
  | Some parameters_data =>
      parameters_data <- coerce parameters_data;;
      returned <- json_format parameters_data;;
      match returned with
      | Some r => Ok r
      | None => scan_lines (PyStr.split PyStr.LF parameters_data)
      end
  end.

Definition extract_positive_from_parameters_strict (metadata : metadata_map)
  : result (option string) :=
  catch (strict_body metadata) (fun _ => Ok None).

(** The body of [extract_positive_prompts_parameters] from
    [metadata = img.info] on. *)
Definition extract_positive_prompts_parameters (metadata : metadata_map)
  : result (list prompt_info) :=
  reraise (
    prompt_text <- extract_positive_from_parameters_strict metadata;;
    match prompt_text with
    | Some t =>
        if truthy (JStr t) then
          Ok [ {| text := JStr t;
                  node_id := JStr "parameters";
                  node_type := JStr "parameters";
                  title := JStr "Parameters";
                  source := "parameters" |} ]
        else Ok []
    | None => Ok []
    end).

(** The body of [extract_positive_prompts_comfyui]. *)
Definition extract_positive_prompts_comfyui (metadata : metadata_map)
  : result (list prompt_info) :=
  reraise (
    let processed_nodes : pyset := [] in
    '(from_workflow, processed_nodes) <-
      match assoc "workflow" metadata with
      | Some v =>
          try_loads json_loads v
            (fun workflow_data =>
               extract_positive_from_workflow workflow_data processed_nodes)
            (Ok ([], processed_nodes))
      | None => Ok ([], processed_nodes)
      end;;
    match from_workflow, assoc "prompt" metadata with
    | [], Some v =>
        '(from_prompt, _) <-
          try_loads json_loads v
            (fun prompt_data =>
               extract_positive_from_prompt_data prompt_data processed_nodes)
            (Ok ([], processed_nodes));;
        Ok (from_workflow ++ from_prompt)%list
    | _, _ => Ok from_workflow
    end).
End Parameters.

End unified_extractor_ui.

(** ** prompt_extractor.py (and wlsh_prompt_extractor_ui.py) *)

Module prompt_extractor.

Definition possible_keys : list string :=
  ["Positive prompt"; "positive prompt"; "Positive Prompt"; "positive_prompt";
   "prompt"; "Prompt"].

(** The [while j < len(lines)] loop: the continuation lines, each with the
    space that joins it. *)
Fixpoint continuation (lines : list string) : string :=
  match lines with
  | [] => ""
  | l :: rest =>
      let next_line := PyStr.strip l in
      if PyStr.has_char PyStr.COLON next_line || negb (truthy (JStr next_line))
      then ""
      else " " ++ next_line ++ continuation rest
  end.

(** The text format.  The function returns a Python value: [JNull] is
    [None]. *)
Fixpoint scan_lines (lines : list string) : result json :=
  match lines with
  | [] => Ok JNull
  | l :: rest =>
      let line := PyStr.strip l in
      if PyStr.startswith (PyStr.lower line) "positive prompt:" then
        match nth_error (PyStr.split1 PyStr.COLON line) 1 with
        | Some after => Ok (JStr (PyStr.strip after ++ continuation rest))
        | None => Err IndexError
        end
      else scan_lines rest
  end.

(** [parameters_data.split('\n')]: [bytes.split] refuses a [str]
    separator, other values have no such method. *)
Definition split_lines (parameters_data : meta_value) : result (list string) :=
  match parameters_data with
  | MStr s => Ok (PyStr.split PyStr.LF s)
  | MBytes _ _ => Err TypeError
  | _ => Err AttributeError
  end.

Section Parameters.
Variable json_loads : loader.

(** The body of [extract_positive_prompt] from [metadata = img.info]
    on, for a file that [Image.open] has opened and whose format has passed
    the check; the function from [Image.open] on, with that check, is
    [prompt_extractor_debug.extract_positive_prompt]. *)
Definition extract_positive_prompt (metadata : metadata_map) : result json :=
  reraise (
    match assoc "parameters" metadata with
    | None => Ok JNull
    | Some parameters_data =>
        returned <-
          try_loads json_loads parameters_data
            (fun parsed_params =>
               match parsed_params with
               | JObj entries =>
                   Ok (first_present possible_keys entries)
               | _ => Ok None
               end)
            (Ok None);;
        match returned with
        | Some value => Ok value
        | None =>
            lines <- split_lines parameters_data;;
            scan_lines lines
        end
    end).
End Parameters.

End prompt_extractor.

(** ** Vocabulary of the statements *)

(** No identifier is equal to one that comes before it. *)
Fixpoint distinct_ids (ids : list json) : Prop :=
  match ids with
  | [] => True
  | x :: rest => (forall y, In y rest -> key_eqb y x = false) /\ distinct_ids rest
  end.

(** A step that emits only for an identifier the set does not hold. *)
Definition guarded {A : Type} (step : A -> pyset -> result (option prompt_info)) : Prop :=
  forall x ps info, step x ps = Ok (Some info) -> set_in (node_id info) ps = Ok false.

(** A record with no node identifier. *)
Definition idless (info : prompt_info) : bool :=
  match node_id info with JNull => true | _ => false end.

(** One pass: distinct identifiers, all records of one source. *)
Definition one_source (src : string) (prompts : list prompt_info) : Prop :=
  distinct_ids (map node_id prompts) /\ NoDup (map node_id prompts)
  /\ forall info, In info prompts -> source info = src.

(** [node.get('id')] for a dict node. *)
Definition id_of (fields : list (string * json)) : json :=
  match assoc "id" fields with Some v => v | None => JNull end.

(** The record of a node titled "Positive" whose first widget value is the
    string [text0]. *)
Definition positive_record (fields : list (string * json)) (text0 : string) : prompt_info :=
  {| text := JStr text0; node_id := id_of fields;
     node_type := JStr "CLIPTextEncode"; title := JStr "Positive";
     source := "workflow" |}.

(** A node of type "CLIPTextEncode" titled "Positive" whose first widget
    value is a string that is not blank and does not start, lower-cased and
    stripped, with "negative". *)
Definition positive_node (fields : list (string * json)) (text0 : string) : Prop :=
  assoc "type" fields = Some (JStr "CLIPTextEncode")
  /\ assoc "title" fields = Some (JStr "Positive")
  /\ (exists ws, assoc "widgets_values" fields = Some (JArr (JStr text0 :: ws)))
  /\ PyStr.strip text0 <> ""
  /\ PyStr.startswith (PyStr.strip (PyStr.lower text0)) "negative" = false.

(** [title = node.get('title', '').lower()] *)
Definition lowered_title (node : json) : result string :=
  raw_title <- get node "title" (JStr "");; str_lower raw_title.

(** The classification the title alone gives. *)
Definition title_accepts (t : string) : bool :=
  (PyStr.contains "positive" t || PyStr.contains "pos" t)
  && negb (PyStr.contains "negative" t || PyStr.contains "neg" t).

(** The parameters string "Positive prompt: foo bar\nSteps: 20". *)
Definition foo_bar_parameters : string :=
  "Positive prompt: foo bar" ++ PyStr.nl ++ "Steps: 20".

(** A text that is a string and not blank. *)
Definition not_blank (v : json) : Prop :=
  exists s, v = JStr s /\ PyStr.strip s <> "".

(** [inputs["text"]] if that key is present, else [inputs["prompt"]]. *)
Definition selected_text (inputs : list (string * json)) : option json :=
  match assoc "text" inputs with
  | Some v => Some v
  | None => assoc "prompt" inputs
  end.

(** The record of a pair (key, node), in the words of the prompt-graph rule:
    the node is an object of class "CLIPTextEncode", its selected text exists,
    is not blank once normalised, and has no "negative" in its first 50
    lower-cased characters. *)
Definition graph_record (entry : string * json) : option prompt_info :=
  let '(key, node) := entry in
  match node with
  | JObj fields =>
      let class_type :=
        match assoc "class_type" fields with Some c => c | None => JStr "" end in
      let inputs :=
        match assoc "inputs" fields with Some (JObj i) => i | _ => [] end in
      if eq_str class_type "CLIPTextEncode" then
        match selected_text inputs with
        | None | Some JNull => None
        | Some v =>
            let t := unified_extractor_ui.normalize v in
            if negb (PyStr.strip t =? "")
               && negb (PyStr.contains "negative" (PyStr.take 50 (PyStr.lower t)))
            then Some {| text := JStr t; node_id := JStr key; node_type := class_type;
                         title := JStr ("Node " ++ key); source := "prompt_data" |}
            else None
        end
      else None
  | _ => None
  end.

(** The [inputs] of an object node is a mapping, when it is there. *)
Definition inputs_mapping (node : json) : Prop :=
  match node with
  | JObj fields =>
      match assoc "inputs" fields with
      | Some (JObj _) | None => True
      | Some _ => False
      end
  | _ => True
  end.

(** The records of the pairs of a mapping, in its order. *)
Definition records_of (entries : list (string * json)) : list prompt_info :=
  flat_map (fun e => match graph_record e with Some r => [r] | None => [] end) entries.

(** ** Example inputs *)

(** A name between double quotes, as JSON text has it. *)
Definition quoted (s : string) : string :=
  String PyStr.DQUOTE (s ++ String PyStr.DQUOTE "").

(** A decoder that knows the listed texts only and rejects every other
    string: a stand-in for [json.loads] on the examples. *)
Definition table_loader (table : list (string * json)) : loader :=
  fun v =>
    match v with
    | MStr s => match assoc s table with
                | Some data => Ok data
                | None => Err JSONDecodeError
                end
    | _ => Err TypeError
    end.

(** The fields of a "CLIPTextEncode" node with one widget value. *)
Definition clip_fields (title : string) (value : json) : list (string * json) :=
  [("type", JStr "CLIPTextEncode"); ("title", JStr title);
   ("widgets_values", JArr [value])].

Definition clip_node (id : Z) (title : string) (value : json) : json :=
  JObj (("id", JInt id) :: clip_fields title value).

Definition workflow_of (nodes : list json) : list (string * json) :=
  [("nodes", JArr nodes)].

(** A "CLIPTextEncode" entry of a prompt graph. *)
Definition graph_node (text_input : json) : json :=
  JObj [("class_type", JStr "CLIPTextEncode"); ("inputs", JObj [("text", text_input)])].

(** [{"prompt": ["a","b"]}] and [{"prompt": null}], as text and decoded. *)
Definition ab_text : string :=
  "{" ++ quoted "prompt" ++ ": [" ++ quoted "a" ++ "," ++ quoted "b" ++ "]}".
Definition ab_value : json := JObj [("prompt", JArr [JStr "a"; JStr "b"])].
Definition null_text : string := "{" ++ quoted "prompt" ++ ": null}".
Definition null_value : json := JObj [("prompt", JNull)].

(** A file with a workflow of two positive nodes and a prompt graph that
    describes the first of them again. *)
Definition two_node_workflow_text : string :=
  "{" ++ quoted "nodes" ++ ": [{" ++ quoted "id" ++ ": 1, " ++ quoted "type" ++ ": "
  ++ quoted "CLIPTextEncode" ++ ", " ++ quoted "title" ++ ": " ++ quoted "Positive"
  ++ ", " ++ quoted "widgets_values" ++ ": [" ++ quoted "a cat" ++ "]}, {"
  ++ quoted "id" ++ ": 2, " ++ quoted "type" ++ ": " ++ quoted "CLIPTextEncode"
  ++ ", " ++ quoted "title" ++ ": " ++ quoted "Style (pos)" ++ ", "
  ++ quoted "widgets_values" ++ ": [" ++ quoted "oil on canvas" ++ "]}]}".
Definition two_node_workflow : json :=
  JObj (workflow_of [clip_node 1 "Positive" (JStr "a cat");
                     clip_node 2 "Style (pos)" (JStr "oil on canvas")]).
Definition one_node_graph_text : string :=
  "{" ++ quoted "1" ++ ": {" ++ quoted "class_type" ++ ": " ++ quoted "CLIPTextEncode"
  ++ ", " ++ quoted "inputs" ++ ": {" ++ quoted "text" ++ ": " ++ quoted "a cat" ++ "}}}".
Definition one_node_graph : json := JObj [("1", graph_node (JStr "a cat"))].
Definition two_pass_loader : loader :=
  table_loader [(two_node_workflow_text, two_node_workflow);
                (one_node_graph_text, one_node_graph)].
Definition two_pass_metadata : metadata_map :=
  [("workflow", MStr two_node_workflow_text); ("prompt", MStr one_node_graph_text)].

(** ** comfyui_extractor.py *)

Module comfyui_extractor.

(** What [result['comfyui_data']] holds under a key: the decoded value, or
    the metadata value itself when it is not JSON. *)
Inductive stored : Type :=
| Parsed (data : json)
| Raw (value : meta_value).

Definition comfyui_keys : list string := ["workflow"; "prompt"; "Workflow"; "Prompt"].

(** [d[k] = v]: a key the dict has keeps its place. *)
Fixpoint dict_set {A : Type} (k : string) (v : A) (d : list (string * A))
  : list (string * A) :=
  match d with
  | [] => [(k, v)]
  | (k', v') :: rest =>
      if k' =? k then (k', v) :: rest else (k', v') :: dict_set k v rest
  end.

(** [metadata[key]] *)
Definition getitem (metadata : metadata_map) (key : string) : result meta_value :=
  match assoc key metadata with
  | Some v => Ok v
  | None => Err KeyError
  end.

Section Extract.
Variable json_loads : loader.

(** [try: data[target] = json.loads(metadata[key])
     except json.JSONDecodeError: data[target] = metadata[key]] *)
Definition store (metadata : metadata_map) (key target : string)
    (comfyui_data : list (string * stored)) : result (list (string * stored)) :=
  value <- getitem metadata key;;
  try_loads json_loads value
    (fun parsed_data => Ok (dict_set target (Parsed parsed_data) comfyui_data))
    (Ok (dict_set target (Raw value) comfyui_data)).

(** The body of [for key in metadata]. *)
Definition visit (metadata : metadata_map) (key : string)
    (comfyui_data : list (string * stored)) : result (list (string * stored)) :=
  if existsb (String.eqb key) comfyui_keys then
    store metadata key (PyStr.lower key) comfyui_data
  else if PyStr.contains "comfy" (PyStr.lower key)
          || PyStr.contains "workflow" (PyStr.lower key) then
    store metadata key key comfyui_data
  else Ok comfyui_data.

Fixpoint visit_all (metadata : metadata_map) (keys : list string)
    (comfyui_data : list (string * stored)) : result (list (string * stored)) :=
  match keys with
  | [] => Ok comfyui_data
  | key :: rest =>
      comfyui_data <- visit metadata key comfyui_data;;
      visit_all metadata rest comfyui_data
  end.

(** The body of [extract_comfyui_workflow] from [metadata = img.info] on;
    the value is [result['comfyui_data']]. *)
Definition extract_comfyui_workflow (metadata : metadata_map)
  : result (list (string * stored)) :=
  reraise (visit_all metadata (map fst metadata) []).
End Extract.

(** What [save_workflow_only] dumps: the entry under 'workflow', if there is
    one. *)
Definition save_workflow_only (comfyui_data : list (string * stored)) : option stored :=
  assoc "workflow" comfyui_data.

End comfyui_extractor.

(** ** comfyprompt_extractor.py: the arguments of [main] *)

Module comfyprompt_extractor_main.

(** [arg.startswith('--')] *)
Definition is_option (arg : string) : bool := PyStr.startswith arg "--".

(** [paths = [arg for arg in args if not arg.startswith('--')]] *)
Definition paths (args : list string) : list string :=
  filter (fun arg => negb (is_option arg)) args.

(** [options = [arg for arg in args if arg.startswith('--')]] *)
Definition options (args : list string) : list string := filter is_option args.

(** [for i, arg in enumerate(args): if arg == '--output':
     output_dir_index = i + 1; break], from the index [i] on; -1 is the
    value the variable has before the loop. *)
Fixpoint output_dir_index (i : Z) (args : list string) : Z :=
  match args with
  | [] => -1
  | arg :: rest => if arg =? "--output" then i + 1 else output_dir_index (i + 1) rest
  end.

(** [args[i]] *)
Definition getitem (args : list string) (i : Z) : option string :=
  let n := Z.of_nat (List.length args) in
  if (0 <=? i)%Z then nth_error args (Z.to_nat i)
  else if (0 <=? n + i)%Z then nth_error args (Z.to_nat (n + i))
  else None.

(** How far [main] gets before its loop over the files: the usage text (no
    argument, or [--help]), the message that no input was given, the message
    that no PNG file was found, the message about [--output] (no directory
    after it, or a directory that cannot be made), or the loop, with the
    files and the output directory. *)
Inductive setup : Type :=
| Usage
| NoInput
| NoFiles
| OutputError
| Ready (files_to_process : list string) (output_dir : option string).

Section Main.

(** The search of the file system: the sorted PNG files that the paths and
    patterns lead to. *)
Variable find_png : list string -> list string.

(** [if not os.path.exists(output_dir): os.makedirs(output_dir)] goes
    through; [false] when [os.makedirs] raises. *)
Variable ensure_dir : string -> bool.

(** The [if '--output' in options] block, reached with the files found. *)
Definition output_block (args : list string) (files_to_process : list string) : setup :=
  if existsb (String.eqb "--output") (options args) then
    let output_dir_index := output_dir_index 0 args in
    if negb (output_dir_index =? -1)%Z
       && (output_dir_index <? Z.of_nat (List.length args))%Z then
      match getitem args output_dir_index with
      | Some arg =>
          if negb (is_option arg) then
            if ensure_dir arg then Ready files_to_process (Some arg) else OutputError
          else OutputError
      | None => OutputError
      end
    else OutputError
  else Ready files_to_process None.

(** [main], from [args = sys.argv[1:]] to the loop over the files. *)
Definition main (args : list string) : setup :=
  match args with
  | [] => Usage
  | _ =>
      if existsb (String.eqb "--help") args then Usage else
      match paths args with
      | [] => NoInput
      | _ =>
          match find_png (paths args) with
          | [] => NoFiles
          | files_to_process => output_block args files_to_process
          end
      end
  end.

End Main.

End comfyprompt_extractor_main.

(** ** unified_extractor_ui.py and comfy_drop_ui.py: the counters of
    [update_results] *)

Module update_results.

(** [total_prompts], [files_with_prompts] and [all_prompt_texts]. *)
Record tally : Type := mk_tally {
  total_prompts : Z;
  files_with_prompts : Z;
  all_prompt_texts : list json
}.

(** The [for j, prompt_info in enumerate(positive_prompts, 1)] loop, as far
    as the list of texts goes. *)
Definition append_texts (positive_prompts : list prompt_info) (texts : list json)
  : list json :=
  fold_left (fun texts prompt_info => texts ++ [text prompt_info])%list positive_prompts texts.

(** The body of [for i, result in enumerate(results)]; a result is given by
    its ['positive_prompts']. *)
Definition count_file (t : tally) (positive_prompts : list prompt_info) : tally :=
  match positive_prompts with
  | [] => t
  | _ =>
      {| total_prompts := total_prompts t + Z.of_nat (List.length positive_prompts);
         files_with_prompts := files_with_prompts t + 1;
         all_prompt_texts := append_texts positive_prompts (all_prompt_texts t) |}
  end.

Definition count_files (results : list (list prompt_info)) : tally :=
  fold_left count_file results
    {| total_prompts := 0; files_with_prompts := 0; all_prompt_texts := [] |}.

(** [if files_with_prompts == 0]: the summary says that nothing was
    found. *)
Definition nothing_found (t : tally) : bool := (files_with_prompts t =? 0)%Z.

(** [if total_prompts > 0]: the copy and save buttons are enabled. *)
Definition buttons_enabled (t : tally) : bool := (0 <? total_prompts t)%Z.

(** [self.all_prompt_texts] after the call. *)
Definition stored_texts (t : tally) : list json :=
  if buttons_enabled t then all_prompt_texts t else [].

End update_results.

(** ** prompt_extractor.py: the debug view of the parameters *)

Module prompt_extractor_debug.

(** [result['parameters_content']]: [None], or the dict with its ['type']
    and ['data']. *)
Inductive content : Type :=
| NoContent
| JsonContent (data : json)
| StringContent (data : meta_value).

Record structure : Type := mk_structure {
  parameters_found : bool;
  parameters_content : content;
  all_keys : list string
}.

(** The image [Image.open] returns: [img.format] and [img.info]. *)
Record image : Type := mk_image {
  format : string;
  info : metadata_map
}.

Section Structure.
Variable json_loads : loader.

(** The part of [extract_parameters_structure] from [metadata = img.info]
    on, without the file information. *)
Definition parameters_structure (metadata : metadata_map) : result structure :=
  reraise (
    match assoc "parameters" metadata with
    | None =>
        Ok {| parameters_found := false; parameters_content := NoContent;
              all_keys := map fst metadata |}
    | Some parameters_data =>
        try_loads json_loads parameters_data
          (fun parsed_data =>
             Ok {| parameters_found := true; parameters_content := JsonContent parsed_data;
                   all_keys := map fst metadata |})
          (Ok {| parameters_found := true;
                 parameters_content := StringContent parameters_data;
                 all_keys := map fst metadata |})
    end).

(** [extract_parameters_structure], from [Image.open] on: what [Image.open]
    raises is wrapped by the [except] clause; the format of the image is not
    looked at. *)
Definition extract_parameters_structure (opened : result image) : result structure :=
  img <- reraise opened;;
  parameters_structure (info img).

(** [extract_positive_prompt], from [Image.open] on: an image that is not a
    PNG raises [ValueError] inside the [try], which the [except] clause
    wraps as well. *)
Definition extract_positive_prompt (opened : result image) : result json :=
  img <- reraise opened;;
  if negb (format img =? "PNG") then reraise (Err OtherException)
  else prompt_extractor.extract_positive_prompt json_loads (info img).
End Structure.

End prompt_extractor_debug.

(** ** comfyui_extractor.py: the node types of the summary *)

Module print_workflow_summary.

(** [node_types]: a dict from node types to counts, in insertion order. *)
Definition counts : Type := list (json * Z).

(** [node_types.get(node_type, 0)] *)
Fixpoint counts_get (node_type : json) (node_types : counts) : Z :=
  match node_types with
  | [] => 0
  | (k, n) :: rest => if key_eqb k node_type then n else counts_get node_type rest
  end.

(** [node_types[node_type] = n]: an equal key keeps its place and its
    spelling. *)
Fixpoint counts_set (node_type : json) (n : Z) (node_types : counts) : counts :=
  match node_types with
  | [] => [(node_type, n)]
  | (k, m) :: rest =>
      if key_eqb k node_type then (k, n) :: rest
      else (k, m) :: counts_set node_type n rest
  end.

(** The body of [for node in nodes]. *)
Definition count_node (node : json) (node_types : counts) : result counts :=
  node_type <- get node "type" (JStr "Unknown");;
  if hashable node_type
  then Ok (counts_set node_type (counts_get node_type node_types + 1) node_types)
  else Err TypeError.

Fixpoint count_nodes (nodes : list json) (node_types : counts) : result counts :=
  match nodes with
  | [] => Ok node_types
  | node :: rest =>
      node_types <- count_node node node_types;;
      count_nodes rest node_types
  end.

(** [node_types] after the loop over [value.get('nodes', [])]. *)
(** [node_types] after [nodes = value.get('nodes', [])], [len(nodes)] and
    [if nodes:] with its loop; the dict is empty when the loop is not
    reached. *)
Definition node_types (value : json) : result counts :=
  nodes <- get value "nodes" (JArr []);;
  _ <- len nodes;;
  if truthy nodes then
    node_list <- iter nodes;;
    count_nodes node_list []
  else Ok [].

End print_workflow_summary.

(** ** Vocabulary of the further statements *)

(** Every character of [s] passes [f]. *)
Fixpoint str_all (f : ascii -> bool) (s : string) : bool :=
  match s with
  | EmptyString => true
  | String c s' => f c && str_all f s'
  end.

Definition not_LF (c : ascii) : bool := negb (Ascii.eqb c PyStr.LF).
Definition not_linebreak (c : ascii) : bool := negb (PyStr.is_linebreak c).

(** A parameters block in the text format: the positive prompt [p] on the
    first line, a "Steps" line next, then the lines of [tail]. *)
Definition parameters_block (p : string) (tail : list string) : string :=
  PyStr.join PyStr.nl (("Positive prompt: " ++ p) :: "Steps: 20" :: tail).

(** A workflow with a positive node, a sampler whose widget values are
    numbers, and a text-encode node with a list as widget value whose
    identifier, 3, is taken to be processed. *)
Definition sampler_workflow : json :=
  JObj (workflow_of
          [clip_node 1 "Positive" (JStr "a cat");
           JObj [("id", JInt 2); ("type", JStr "KSampler");
                 ("widgets_values", JArr [JInt 42; JStr "euler"])];
           clip_node 3 "Positive" (JArr [JStr "a"; JStr "b"])]).

(** A prompt graph with a positive entry, a sampler whose text input is a
    number, and a text-encode entry whose text is a link to another node and
    whose key, "3", is taken to be processed. *)
Definition linked_graph : json :=
  JObj [("1", graph_node (JStr "a cat"));
        ("2", JObj [("class_type", JStr "KSampler"); ("inputs", JObj [("text", JInt 42)])]);
        ("3", graph_node (JArr [JStr "10"; JInt 0]))].

(** A file system with the file a.png and the directory out, which holds
    b.png: what the search of [main] finds from a list of paths. *)
Definition example_find_png (paths : list string) : list string :=
  (if existsb (String.eqb "a.png") paths then ["a.png"] else [])
  ++ (if existsb (String.eqb "out") paths then ["out/b.png"] else []).

(** On that file system no other directory can be made. *)
Definition example_ensure_dir (output_dir : string) : bool := output_dir =? "out".

(** A parameters block in that format. *)
Definition canvas_parameters : string :=
  parameters_block "a cat, oil on canvas" ["Sampler: Euler"; "Seed: 7"].

(** A parameters block with a prompt that goes on for a second line. *)
Definition two_line_parameters : string :=
  "Positive prompt: a cat" ++ PyStr.nl ++ "on a mat, oil" ++ PyStr.nl ++ "Steps: 20".

(** [ys] are picked from [xs] in order, each [y] related to the [x] it is
    picked from. *)
Inductive picked {A B : Type} (R : A -> B -> Prop) : list A -> list B -> Prop :=
| picked_nil : picked R [] []
| picked_skip x xs ys : picked R xs ys -> picked R (x :: xs) ys
| picked_take x xs y ys : R x y -> picked R xs ys -> picked R (x :: xs) (y :: ys).

(** The record [info] is the one of the workflow node [node], and the node
    passes the tests of the extractor of comfyprompt_extractor.py: a
    text-encode node, a title without "neg", a first widget value that is a
    string, not blank and not starting with "negative", and either "pos" in
    the title or no title (or "untitled") and no "negative" in the first 50
    characters of the text. *)
Definition cli_accepts (node : json) (info : prompt_info) : Prop :=
  exists (t s : string) (widgets_values : json),
    lowered_title node = Ok t
    /\ get node "id" JNull = Ok (node_id info)
    /\ get node "type" (JStr "") = Ok (node_type info)
    /\ get node "title" (JStr "Untitled") = Ok (title info)
    /\ source info = "workflow"
    /\ is_text_encode node (node_type info) = Ok true
    /\ get node "widgets_values" (JArr []) = Ok widgets_values
    /\ getitem0 widgets_values = Ok (JStr s)
    /\ text info = JStr s
    /\ PyStr.contains "neg" t = false
    /\ PyStr.strip s <> ""
    /\ PyStr.startswith (PyStr.strip (PyStr.lower s)) "negative" = false
    /\ (PyStr.contains "pos" t = true
        \/ ((t = "" \/ t = "untitled")
            /\ PyStr.contains "negative" (PyStr.take 50 (PyStr.lower s)) = false)).

(** The same for the extractor of unified_extractor_ui.py: the first widget
    value is a list, a string or a number, the text is its normalisation,
    and the tests on the text apply when it is a string. *)
Definition ui_accepts (node : json) (info : prompt_info) : Prop :=
  exists (t : string) (v widgets_values : json),
    lowered_title node = Ok t
    /\ get node "id" JNull = Ok (node_id info)
    /\ get node "type" (JStr "") = Ok (node_type info)
    /\ get node "title" (JStr "Untitled") = Ok (title info)
    /\ source info = "workflow"
    /\ is_text_encode node (node_type info) = Ok true
    /\ get node "widgets_values" (JArr []) = Ok widgets_values
    /\ getitem0 widgets_values = Ok v
    /\ text info = JStr (unified_extractor_ui.normalize v)
    /\ is_list v || unified_extractor_ui.is_str_int_float v = true
    /\ PyStr.contains "neg" t = false
    /\ (forall s, v = JStr s ->
        PyStr.strip s <> ""
        /\ PyStr.startswith (PyStr.strip (PyStr.lower s)) "negative" = false)
    /\ (PyStr.contains "pos" t = true
        \/ ((t = "" \/ t = "untitled")
            /\ exists s, v = JStr s
               /\ PyStr.contains "negative" (PyStr.take 50 (PyStr.lower s)) = false)).

(** The first widget value of the node is a string, if the node is one whose
    first widget value an extractor started on [processed_nodes] can read: a
    node whose identifier is not in that set and that passes the text-encode
    test.  Any other node, a sampler with numbers as widget values say, is
    left free. *)
Definition widget_is_string (processed_nodes : pyset) (node : json) : Prop :=
  forall node_id node_type widgets_values v,
    get node "id" JNull = Ok node_id ->
    set_in node_id processed_nodes = Ok false ->
    get node "type" (JStr "") = Ok node_type ->
    is_text_encode node node_type = Ok true ->
    get node "widgets_values" (JArr []) = Ok widgets_values ->
    getitem0 widgets_values = Ok v -> is_str v = true.

(** The text input of the prompt-graph entry is a string or [null], if the
    entry is one whose text input an extractor started on [processed_nodes]
    can read: an entry whose key is not in that set and whose class is
    "CLIPTextEncode".  Any other entry is left free. *)
Definition text_is_string (processed_nodes : pyset) (entry : string * json) : Prop :=
  forall class_type inputs v,
    set_in (JStr (fst entry)) processed_nodes = Ok false ->
    get (snd entry) "class_type" (JStr "") = Ok class_type ->
    eq_str class_type "CLIPTextEncode" = true ->
    get (snd entry) "inputs" (JObj []) = Ok inputs ->
    (getitem_str inputs "text" = Ok v
     \/ (contains_str "text" inputs = Ok false /\ getitem_str inputs "prompt" = Ok v)) ->
    is_str v = true \/ v = JNull.

(** A step that emits nothing on a larger set that holds the identifier of
    the record it emitted, if any. *)
Definition settled {A : Type} (step : A -> pyset -> result (option prompt_info)) : Prop :=
  forall x ps r ps',
    step x ps = Ok r -> incl ps ps' ->
    (forall info, r = Some info -> In (node_id info) ps') ->
    step x ps' = Ok None.

(** The list of records of a pass, without the set. *)
Definition records (r : result (list prompt_info * pyset)) : result (list prompt_info) :=
  '(out, _) <- r;; Ok out.

(** The metadata without the key [k]. *)
Definition without (k : string) (metadata : metadata_map) : metadata_map :=
  filter (fun kv => negb (fst kv =? k)) metadata.

(** A key of the metadata that [extract_comfyui_workflow] reads. *)
Definition comfy_key (key : string) : bool :=
  existsb (String.eqb key) comfyui_extractor.comfyui_keys
  || PyStr.contains "comfy" (PyStr.lower key)
  || PyStr.contains "workflow" (PyStr.lower key).

(** The dict has the key. *)
Definition has_key {A : Type} (k : string) (d : list (string * A)) : bool :=
  match assoc k d with Some _ => true | None => false end.

(** The key of [comfyui_data] a metadata key is stored under: the four
    known spellings in lower case, any other key as it is. *)
Definition target_of (key : string) : string :=
  if existsb (String.eqb key) comfyui_extractor.comfyui_keys then PyStr.lower key else key.

(** [s] is what the extractor stores for the metadata value [v]. *)
Definition decoded (json_loads : loader) (v : meta_value) (s : comfyui_extractor.stored)
  : Prop :=
  (exists data, json_loads v = Ok data /\ s = comfyui_extractor.Parsed data)
  \/ (json_loads v = Err JSONDecodeError /\ s = comfyui_extractor.Raw v).

(** The sum of the counts. *)
Definition counts_sum (node_types : print_workflow_summary.counts) : Z :=
  fold_right (fun kn acc => snd kn + acc)%Z 0%Z node_types.

(** The results that have prompts. *)
Definition has_prompts (positive_prompts : list prompt_info) : bool :=
  match positive_prompts with [] => false | _ => true end.

(** * Properties *)

(** ** Results *)

Lemma bind_Ok {A B : Type} (m : result A) (f : A -> result B) (b : B) :
  bind m f = Ok b -> exists a, m = Ok a /\ f a = Ok b.
Proof.
  destruct m as [a|e]; simpl; intros H; [exists a; auto | discriminate].
Qed.

(** Peel the outermost call or test off a computation known to return. *)
Ltac step_in H :=
  match type of H with
  | bind ?m _ = Ok _ =>
      let E := fresh "E" in
      destruct m eqn:E; cbn beta iota delta [bind] in H; [ | discriminate H]
  | (if ?b then _ else _) = Ok _ =>
      let E := fresh "E" in destruct b eqn:E
  | Ok None = Ok (Some _) => discriminate H
  end.

(** ** The extraction loop and the processed set *)

Lemma set_in_false (x : json) (ps : pyset) :
  set_in x ps = Ok false -> hashable x = true /\ forall y, In y ps -> key_eqb x y = false.
Proof.
  unfold set_in. destruct (hashable x); [ | discriminate].
  intros H. injection H as H. split; [reflexivity | ].
  intros y Hy. destruct (key_eqb x y) eqn:E; [ | reflexivity].
  assert (existsb (key_eqb x) ps = true) by (apply existsb_exists; eauto).
  congruence.
Qed.

Section Loop.
Context {A : Type} (step : A -> pyset -> result (option prompt_info)).

Lemma emit_loop_app (xs ys : list A) (ps : pyset) :
  emit_loop step (xs ++ ys) ps =
    ('(o1, p1) <- emit_loop step xs ps;;
     '(o2, p2) <- emit_loop step ys p1;;
     Ok ((o1 ++ o2)%list, p2)).
Proof.
  revert ps. induction xs as [|x xs IH]; intros ps; simpl.
  - destruct (emit_loop step ys ps) as [[o2 p2]|e]; reflexivity.
  - destruct (step x ps) as [[info|]|e]; simpl; [ | apply IH | reflexivity].
    rewrite IH.
    destruct (emit_loop step xs (set_add (node_id info) ps)) as [[o1 p1]|e];
      simpl; [ | reflexivity].
    destruct (emit_loop step ys p1) as [[o2 p2]|e]; reflexivity.
Qed.

(** The set after the loop: the emitted identifiers, last first, on top of
    the set before. *)
Lemma emit_loop_set (xs : list A) (ps : pyset) out ps' :
  emit_loop step xs ps = Ok (out, ps') ->
  ps' = (rev (map node_id out) ++ ps)%list.
Proof.
  revert ps out ps'. induction xs as [|x xs IH]; intros ps out ps' H; simpl in H.
  - injection H as <- <-. reflexivity.
  - step_in H. destruct a as [info|].
    + step_in H. destruct a as [more final]. injection H as <- <-.
      apply IH in E0. subst final. simpl. unfold set_add.
      rewrite <- app_assoc. reflexivity.
    + eauto.
Qed.

(** Every record comes from one entry, met with a set that extends the
    initial one. *)
Lemma emit_loop_origin (xs : list A) (ps : pyset) out ps' info :
  emit_loop step xs ps = Ok (out, ps') -> In info out ->
  exists x qs, In x xs /\ step x (qs ++ ps)%list = Ok (Some info).
Proof.
  revert ps out ps'. induction xs as [|x xs IH]; intros ps out ps' H Hin; simpl in H.
  - injection H as <- <-. destruct Hin.
  - step_in H. destruct a as [i|].
    + step_in H. destruct a as [more final]. injection H as <- <-.
      destruct Hin as [<- | Hin].
      * exists x, []. split; [left; reflexivity | exact E].
      * destruct (IH _ _ _ E0 Hin) as (y & qs & Hy & Hs).
        exists y, (qs ++ [node_id i])%list. split; [right; exact Hy | ].
        rewrite <- app_assoc. exact Hs.
    + destruct (IH _ _ _ H Hin) as (y & qs & Hy & Hs).
      exists y, qs. split; [right; exact Hy | exact Hs].
Qed.

Hypothesis step_guarded : guarded step.

(** With a guarded step the emitted identifiers are fresh and distinct. *)
Lemma emit_loop_fresh (xs : list A) (ps : pyset) out ps' :
  emit_loop step xs ps = Ok (out, ps') ->
  (forall info y, In info out -> In y ps -> key_eqb (node_id info) y = false)
  /\ distinct_ids (map node_id out).
Proof.
  revert ps out ps'. induction xs as [|x xs IH]; intros ps out ps' H; simpl in H.
  - injection H as <- <-. simpl. split; [intros ? ? [] | exact I].
  - step_in H. destruct a as [info|]; [ | eauto].
    step_in H. destruct a as [more final]. injection H as <- <-.
    destruct (IH _ _ _ E0) as [Hfresh Hdist].
    apply step_guarded, set_in_false in E. destruct E as [_ Hnew].
    split.
    + intros i y [<- | Hi] Hy; [auto | ].
      apply (Hfresh i y Hi). right. exact Hy.
    + simpl. split; [ | exact Hdist].
      intros y Hy. apply in_map_iff in Hy. destruct Hy as (i & <- & Hi).
      apply (Hfresh i (node_id info) Hi). left. reflexivity.
Qed.
End Loop.

Ltac unroll H := repeat step_in H.

(** Each of the four loop bodies consults the set before it emits. *)
Lemma cli_workflow_node_guarded : guarded comfyprompt_extractor.workflow_node.
Proof.
  intros node ps info H. unfold comfyprompt_extractor.workflow_node in H.
  unroll H. injection H as <-. simpl. subst. assumption.
Qed.

Lemma ui_workflow_node_guarded : guarded unified_extractor_ui.workflow_node.
Proof.
  intros node ps info H. unfold unified_extractor_ui.workflow_node in H.
  unroll H. injection H as <-. simpl. subst. assumption.
Qed.

Lemma cli_prompt_entry_guarded : guarded comfyprompt_extractor.prompt_entry.
Proof.
  intros [key value] ps info H. unfold comfyprompt_extractor.prompt_entry in H.
  unroll H. injection H as <-. simpl. subst. assumption.
Qed.

Lemma ui_prompt_entry_guarded : guarded unified_extractor_ui.prompt_entry.
Proof.
  intros [key value] ps info H. unfold unified_extractor_ui.prompt_entry in H.
  unroll H.
  match type of H with
  | match ?v with JNull => _ | _ => _ end = _ => destruct v
  end; unroll H; try discriminate H;
    injection H as <-; simpl; subst; assumption.
Qed.

(** ** Equality of identifiers *)

Lemma SFeqb_refl (f : spec_float) : f <> S754_nan -> SFeqb f f = true.
Proof.
  unfold SFeqb. destruct f as [s|s| |s m e]; simpl; intros H;
    try reflexivity; try congruence.
  - destruct s; reflexivity.
  - destruct s; rewrite Z.compare_refl, Pos.compare_cont_refl; reflexivity.
Qed.

Lemma float_eq_refl (f : spec_float) : float_eq f f = true.
Proof.
  destruct f; try reflexivity; apply SFeqb_refl; discriminate.
Qed.

Lemma key_eqb_refl (x : json) : hashable x = true -> key_eqb x x = true.
Proof.
  destruct x; simpl; intros H; try discriminate H.
  - reflexivity.
  - apply Bool.eqb_reflx.
  - apply Z.eqb_refl.
  - apply float_eq_refl.
  - apply String.eqb_refl.
Qed.

Lemma SFeqb_sym (f g : spec_float) : SFeqb f g = SFeqb g f.
Proof.
  unfold SFeqb.
  destruct f as [s|s| |s m e], g as [t|t| |t n d]; simpl; try reflexivity;
    try (destruct s; reflexivity); try (destruct t; reflexivity);
    try (destruct s, t; reflexivity).
  destruct s, t; try reflexivity;
    rewrite (Z.compare_antisym e d); destruct (e ?= d)%Z; simpl; try reflexivity;
    change (Pos.compare_cont Eq n m) with (n ?= m)%positive;
    change (Pos.compare_cont Eq m n) with (m ?= n)%positive;
    rewrite (Pos.compare_antisym m n); destruct (m ?= n)%positive; reflexivity.
Qed.

Lemma key_eqb_sym (x y : json) : key_eqb x y = key_eqb y x.
Proof.
  destruct x, y; simpl; try reflexivity.
  - destruct b, b0; reflexivity.
  - apply Z.eqb_sym.
  - unfold float_eq. destruct fval, fval0; try reflexivity; apply SFeqb_sym.
  - apply String.eqb_sym.
Qed.

(** Distinct under Python's equality, hence distinct. *)
Lemma distinct_ids_NoDup (ids : list json) :
  Forall (fun x => hashable x = true) ids -> distinct_ids ids -> NoDup ids.
Proof.
  induction ids as [|x ids IH]; intros Hh Hd; [constructor | ].
  inversion Hh as [|? ? Hx Hrest]; subst. destruct Hd as [Hx' Hd].
  constructor; [ | auto].
  intros Hin. specialize (Hx' x Hin). rewrite key_eqb_refl in Hx' by exact Hx.
  discriminate.
Qed.

Lemma distinct_ids_idless (out : list prompt_info) :
  distinct_ids (map node_id out) -> (List.length (filter idless out) <= 1)%nat.
Proof.
  induction out as [|i out IH]; simpl; intros Hd; [lia | ].
  destruct Hd as [Hi Hd]. specialize (IH Hd).
  destruct (idless i) eqn:E; [ | exact IH]. simpl.
  assert (filter idless out = []) as ->; [ | simpl; lia].
  unfold idless in E. destruct (node_id i) eqn:Ei; try discriminate E.
  clear - Hi. induction out as [|j out IHo]; [reflexivity | ]. simpl.
  assert (Hj : key_eqb (node_id j) JNull = false) by (apply Hi; left; reflexivity).
  unfold idless at 1. destruct (node_id j); try discriminate Hj;
    apply IHo; intros y Hy; apply Hi; right; exact Hy.
Qed.

(** ** What an emitted record holds *)

Ltac emitted H :=
  unroll H;
  try match type of H with
      | match ?v with JNull => _ | _ => _ end = _ => destruct v; unroll H
      end;
  try discriminate H; injection H as <-; simpl; subst.

Lemma cli_workflow_node_source node ps info :
  comfyprompt_extractor.workflow_node node ps = Ok (Some info) ->
  source info = "workflow" /\ get node "id" JNull = Ok (node_id info).
Proof.
  intros H. unfold comfyprompt_extractor.workflow_node in H.
  emitted H. auto.
Qed.

Lemma ui_workflow_node_source node ps info :
  unified_extractor_ui.workflow_node node ps = Ok (Some info) ->
  source info = "workflow" /\ get node "id" JNull = Ok (node_id info).
Proof.
  intros H. unfold unified_extractor_ui.workflow_node in H.
  emitted H. auto.
Qed.

Lemma cli_prompt_entry_source entry ps info :
  comfyprompt_extractor.prompt_entry entry ps = Ok (Some info) ->
  source info = "prompt_data" /\ node_id info = JStr (fst entry)
  /\ title info = JStr ("Node " ++ fst entry).
Proof.
  destruct entry as [key value]. intros H.
  unfold comfyprompt_extractor.prompt_entry in H.
  emitted H. auto.
Qed.

Lemma ui_prompt_entry_source entry ps info :
  unified_extractor_ui.prompt_entry entry ps = Ok (Some info) ->
  source info = "prompt_data" /\ node_id info = JStr (fst entry)
  /\ title info = JStr ("Node " ++ fst entry).
Proof.
  destruct entry as [key value]. intros H.
  unfold unified_extractor_ui.prompt_entry in H.
  emitted H; auto.
Qed.

Section LoopFacts.
Context {A : Type} (step : A -> pyset -> result (option prompt_info)).
Hypothesis step_guarded : guarded step.

Lemma emit_loop_hashable (xs : list A) (ps : pyset) out ps' :
  emit_loop step xs ps = Ok (out, ps') ->
  Forall (fun x => hashable x = true) (map node_id out).
Proof.
  intros H. apply Forall_forall. intros x Hx.
  apply in_map_iff in Hx. destruct Hx as (info & <- & Hinfo).
  destruct (emit_loop_origin step _ _ _ _ _ H Hinfo) as (y & qs & _ & Hs).
  apply step_guarded, set_in_false in Hs. tauto.
Qed.

Lemma emit_loop_NoDup (xs : list A) (ps : pyset) out ps' :
  emit_loop step xs ps = Ok (out, ps') ->
  distinct_ids (map node_id out) /\ NoDup (map node_id out).
Proof.
  intros H.
  assert (D : distinct_ids (map node_id out))
    by (eapply emit_loop_fresh; eauto).
  split; [exact D | ].
  apply distinct_ids_NoDup; [eapply emit_loop_hashable; eauto | exact D].
Qed.

Lemma emit_loop_source (src : string) (xs : list A) (ps : pyset) out ps' :
  (forall x qs info, step x qs = Ok (Some info) -> source info = src) ->
  emit_loop step xs ps = Ok (out, ps') ->
  forall info, In info out -> source info = src.
Proof.
  intros Hsrc H info Hinfo.
  destruct (emit_loop_origin step _ _ _ _ _ H Hinfo) as (y & qs & _ & Hs).
  eauto.
Qed.
End LoopFacts.

Lemma cli_workflow_pass wf ps out ps' :
  comfyprompt_extractor.extract_positive_from_workflow wf ps = Ok (out, ps') ->
  one_source "workflow" out.
Proof.
  unfold comfyprompt_extractor.extract_positive_from_workflow. intros H. unroll H.
  destruct (emit_loop_NoDup _ cli_workflow_node_guarded _ _ _ _ H) as [D N].
  repeat split; auto.
  eapply emit_loop_source; [ | exact H].
  intros x qs info Hs. apply cli_workflow_node_source in Hs. tauto.
Qed.

Lemma ui_workflow_pass wf ps out ps' :
  unified_extractor_ui.extract_positive_from_workflow wf ps = Ok (out, ps') ->
  one_source "workflow" out.
Proof.
  unfold unified_extractor_ui.extract_positive_from_workflow. intros H. unroll H.
  destruct (emit_loop_NoDup _ ui_workflow_node_guarded _ _ _ _ H) as [D N].
  repeat split; auto.
  eapply emit_loop_source; [ | exact H].
  intros x qs info Hs. apply ui_workflow_node_source in Hs. tauto.
Qed.

Lemma cli_prompt_pass pd ps out ps' :
  comfyprompt_extractor.extract_positive_from_prompt_data pd ps = Ok (out, ps') ->
  one_source "prompt_data" out.
Proof.
  unfold comfyprompt_extractor.extract_positive_from_prompt_data. intros H. unroll H.
  destruct (emit_loop_NoDup _ cli_prompt_entry_guarded _ _ _ _ H) as [D N].
  repeat split; auto.
  eapply emit_loop_source; [ | exact H].
  intros x qs info Hs. apply cli_prompt_entry_source in Hs. tauto.
Qed.

Lemma ui_prompt_pass pd ps out ps' :
  unified_extractor_ui.extract_positive_from_prompt_data pd ps = Ok (out, ps') ->
  one_source "prompt_data" out.
Proof.
  unfold unified_extractor_ui.extract_positive_from_prompt_data. intros H. unroll H.
  destruct (emit_loop_NoDup _ ui_prompt_entry_guarded _ _ _ _ H) as [D N].
  repeat split; auto.
  eapply emit_loop_source; [ | exact H].
  intros x qs info Hs. apply ui_prompt_entry_source in Hs. tauto.
Qed.

(** ** The two-pass pipelines *)

Lemma try_loads_Ok {A : Type} (json_loads : loader) v (body : json -> result A) handler r :
  try_loads json_loads v body handler = Ok r ->
  (exists data, json_loads v = Ok data /\ body data = Ok r)
  \/ (json_loads v = Err JSONDecodeError /\ handler = Ok r).
Proof.
  unfold try_loads. destruct (json_loads v) as [data|[]]; intros H;
    try discriminate H; eauto.
Qed.

Lemma reraise_Ok {A : Type} (m : result A) (a : A) : reraise m = Ok a -> m = Ok a.
Proof. destruct m; simpl; [auto | discriminate]. Qed.

Lemma one_source_nil (src : string) : one_source src [].
Proof. repeat split; [constructor | intros ? []]. Qed.

Section TwoPasses.
Variable json_loads : loader.

Lemma cli_two_passes (metadata : metadata_map) prompts :
  comfyprompt_extractor.extract_positive_prompts_only json_loads metadata = Ok prompts ->
  one_source "workflow" prompts \/ one_source "prompt_data" prompts.
Proof.
  unfold comfyprompt_extractor.extract_positive_prompts_only. intros H.
  apply reraise_Ok in H. step_in H. destruct a as [from_workflow ps].
  assert (W : one_source "workflow" from_workflow).
  { destruct (assoc "workflow" metadata) as [v|].
    - apply try_loads_Ok in E. destruct E as [(wf & _ & E) | [_ E]].
      + eapply cli_workflow_pass; eauto.
      + injection E as <- <-. apply one_source_nil.
    - injection E as <- <-. apply one_source_nil. }
  destruct from_workflow as [|i more]; [ | destruct (assoc "prompt" metadata);
    injection H as <-; left; exact W].
  destruct (assoc "prompt" metadata) as [v|]; [ | injection H as <-; left; exact W].
  step_in H. destruct a as [from_prompt ps2]. injection H as <-. simpl. right.
  apply try_loads_Ok in E0. destruct E0 as [(pd & _ & E0) | [_ E0]].
  - eapply cli_prompt_pass; eauto.
  - injection E0 as <- <-. apply one_source_nil.
Qed.

Lemma ui_two_passes (metadata : metadata_map) prompts :
  unified_extractor_ui.extract_positive_prompts_comfyui json_loads metadata = Ok prompts ->
  one_source "workflow" prompts \/ one_source "prompt_data" prompts.
Proof.
  unfold unified_extractor_ui.extract_positive_prompts_comfyui. intros H.
  apply reraise_Ok in H. step_in H. destruct a as [from_workflow ps].
  assert (W : one_source "workflow" from_workflow).
  { destruct (assoc "workflow" metadata) as [v|].
    - apply try_loads_Ok in E. destruct E as [(wf & _ & E) | [_ E]].
      + eapply ui_workflow_pass; eauto.
      + injection E as <- <-. apply one_source_nil.
    - injection E as <- <-. apply one_source_nil. }
  destruct from_workflow as [|i more]; [ | destruct (assoc "prompt" metadata);
    injection H as <-; left; exact W].
  destruct (assoc "prompt" metadata) as [v|]; [ | injection H as <-; left; exact W].
  step_in H. destruct a as [from_prompt ps2]. injection H as <-. simpl. right.
  apply try_loads_Ok in E0. destruct E0 as [(pd & _ & E0) | [_ E0]].
  - eapply ui_prompt_pass; eauto.
  - injection E0 as <- <-. apply one_source_nil.
Qed.
End TwoPasses.

(** C5: in the result of [extract_positive_prompts_only] (and of its copy
    [extract_positive_prompts_comfyui]) no two records have equal node
    identifiers, under Python's equality and hence as values, and the records
    all come from the workflow pass or all from the prompt-graph pass: the
    second pass runs on the set the first one left, and only when the first
    emitted nothing. *)
Theorem unique_node_ids (json_loads : loader) (metadata : metadata_map) :
  (forall prompts,
     comfyprompt_extractor.extract_positive_prompts_only json_loads metadata = Ok prompts ->
     distinct_ids (map node_id prompts) /\ NoDup (map node_id prompts)
     /\ ((forall info, In info prompts -> source info = "workflow")
         \/ (forall info, In info prompts -> source info = "prompt_data")))
  /\ (forall prompts,
     unified_extractor_ui.extract_positive_prompts_comfyui json_loads metadata = Ok prompts ->
     distinct_ids (map node_id prompts) /\ NoDup (map node_id prompts)
     /\ ((forall info, In info prompts -> source info = "workflow")
         \/ (forall info, In info prompts -> source info = "prompt_data"))).
Proof.
  split; intros prompts H;
    [apply cli_two_passes in H | apply ui_two_passes in H];
    destruct H as [(D & N & S) | (D & N & S)]; auto.
Qed.

(** C9: in one workflow pass at most one record has no node identifier
    ([None]); once one is emitted [None] is in the processed set, and a pass
    that starts with [None] in the set emits no such record at all. *)
Theorem idless_node_emitted_once (workflow_data : json) (processed_nodes : pyset)
    (out : list prompt_info) (final : pyset) :
  comfyprompt_extractor.extract_positive_from_workflow workflow_data processed_nodes
    = Ok (out, final) ->
  (List.length (filter idless out) <= 1)%nat
  /\ (filter idless out <> [] -> In JNull final)
  /\ (In JNull processed_nodes -> filter idless out = []).
Proof.
  unfold comfyprompt_extractor.extract_positive_from_workflow. intros H. unroll H.
  destruct (emit_loop_fresh _ cli_workflow_node_guarded _ _ _ _ H) as [Hfresh Hdist].
  split; [apply distinct_ids_idless; exact Hdist | split].
  - intros Hne. apply emit_loop_set in H. subst final.
    destruct (filter idless out) as [|i rest] eqn:F; [congruence | ].
    assert (Hi : In i (filter idless out)) by (rewrite F; left; reflexivity).
    apply filter_In in Hi. destruct Hi as [Hi Hnull].
    apply in_or_app. left. apply -> in_rev.
    unfold idless in Hnull. destruct (node_id i) eqn:Ei; try discriminate Hnull.
    rewrite <- Ei. apply in_map. exact Hi.
  - intros Hin. destruct (filter idless out) as [|i rest] eqn:F; [reflexivity | ].
    assert (Hi : In i (filter idless out)) by (rewrite F; left; reflexivity).
    apply filter_In in Hi. destruct Hi as [Hi Hnull].
    specialize (Hfresh i JNull Hi Hin).
    unfold idless in Hnull. destruct (node_id i); discriminate.
Qed.

(** ** The workflow extractor on a node titled "Positive" *)

Lemma get_id fields : get (JObj fields) "id" JNull = Ok (id_of fields).
Proof. unfold get, id_of. destruct (assoc "id" fields); reflexivity. Qed.

Lemma get_present fields k d v : assoc k fields = Some v -> get (JObj fields) k d = Ok v.
Proof. unfold get. intros ->. reflexivity. Qed.

Lemma is_text_encode_exact node : is_text_encode node (JStr "CLIPTextEncode") = Ok true.
Proof. reflexivity. Qed.

Lemma set_in_decided x ps b :
  set_in x ps = Ok b -> (forall y, In y ps -> key_eqb x y = false) -> b = false.
Proof.
  unfold set_in. destruct (hashable x); [ | discriminate].
  intros H Hf. injection H as <-.
  destruct (existsb (key_eqb x) ps) eqn:E; [ | reflexivity].
  apply existsb_exists in E. destruct E as (y & Hy & Hxy).
  rewrite (Hf y Hy) in Hxy. discriminate.
Qed.

Lemma cli_positive_step fields text0 ps :
  positive_node fields text0 ->
  set_in (id_of fields) ps = Ok false ->
  comfyprompt_extractor.workflow_node (JObj fields) ps =
    Ok (Some (positive_record fields text0)).
Proof.
  intros (Ht & Hti & (ws & Hw) & Hs & Hn) Hid. apply String.eqb_neq in Hs.
  unfold comfyprompt_extractor.workflow_node.
  rewrite get_id, (get_present _ _ _ _ Ht), !(get_present _ _ _ _ Hti),
    (get_present _ _ _ _ Hw).
  cbn [bind].
  change (str_lower (JStr "Positive")) with (@Ok string "positive"); cbn [bind].
  rewrite Hid, is_text_encode_exact. cbn [bind negb].
  change (has_widgets (JArr (JStr text0 :: ws))) with (@Ok bool true).
  cbn [bind negb getitem0].
  unfold strip_empty, starts_negative, str_strip, str_lower. cbn [bind].
  rewrite Hs, Hn. reflexivity.
Qed.

Lemma ui_positive_step fields text0 ps :
  positive_node fields text0 ->
  set_in (id_of fields) ps = Ok false ->
  unified_extractor_ui.workflow_node (JObj fields) ps =
    Ok (Some (positive_record fields text0)).
Proof.
  intros (Ht & Hti & (ws & Hw) & Hs & Hn) Hid. apply String.eqb_neq in Hs.
  unfold unified_extractor_ui.workflow_node.
  rewrite get_id, (get_present _ _ _ _ Ht), !(get_present _ _ _ _ Hti),
    (get_present _ _ _ _ Hw).
  cbn [bind].
  change (str_lower (JStr "Positive")) with (@Ok string "positive"); cbn [bind].
  rewrite Hid, is_text_encode_exact. cbn [bind negb].
  change (has_widgets (JArr (JStr text0 :: ws))) with (@Ok bool true).
  cbn [bind negb getitem0].
  unfold strip_empty, starts_negative, str_strip, str_lower. cbn [bind is_str].
  rewrite Hs, Hn. reflexivity.
Qed.

Lemma cli_workflow_node_consults fields ps r :
  comfyprompt_extractor.workflow_node (JObj fields) ps = Ok r ->
  exists b, set_in (id_of fields) ps = Ok b.
Proof.
  unfold comfyprompt_extractor.workflow_node. rewrite get_id. cbn [bind].
  intros H. do 3 step_in H. destruct (set_in (id_of fields) ps); [eauto | discriminate].
Qed.

Lemma ui_workflow_node_consults fields ps r :
  unified_extractor_ui.workflow_node (JObj fields) ps = Ok r ->
  exists b, set_in (id_of fields) ps = Ok b.
Proof.
  unfold unified_extractor_ui.workflow_node. rewrite get_id. cbn [bind].
  intros H. do 3 step_in H. destruct (set_in (id_of fields) ps); [eauto | discriminate].
Qed.

Section Included.
Variable step : json -> pyset -> result (option prompt_info).
Hypothesis step_id : forall x qs info,
  step x qs = Ok (Some info) -> get x "id" JNull = Ok (node_id info).
Hypothesis step_consults : forall fields ps r,
  step (JObj fields) ps = Ok r -> exists b, set_in (id_of fields) ps = Ok b.
Hypothesis step_positive : forall fields text0 ps,
  positive_node fields text0 -> set_in (id_of fields) ps = Ok false ->
  step (JObj fields) ps = Ok (Some (positive_record fields text0)).

Lemma loop_includes fields text0 pre post ps out final :
  positive_node fields text0 ->
  (forall y, In y ps -> key_eqb (id_of fields) y = false) ->
  (forall f, In (JObj f) pre -> key_eqb (id_of fields) (id_of f) = false) ->
  emit_loop step (pre ++ JObj fields :: post) ps = Ok (out, final) ->
  In (positive_record fields text0) out.
Proof.
  intros Hnode Hps Hpre H. rewrite emit_loop_app in H.
  step_in H. destruct a as [o1 p1]. step_in H. destruct a as [o2 p2].
  injection H as <- <-. apply in_or_app. right.
  assert (Hp1 : forall y, In y p1 -> key_eqb (id_of fields) y = false).
  { apply emit_loop_set in E as Hset. subst p1. intros y Hy.
    apply in_app_or in Hy. destruct Hy as [Hy | Hy]; [ | auto].
    apply in_rev, in_map_iff in Hy. destruct Hy as (info & <- & Hinfo).
    destruct (emit_loop_origin step _ _ _ _ _ E Hinfo) as (x & qs & Hx & Hs).
    apply step_id in Hs. destruct x; try discriminate Hs.
    rewrite get_id in Hs. injection Hs as <-. auto. }
  simpl in E0. step_in E0.
  destruct (step_consults _ _ _ E1) as [b Hb].
  assert (b = false) by (eapply set_in_decided; eauto). subst b.
  rewrite (step_positive _ _ _ Hnode Hb) in E1. injection E1 as <-.
  step_in E0. destruct a as [more fin]. injection E0 as <- <-.
  left. reflexivity.
Qed.
End Included.

(** C1, amended: in a workflow whose [nodes] array holds, at any position, a
    node of type "CLIPTextEncode" titled "Positive" whose first widget value
    is a string that is not blank and does not start, lower-cased and
    stripped, with "negative", and whose identifier is neither in the
    processed set nor the identifier of an earlier node, every extraction
    that returns holds the record of that node. *)
Theorem positive_node_included (workflow : list (string * json))
    (fields : list (string * json)) (text0 : string) (pre post : list json)
    (processed_nodes : pyset) :
  assoc "nodes" workflow = Some (JArr (pre ++ JObj fields :: post)) ->
  positive_node fields text0 ->
  (forall y, In y processed_nodes -> key_eqb (id_of fields) y = false) ->
  (forall f, In (JObj f) pre -> key_eqb (id_of fields) (id_of f) = false) ->
  (forall out final,
     comfyprompt_extractor.extract_positive_from_workflow (JObj workflow) processed_nodes
       = Ok (out, final) ->
     In (positive_record fields text0) out)
  /\ (forall out final,
     unified_extractor_ui.extract_positive_from_workflow (JObj workflow) processed_nodes
       = Ok (out, final) ->
     In (positive_record fields text0) out).
Proof.
  intros Hnodes Hnode Hps Hpre. split; intros out final H.
  - unfold comfyprompt_extractor.extract_positive_from_workflow in H.
    rewrite (get_present _ _ _ _ Hnodes) in H. cbn [bind iter] in H.
    eapply (loop_includes comfyprompt_extractor.workflow_node); eauto.
    + intros x qs info Hs. apply cli_workflow_node_source in Hs. tauto.
    + apply cli_workflow_node_consults.
    + apply cli_positive_step.
  - unfold unified_extractor_ui.extract_positive_from_workflow in H.
    rewrite (get_present _ _ _ _ Hnodes) in H. cbn [bind iter] in H.
    eapply (loop_includes unified_extractor_ui.workflow_node); eauto.
    + intros x qs info Hs. apply ui_workflow_node_source in Hs. tauto.
    + apply ui_workflow_node_consults.
    + apply ui_positive_step.
Qed.

(** ** The unified workflow extractor on a non-string widget value *)

Lemma get_dict fields k d : exists v, get (JObj fields) k d = Ok v.
Proof. unfold get. destruct (assoc k fields); eauto. Qed.

(** The unified workflow extractor as the code stands: on a node accepted by
    the text-encode test (its title a string, its identifier not yet
    processed) it never fails, whatever the first widget value is; a record it
    emits has the newline-join of the stringified elements for a list, the
    stringification for a number, the string itself for a string; and the
    classification is made on the value as it is: a value that is not a string
    is emitted exactly when the title accepts it and it is a list or a
    number. *)
Lemma unified_normalizes_at_emission (fields : list (string * json))
    (processed_nodes : pyset) (node_type v : json) (ws : list json) (t : string) :
  get (JObj fields) "type" (JStr "") = Ok node_type ->
  is_text_encode (JObj fields) node_type = Ok true ->
  lowered_title (JObj fields) = Ok t ->
  set_in (id_of fields) processed_nodes = Ok false ->
  assoc "widgets_values" fields = Some (JArr (v :: ws)) ->
  exists r,
    unified_extractor_ui.workflow_node (JObj fields) processed_nodes = Ok r
    /\ (forall info, r = Some info -> text info = JStr (unified_extractor_ui.normalize v))
    /\ (is_str v = false ->
        (r <> None <->
         title_accepts t && (is_list v || unified_extractor_ui.is_str_int_float v) = true)).
Proof.
  intros Hty Hclip Ht Hid Hw. unfold lowered_title in Ht. step_in Ht.
  destruct (get_dict fields "title" (JStr "Untitled")) as [shown Hshown].
  unfold unified_extractor_ui.workflow_node.
  rewrite get_id, Hty, E, Hshown, (get_present _ _ _ _ Hw). cbn [bind].
  rewrite Ht. cbn [bind]. rewrite Hid, Hclip. cbn [bind negb].
  change (has_widgets (JArr (v :: ws))) with (@Ok bool true).
  cbn [bind negb getitem0]. unfold title_accepts.
  destruct (PyStr.contains "positive" t), (PyStr.contains "pos" t),
    (PyStr.contains "negative" t), (PyStr.contains "neg" t),
    (t =? ""), (t =? "untitled"), v as [ |b|z|f r|s|l|o]; 
    cbn -[PyStr.strip PyStr.lower PyStr.contains PyStr.startswith PyStr.take str join_lines];
    repeat match goal with
      | |- context [PyStr.strip ?s =? ""] => destruct (PyStr.strip s =? "")
      | |- context [PyStr.startswith ?s ?p] => destruct (PyStr.startswith s p)
      | |- context [PyStr.contains ?p (PyStr.take ?n ?s)] =>
          destruct (PyStr.contains p (PyStr.take n s))
      end;
    cbn -[str join_lines];
    (eexists; split; [reflexivity | split;
      [ intros info Hi; first [ discriminate Hi | injection Hi as <-; reflexivity ]
      | intros Hs; first [ discriminate Hs | split;
        [ intros Hr; try reflexivity; exfalso; apply Hr; reflexivity
        | intros Hr; try discriminate Hr; discriminate ] ] ] ]).
Qed.

(** ** The parameters extractors *)

Lemma lower_char_colon (c : ascii) : PyStr.lower_char c = PyStr.COLON -> c = PyStr.COLON.
Proof.
  destruct c as [[] [] [] [] [] [] [] []]; vm_compute; intros H;
    first [reflexivity | discriminate H].
Qed.

Lemma prefix_lower_has_colon (p s : string) :
  String.prefix p (PyStr.lower s) = true ->
  PyStr.has_char PyStr.COLON p = true -> PyStr.has_char PyStr.COLON s = true.
Proof.
  revert s. induction p as [|c p IH]; intros s Hp Hc; [discriminate Hc | ].
  destruct s as [|d s]; [discriminate Hp | ].
  cbn [PyStr.lower String.prefix] in Hp.
  destruct (ascii_dec c (PyStr.lower_char d)) as [-> | _]; [ | discriminate Hp].
  cbn [PyStr.has_char] in Hc |- *. apply orb_true_iff in Hc. apply orb_true_iff.
  destruct Hc as [Hc | Hc].
  - left. apply Ascii.eqb_eq in Hc. symmetry in Hc. apply lower_char_colon in Hc.
    subst d. reflexivity.
  - right. auto.
Qed.

Lemma split1_two (sep : ascii) (s : string) :
  PyStr.has_char sep s = true -> exists a b, PyStr.split1 sep s = [a; b].
Proof.
  induction s as [|c s IH]; simpl; [discriminate | ].
  rewrite (Ascii.eqb_sym sep c). destruct (Ascii.eqb c sep); simpl; [eauto | ].
  intros H. destruct (IH H) as (a & b & ->). eauto.
Qed.

(** The text format never fails: a line that starts with the marker has a
    colon to split at. *)
Lemma simple_scan_total (lines : list string) :
  exists r, prompt_extractor.scan_lines lines = Ok r
            /\ (r = JNull \/ exists s, r = JStr s).
Proof.
  induction lines as [|l rest IH]; simpl; [eauto | ].
  destruct (PyStr.startswith (PyStr.lower (PyStr.strip l)) "positive prompt:") eqn:E;
    [ | exact IH].
  apply prefix_lower_has_colon in E; [ | reflexivity].
  destruct (split1_two _ _ E) as (a & b & ->). simpl. eauto.
Qed.

Lemma strict_scan_total (lines : list string) :
  exists r, unified_extractor_ui.scan_lines lines = Ok r.
Proof.
  induction lines as [|l rest IH]; [simpl; eauto | ].
  cbn [unified_extractor_ui.scan_lines].
  destruct (PyStr.startswith _ _); [ | exact IH].
  destruct (PyStr.has_char PyStr.COLON l) eqn:E.
  - destruct (split1_two _ _ E) as (a & b & ->). cbn [nth_error bind].
    destruct (unified_extractor_ui.drop_blank _); eauto.
  - cbn [bind]. destruct (unified_extractor_ui.drop_blank _); eauto.
Qed.

(** After a [JSONDecodeError] each parameters extractor returns what its
    scan of the lines returns. *)
Lemma simple_after_decode_failure (json_loads : loader) (metadata : metadata_map)
    (parameters_data : string) :
  assoc "parameters" metadata = Some (MStr parameters_data) ->
  json_loads (MStr parameters_data) = Err JSONDecodeError ->
  prompt_extractor.extract_positive_prompt json_loads metadata
  = reraise (prompt_extractor.scan_lines (PyStr.split PyStr.LF parameters_data)).
Proof.
  intros Hm Hj. unfold prompt_extractor.extract_positive_prompt, try_loads.
  rewrite Hm, Hj. reflexivity.
Qed.

Lemma strict_after_decode_failure (json_loads : loader) (metadata : metadata_map)
    (parameters_data : string) :
  assoc "parameters" metadata = Some (MStr parameters_data) ->
  json_loads (MStr parameters_data) = Err JSONDecodeError ->
  unified_extractor_ui.extract_positive_from_parameters_strict json_loads metadata
  = catch (unified_extractor_ui.scan_lines (PyStr.split PyStr.LF parameters_data))
      (fun _ => Ok None).
Proof.
  intros Hm Hj.
  unfold unified_extractor_ui.extract_positive_from_parameters_strict,
    unified_extractor_ui.strict_body, unified_extractor_ui.json_format, try_loads.
  rewrite Hm. cbn [unified_extractor_ui.coerce bind]. rewrite Hj. reflexivity.
Qed.

(** C8: when [json.loads] rejects the parameters string with
    [JSONDecodeError], both parameters extractors return what the scan of its
    lines returns, and that scan cannot fail: the simple one a string or
    [None], the strict one a string or [None]. *)
Theorem decode_failure_falls_through (json_loads : loader) (metadata : metadata_map)
    (parameters_data : string) :
  assoc "parameters" metadata = Some (MStr parameters_data) ->
  json_loads (MStr parameters_data) = Err JSONDecodeError ->
  (exists r,
     prompt_extractor.scan_lines (PyStr.split PyStr.LF parameters_data) = Ok r
     /\ (r = JNull \/ exists s, r = JStr s)
     /\ prompt_extractor.extract_positive_prompt json_loads metadata = Ok r)
  /\ (exists r,
     unified_extractor_ui.scan_lines (PyStr.split PyStr.LF parameters_data) = Ok r
     /\ unified_extractor_ui.extract_positive_from_parameters_strict json_loads metadata
        = Ok r).
Proof.
  intros Hm Hj. split.
  - destruct (simple_scan_total (PyStr.split PyStr.LF parameters_data)) as (r & Hr & Hs).
    exists r. repeat split; auto.
    rewrite (simple_after_decode_failure _ _ _ Hm Hj), Hr. reflexivity.
  - destruct (strict_scan_total (PyStr.split PyStr.LF parameters_data)) as (r & Hr).
    exists r. split; auto.
    rewrite (strict_after_decode_failure _ _ _ Hm Hj), Hr. reflexivity.
Qed.

(** C6: on the parameters string "Positive prompt: foo bar\nSteps: 20", which
    [json.loads] rejects, the simple extractor (stop at any line with a
    colon) and the strict one (stop at a colon with a parameter name) both
    return "foo bar". *)
Theorem foo_bar_round_trip (json_loads : loader) (metadata : metadata_map) :
  assoc "parameters" metadata = Some (MStr foo_bar_parameters) ->
  json_loads (MStr foo_bar_parameters) = Err JSONDecodeError ->
  prompt_extractor.extract_positive_prompt json_loads metadata = Ok (JStr "foo bar")
  /\ unified_extractor_ui.extract_positive_from_parameters_strict json_loads metadata
     = Ok (Some "foo bar").
Proof.
  intros Hm Hj.
  rewrite (simple_after_decode_failure _ _ _ Hm Hj),
    (strict_after_decode_failure _ _ _ Hm Hj).
  split; vm_compute; reflexivity.
Qed.

(** C10: the strict parameters extractor returns, whatever the metadata and
    whatever [json.loads] does: a string or [None]; an exception in its body
    gives [None]; and a value that is not a string is parsed as the string it
    is coerced to. *)
Theorem strict_extractor_total (json_loads : loader) (metadata : metadata_map) :
  (exists r : option string,
     unified_extractor_ui.extract_positive_from_parameters_strict json_loads metadata = Ok r)
  /\ (forall e, unified_extractor_ui.strict_body json_loads metadata = Err e ->
        unified_extractor_ui.extract_positive_from_parameters_strict json_loads metadata
        = Ok None)
  /\ (forall v s, assoc "parameters" metadata = Some v ->
        unified_extractor_ui.coerce v = Ok s ->
        unified_extractor_ui.extract_positive_from_parameters_strict json_loads metadata
        = unified_extractor_ui.extract_positive_from_parameters_strict json_loads
            [("parameters", MStr s)]).
Proof.
  unfold unified_extractor_ui.extract_positive_from_parameters_strict.
  repeat split.
  - destruct (unified_extractor_ui.strict_body json_loads metadata); simpl; eauto.
  - intros e ->. reflexivity.
  - intros v s Hv Hs. f_equal. unfold unified_extractor_ui.strict_body.
    rewrite Hv, Hs. reflexivity.
Qed.

Lemma first_present_at (earlier later : list string) key entries value :
  (forall k, In k earlier -> assoc k entries = None) ->
  assoc key entries = Some value ->
  first_present (earlier ++ key :: later) entries = Some value.
Proof.
  intros He Hk. induction earlier as [|k earlier IH]; simpl.
  - rewrite Hk. reflexivity.
  - rewrite (He k) by (left; reflexivity). apply IH.
    intros k' Hk'. apply He. right. exact Hk'.
Qed.

(** C3, amended: when the parameters string decodes to a JSON object, the
    strict extractor returns the value of the first key of the priority list
    that the object has: the newline-join of the stringified elements for a
    list, no prompt ([None]) for [null], the stringification otherwise. *)
Theorem strict_returns_first_key (json_loads : loader) (metadata : metadata_map)
    (parameters_data : string) (entries : list (string * json))
    (earlier later : list string) (key : string) (value : json) :
  assoc "parameters" metadata = Some (MStr parameters_data) ->
  json_loads (MStr parameters_data) = Ok (JObj entries) ->
  unified_extractor_ui.possible_keys = (earlier ++ key :: later)%list ->
  (forall k, In k earlier -> assoc k entries = None) ->
  assoc key entries = Some value ->
  unified_extractor_ui.extract_positive_from_parameters_strict json_loads metadata
  = Ok (match value with
        | JArr l => Some (join_lines l)
        | JNull => None
        | _ => Some (str value)
        end).
Proof.
  intros Hm Hj Hkeys He Hk.
  unfold unified_extractor_ui.extract_positive_from_parameters_strict,
    unified_extractor_ui.strict_body, unified_extractor_ui.json_format, try_loads.
  rewrite Hm. cbn [unified_extractor_ui.coerce bind]. rewrite Hj, Hkeys.
  rewrite (first_present_at _ _ _ _ _ He Hk).
  destruct value; reflexivity.
Qed.

Lemma strict_returns_first_key_witness :
  unified_extractor_ui.extract_positive_from_parameters_strict
    (table_loader [(ab_text, ab_value)]) [("parameters", MStr ab_text)]
  = Ok (Some ("a" ++ PyStr.nl ++ "b")).
Proof.
  apply (strict_returns_first_key (table_loader [(ab_text, ab_value)])
           [("parameters", MStr ab_text)] ab_text [("prompt", JArr [JStr "a"; JStr "b"])]
           ["Positive prompt"; "positive prompt"; "Positive Prompt"; "positive_prompt"]
           ["Prompt"] "prompt" (JArr [JStr "a"; JStr "b"]));
    try reflexivity.
  intros k [<- | [<- | [<- | [<- | []]]]]; reflexivity.
Defined.

(** C3 as stated fails: for [{"prompt": null}] the strict extractor returns
    no prompt, not a string; for [{"prompt": ["a","b"]}] the simple extractor
    returns the decoded list. *)
Lemma null_prompt_not_stringified :
  unified_extractor_ui.extract_positive_from_parameters_strict
    (table_loader [(null_text, null_value)]) [("parameters", MStr null_text)]
  = Ok None
  /\ prompt_extractor.extract_positive_prompt
       (table_loader [(ab_text, ab_value)]) [("parameters", MStr ab_text)]
     = Ok (JArr [JStr "a"; JStr "b"]).
Proof. split; vm_compute; reflexivity. Qed.

(** ** Worked inputs *)

(** C1 as stated fails on the content of the text: a node of type
    "CLIPTextEncode" titled "Positive" whose text begins with the word
    "negative" is dropped by both workflow extractors. *)
Lemma positive_node_with_negative_text_dropped :
  let workflow :=
    JObj (workflow_of
            [clip_node 1 "Positive" (JStr "Negative space photograph of a lone tree")]) in
  comfyprompt_extractor.extract_positive_from_workflow workflow [] = Ok ([], [])
  /\ unified_extractor_ui.extract_positive_from_workflow workflow [] = Ok ([], []).
Proof. split; vm_compute; reflexivity. Qed.

Lemma positive_node_included_witness :
  let fields := ("id", JInt 2) :: clip_fields "Positive" (JStr "a cat") in
  let workflow := workflow_of [clip_node 1 "Negative" (JStr "blurry"); JObj fields] in
  exists out final,
    comfyprompt_extractor.extract_positive_from_workflow (JObj workflow) [] = Ok (out, final)
    /\ In (positive_record fields "a cat") out.
Proof.
  intros fields workflow. eexists. eexists. split; [vm_compute; reflexivity | ].
  eapply (proj1 (positive_node_included workflow fields "a cat"
                   [clip_node 1 "Negative" (JStr "blurry")] [] [] _ _ _ _)).
  vm_compute; reflexivity.
  Unshelve.
  - reflexivity.
  - unfold positive_node. repeat split; try reflexivity.
    + exists []. reflexivity.
    + vm_compute. discriminate.
  - intros y [].
  - intros f [Hf | []]. injection Hf as <-. reflexivity.
Defined.

(** C2, a defect of the code: the unified workflow extractor classifies the
    first widget value before it normalises it, so the list
    ["negative painting"] is emitted, with the text "negative painting", where
    the string "negative painting" is dropped by the tests on the text (the
    prompt-graph extractor of the same file normalises first); and the
    extractor of comfyprompt_extractor.py, which does not normalise at all,
    fails on the number 42. *)
Lemma classification_precedes_normalization :
  unified_extractor_ui.extract_positive_from_workflow
    (JObj (workflow_of [clip_node 1 "Positive" (JArr [JStr "negative painting"])])) []
  = Ok ([ {| text := JStr "negative painting"; node_id := JInt 1;
             node_type := JStr "CLIPTextEncode"; title := JStr "Positive";
             source := "workflow" |} ], [JInt 1])
  /\ unified_extractor_ui.extract_positive_from_workflow
       (JObj (workflow_of [clip_node 1 "Positive" (JStr "negative painting")])) []
     = Ok ([], [])
  /\ comfyprompt_extractor.extract_positive_from_workflow
       (JObj (workflow_of [clip_node 1 "Positive" (JInt 42)])) []
     = Err AttributeError.
Proof. repeat split; vm_compute; reflexivity. Qed.

Lemma unified_normalizes_at_emission_witness :
  let v := JArr [JStr "a cat"; JInt 7] in
  let fields := ("id", JInt 1) :: clip_fields "Positive" v in
  exists r,
    unified_extractor_ui.workflow_node (JObj fields) [] = Ok r
    /\ (forall info, r = Some info -> text info = JStr (unified_extractor_ui.normalize v))
    /\ (is_str v = false ->
        (r <> None <->
         title_accepts "positive" && (is_list v || unified_extractor_ui.is_str_int_float v)
         = true)).
Proof.
  intros v fields.
  apply (unified_normalizes_at_emission fields [] (JStr "CLIPTextEncode") v [] "positive");
    reflexivity.
Defined.

(** C4: the unified workflow extractor emits a record whose text is the
    empty string when the first widget value is an empty list: the join comes
    after the test for blank text. *)
Lemma empty_list_emits_empty_text :
  unified_extractor_ui.extract_positive_from_workflow
    (JObj (workflow_of [clip_node 1 "Positive" (JArr [])])) []
  = Ok ([ {| text := JStr ""; node_id := JInt 1;
             node_type := JStr "CLIPTextEncode"; title := JStr "Positive";
             source := "workflow" |} ], [JInt 1]).
Proof. vm_compute; reflexivity. Qed.

Lemma unique_node_ids_witness :
  exists prompts,
    comfyprompt_extractor.extract_positive_prompts_only two_pass_loader two_pass_metadata
      = Ok prompts
    /\ List.length prompts = 2%nat
    /\ distinct_ids (map node_id prompts) /\ NoDup (map node_id prompts)
    /\ ((forall info, In info prompts -> source info = "workflow")
        \/ (forall info, In info prompts -> source info = "prompt_data")).
Proof.
  eexists. split; [vm_compute; reflexivity | ]. split; [reflexivity | ].
  apply (proj1 (unique_node_ids two_pass_loader two_pass_metadata)).
  vm_compute; reflexivity.
Defined.

Lemma foo_bar_round_trip_witness :
  prompt_extractor.extract_positive_prompt (table_loader [])
    [("parameters", MStr foo_bar_parameters)] = Ok (JStr "foo bar")
  /\ unified_extractor_ui.extract_positive_from_parameters_strict (table_loader [])
       [("parameters", MStr foo_bar_parameters)] = Ok (Some "foo bar").
Proof.
  apply (foo_bar_round_trip (table_loader []) [("parameters", MStr foo_bar_parameters)]);
    reflexivity.
Defined.

(** C7: on a prompt graph with a text input that is a link (a list), the
    extractor of comfyprompt_extractor.py fails at [.strip()] and returns no
    record, not even that of the node whose text is a string; the extractor of
    unified_extractor_ui.py emits both. *)
Lemma linked_text_breaks_prompt_graph :
  let graph := JObj [("3", graph_node (JStr "a cat"));
                     ("4", graph_node (JArr [JStr "10"; JInt 0]))] in
  comfyprompt_extractor.extract_positive_from_prompt_data graph [] = Err AttributeError
  /\ unified_extractor_ui.extract_positive_from_prompt_data graph []
     = Ok ([ {| text := JStr "a cat"; node_id := JStr "3";
                node_type := JStr "CLIPTextEncode"; title := JStr "Node 3";
                source := "prompt_data" |};
             {| text := JStr ("10" ++ PyStr.nl ++ "0"); node_id := JStr "4";
                node_type := JStr "CLIPTextEncode"; title := JStr "Node 4";
                source := "prompt_data" |} ],
           [JStr "4"; JStr "3"]).
Proof. split; vm_compute; reflexivity. Qed.

Lemma decode_failure_falls_through_witness :
  (exists r,
     prompt_extractor.scan_lines (PyStr.split PyStr.LF "not json") = Ok r
     /\ (r = JNull \/ exists s, r = JStr s)
     /\ prompt_extractor.extract_positive_prompt (table_loader [])
          [("parameters", MStr "not json")] = Ok r)
  /\ (exists r,
     unified_extractor_ui.scan_lines (PyStr.split PyStr.LF "not json") = Ok r
     /\ unified_extractor_ui.extract_positive_from_parameters_strict (table_loader [])
          [("parameters", MStr "not json")] = Ok r).
Proof.
  apply (decode_failure_falls_through (table_loader [])
           [("parameters", MStr "not json")] "not json"); reflexivity.
Defined.

Lemma idless_node_emitted_once_witness :
  let workflow :=
    JObj (workflow_of [JObj (clip_fields "Positive" (JStr "a cat"));
                       JObj (clip_fields "Positive" (JStr "a dog"))]) in
  let out := [positive_record (clip_fields "Positive" (JStr "a cat")) "a cat"] in
  comfyprompt_extractor.extract_positive_from_workflow workflow [] = Ok (out, [JNull])
  /\ (List.length (filter idless out) <= 1)%nat
  /\ (filter idless out <> [] -> In JNull [JNull])
  /\ (In JNull [] -> filter idless out = []).
Proof.
  intros workflow out. split; [vm_compute; reflexivity | ].
  apply (idless_node_emitted_once workflow [] out [JNull]).
  vm_compute; reflexivity.
Defined.

Lemma strict_extractor_total_witness :
  (exists r : option string,
     unified_extractor_ui.extract_positive_from_parameters_strict (table_loader [])
       [("parameters", MOther (Err OtherException))] = Ok r)
  /\ unified_extractor_ui.extract_positive_from_parameters_strict (table_loader [])
       [("parameters", MContainer (Ok foo_bar_parameters))] = Ok (Some "foo bar").
Proof.
  split.
  - apply (strict_extractor_total (table_loader [])
             [("parameters", MOther (Err OtherException))]).
  - rewrite (proj2 (proj2 (strict_extractor_total (table_loader [])
               [("parameters", MContainer (Ok foo_bar_parameters))]))
               (MContainer (Ok foo_bar_parameters)) foo_bar_parameters
               eq_refl eq_refl).
    vm_compute; reflexivity.
Defined.

(** ** Records never hold a blank text, the list case of the unified
       workflow extractor aside *)

Lemma orM_false (x y : result bool) :
  orM x y = Ok false -> x = Ok false /\ y = Ok false.
Proof.
  unfold orM. destruct x as [[]|e]; simpl; intros H; try discriminate H; auto.
Qed.

Lemma andM_true (x y : result bool) :
  andM x y = Ok true -> x = Ok true /\ y = Ok true.
Proof.
  unfold andM. destruct x as [[]|e]; simpl; intros H; try discriminate H; auto.
Qed.

Lemma strip_empty_false v : strip_empty v = Ok false -> not_blank v.
Proof.
  unfold strip_empty, str_strip. destruct v; simpl; intros H; try discriminate H.
  injection H as H. exists s. split; [reflexivity | ]. apply String.eqb_neq. exact H.
Qed.

Ltac negative_test_failed :=
  match goal with
  | Hc : ?p && negb ?n = true, Hn : _ = Ok ?n |- _ =>
      apply andb_true_iff in Hc; destruct Hc as [_ Hc];
      apply negb_true_iff in Hc; subst n
  end.

Lemma cli_workflow_node_text node ps info :
  comfyprompt_extractor.workflow_node node ps = Ok (Some info) -> not_blank (text info).
Proof.
  intros H. unfold comfyprompt_extractor.workflow_node in H. unroll H.
  injection H as <-. simpl. negative_test_failed.
  match goal with
  | Hn : _ ||| strip_empty _ ||| _ = Ok false |- _ =>
      apply orM_false in Hn; destruct Hn as [Hn _];
      apply orM_false in Hn; destruct Hn as [_ Hn];
      apply strip_empty_false; exact Hn
  end.
Qed.

Lemma cli_prompt_entry_text entry ps info :
  comfyprompt_extractor.prompt_entry entry ps = Ok (Some info) -> not_blank (text info).
Proof.
  destruct entry as [key value]. intros H.
  unfold comfyprompt_extractor.prompt_entry in H. unroll H.
  injection H as <-. simpl.
  match goal with
  | Hn : strip_empty _ ||| _ = Ok ?n, Hf : negb ?n = true |- _ =>
      apply negb_true_iff in Hf; subst n;
      apply orM_false in Hn; destruct Hn as [Hn _];
      apply strip_empty_false; exact Hn
  end.
Qed.

Lemma ui_prompt_entry_text entry ps info :
  unified_extractor_ui.prompt_entry entry ps = Ok (Some info) -> not_blank (text info).
Proof.
  destruct entry as [key value]. intros H.
  unfold unified_extractor_ui.prompt_entry in H. unroll H.
  match type of H with
  | match ?v with JNull => _ | _ => _ end = _ => destruct v
  end; unroll H; try discriminate H; injection H as <-; simpl;
  (eexists; split; [reflexivity | ]);
  match goal with
  | Hs : negb (_ =? "") = true |- _ =>
      apply negb_true_iff, String.eqb_neq in Hs; exact Hs
  end.
Qed.

Lemma ui_workflow_node_text node ps info :
  unified_extractor_ui.workflow_node node ps = Ok (Some info) ->
  forall widgets_values s,
    get node "widgets_values" (JArr []) = Ok widgets_values ->
    getitem0 widgets_values = Ok (JStr s) ->
    not_blank (text info).
Proof.
  intros H w s Hw Hv. unfold unified_extractor_ui.workflow_node in H.
  unroll H. injection Hw as <-.
  match goal with
  | Hg : getitem0 _ = Ok ?v |- _ => rewrite Hg in Hv; injection Hv as ->
  end.
  injection H as <-. simpl.
  repeat match goal with
         | Hc : _ && _ = true |- _ => apply andb_true_iff in Hc; destruct Hc as [Hc ?]
         end.
  match goal with
  | Hf : negb ?n = true, Hn : _ = Ok ?n |- _ =>
      apply negb_true_iff in Hf; subst n;
      apply orM_false in Hn; destruct Hn as [_ Hn];
      cbn [is_str andM bind] in Hn;
      apply orM_false in Hn; destruct Hn as [Hn _];
      apply strip_empty_false; exact Hn
  end.
Qed.

Section Texts.
Variable json_loads : loader.

(** X2: every record of [extract_positive_prompts_only] and every record of
    the prompt-graph extractor of unified_extractor_ui.py has a text that is a
    string and not blank; so has a record of the unified workflow extractor
    when the first widget value is a string; the one record of
    [extract_positive_prompts_parameters] has a text that is not empty. *)
Theorem texts_not_empty (metadata : metadata_map) :
  (forall prompts,
     comfyprompt_extractor.extract_positive_prompts_only json_loads metadata = Ok prompts ->
     forall info, In info prompts -> not_blank (text info))
  /\ (forall prompts,
     unified_extractor_ui.extract_positive_prompts_parameters json_loads metadata
       = Ok prompts ->
     forall info, In info prompts -> exists s, text info = JStr s /\ s <> "")
  /\ (forall prompt_data ps out final,
     unified_extractor_ui.extract_positive_from_prompt_data prompt_data ps = Ok (out, final) ->
     forall info, In info out -> not_blank (text info))
  /\ (forall node ps info widgets_values s,
     unified_extractor_ui.workflow_node node ps = Ok (Some info) ->
     get node "widgets_values" (JArr []) = Ok widgets_values ->
     getitem0 widgets_values = Ok (JStr s) ->
     not_blank (text info)).
Proof.
  split; [ | split; [ | split;
    [ intros pd ps out final H info Hinfo;
      unfold unified_extractor_ui.extract_positive_from_prompt_data in H; unroll H;
      destruct (emit_loop_origin _ _ _ _ _ _ H Hinfo) as (x & qs & _ & Hs);
      eapply ui_prompt_entry_text; eauto
    | intros; eapply ui_workflow_node_text; eauto ] ] ];
    intros prompts H info Hinfo.
  - unfold comfyprompt_extractor.extract_positive_prompts_only in H.
    apply reraise_Ok in H. step_in H. destruct a as [from_workflow ps].
    assert (W : forall i, In i from_workflow -> not_blank (text i)).
    { intros i Hi. destruct (assoc "workflow" metadata) as [v|].
      - apply try_loads_Ok in E. destruct E as [(wf & _ & E) | [_ E]].
        + unfold comfyprompt_extractor.extract_positive_from_workflow in E. unroll E.
          destruct (emit_loop_origin _ _ _ _ _ _ E Hi) as (x & qs & _ & Hs).
          eapply cli_workflow_node_text; eauto.
        + injection E as <- <-. destruct Hi.
      - injection E as <- <-. destruct Hi. }
    destruct from_workflow as [|i more]; [ | destruct (assoc "prompt" metadata);
      injection H as <-; auto].
    destruct (assoc "prompt" metadata) as [v|]; [ | injection H as <-; auto].
    step_in H. destruct a as [from_prompt ps2]. injection H as <-. simpl in Hinfo.
    apply try_loads_Ok in E0. destruct E0 as [(pd & _ & E0) | [_ E0]].
    + unfold comfyprompt_extractor.extract_positive_from_prompt_data in E0. unroll E0.
      destruct (emit_loop_origin _ _ _ _ _ _ E0 Hinfo) as (x & qs & _ & Hs).
      eapply cli_prompt_entry_text; eauto.
    + injection E0 as <- <-. destruct Hinfo.
  - unfold unified_extractor_ui.extract_positive_prompts_parameters in H.
    apply reraise_Ok in H. step_in H.
    destruct a as [t|]; [ | injection H as <-; destruct Hinfo].
    destruct (truthy (JStr t)) eqn:T; injection H as <-; [ | destruct Hinfo].
    destruct Hinfo as [<- | []]. exists t. split; [reflexivity | ].
    simpl in T. apply negb_true_iff, String.eqb_neq in T. exact T.
Qed.
End Texts.

Lemma texts_not_empty_witness :
  not_blank (text {| text := JStr "oil on canvas"; node_id := JInt 2;
                     node_type := JStr "CLIPTextEncode"; title := JStr "Style (pos)";
                     source := "workflow" |}).
Proof.
  eapply (proj1 (texts_not_empty two_pass_loader two_pass_metadata)).
  - vm_compute; reflexivity.
  - right. left. reflexivity.
Defined.

(** ** The unified prompt-graph extractor, entry by entry *)

Lemma ui_prompt_entry_exact key node ps :
  inputs_mapping node ->
  set_in (JStr key) ps = Ok false ->
  unified_extractor_ui.prompt_entry (key, node) ps = Ok (graph_record (key, node)).
Proof.
  intros Hin Hset. unfold unified_extractor_ui.prompt_entry, graph_record.
  destruct node as [ |b|z|f r|s|l|fields]; try reflexivity.
  cbn [is_dict negb get inputs_mapping] in *.
  destruct (assoc "class_type" fields) as [c|]; cbn [bind]; rewrite Hset; cbn [bind];
    (destruct (eq_str _ "CLIPTextEncode"); cbn [negb]; [ | reflexivity]);
    (destruct (assoc "inputs" fields) as [[ | | | | | |i]|]; try contradiction;
     cbn [bind contains_str getitem_str]; unfold selected_text; cbn [assoc];
     [ destruct (assoc "text" i) as [v|]; cbn [bind];
       [ | destruct (assoc "prompt" i) as [v|]; cbn [bind]; [ | reflexivity] ];
       destruct v; try reflexivity;
       match goal with
       | |- context [negb (PyStr.strip ?t =? "")] =>
           destruct (PyStr.strip t =? ""); cbn [negb andb]; try reflexivity;
           destruct (PyStr.contains "negative" (PyStr.take 50 (PyStr.lower t)));
           reflexivity
       end
     | reflexivity ]).
Qed.

Lemma graph_record_id entry r :
  graph_record entry = Some r -> node_id r = JStr (fst entry).
Proof.
  destruct entry as [key node]. unfold graph_record.
  destruct node; try discriminate.
  destruct (eq_str _ _); try discriminate.
  destruct (selected_text _) as [[]|]; try discriminate;
    match goal with
    | |- (if ?b then _ else _) = _ -> _ => destruct b; try discriminate
    end; intros H; injection H as <-; reflexivity.
Qed.

Lemma ui_prompt_loop_exact (entries : list (string * json)) (ps : pyset) :
  NoDup (map fst entries) ->
  Forall (fun e => inputs_mapping (snd e)) entries ->
  (forall key y, In key (map fst entries) -> In y ps -> key_eqb (JStr key) y = false) ->
  exists final,
    emit_loop unified_extractor_ui.prompt_entry entries ps = Ok (records_of entries, final).
Proof.
  revert ps. induction entries as [|[key node] rest IH]; intros ps Hnd Hty Hps.
  - simpl. eauto.
  - inversion Hnd as [|? ? Hkey Hrest]; subst.
    inversion Hty as [|? ? Hnode Htyrest]; subst. simpl in Hnode.
    assert (Hset : set_in (JStr key) ps = Ok false).
    { unfold set_in. simpl. f_equal.
      destruct (existsb (key_eqb (JStr key)) ps) eqn:E; [ | reflexivity].
      apply existsb_exists in E. destruct E as (y & Hy & Hxy).
      rewrite (Hps key y) in Hxy; [discriminate | left; reflexivity | exact Hy]. }
    cbn [emit_loop]. rewrite (ui_prompt_entry_exact _ _ _ Hnode Hset). cbn [bind].
    unfold records_of. cbn [flat_map]. fold (records_of rest).
    destruct (graph_record (key, node)) as [r|] eqn:G.
    + destruct (IH (set_add (node_id r) ps) Hrest Htyrest) as [final Hfinal].
      { intros k y Hk [<- | Hy].
        - rewrite (graph_record_id _ _ G). simpl. apply String.eqb_neq.
          intros ->. contradiction.
        - apply Hps; [right; exact Hk | exact Hy]. }
      rewrite Hfinal. cbn [bind]. eauto.
    + destruct (IH ps Hrest Htyrest) as [final Hfinal].
      { intros k y Hk Hy. apply Hps; [right; exact Hk | exact Hy]. }
      rewrite Hfinal. eauto.
Qed.

(** X1: the prompt-graph extractor of unified_extractor_ui.py emits a record
    for exactly the pairs (key, node) where the node is an object of class
    "CLIPTextEncode" whose text, [inputs["text"]] if present, else
    [inputs["prompt"]], exists, is not blank once normalised and has no
    "negative" in its first 50 lower-cased characters, with the key as node
    identifier and "Node " + key as title, in the order of the mapping: on
    every mapping whose keys are distinct and unprocessed and whose object
    nodes have a mapping for [inputs]. *)
Theorem unified_prompt_graph_exact (entries : list (string * json)) (processed_nodes : pyset) :
  NoDup (map fst entries) ->
  Forall (fun e => inputs_mapping (snd e)) entries ->
  (forall key y, In key (map fst entries) -> In y processed_nodes ->
                 key_eqb (JStr key) y = false) ->
  exists final,
    unified_extractor_ui.extract_positive_from_prompt_data (JObj entries) processed_nodes
    = Ok (records_of entries, final).
Proof.
  intros Hnd Hty Hps. unfold unified_extractor_ui.extract_positive_from_prompt_data.
  cbn [items bind]. apply ui_prompt_loop_exact; assumption.
Qed.

Lemma unified_prompt_graph_exact_witness :
  let entries := [("3", graph_node (JStr "a cat"));
                  ("4", graph_node (JArr [JStr "10"; JInt 0]));
                  ("5", graph_node (JStr "Negative: blurry"));
                  ("7", JObj [("class_type", JStr "KSampler")])] in
  exists final,
    unified_extractor_ui.extract_positive_from_prompt_data (JObj entries) []
    = Ok (records_of entries, final)
    /\ List.length (records_of entries) = 2%nat.
Proof.
  intros entries.
  destruct (unified_prompt_graph_exact entries []) as [final H].
  - repeat constructor; simpl; intuition discriminate.
  - repeat constructor.
  - intros key y _ [].
  - exists final. split; [exact H | reflexivity].
Defined.

(** * Further properties *)

(** ** Lines *)

Lemma split_no_sep (sep : ascii) (s : string) :
  str_all (fun c => negb (Ascii.eqb c sep)) s = true -> PyStr.split sep s = [s].
Proof.
  induction s as [|c s IH]; simpl; [reflexivity | ].
  intros H. apply andb_true_iff in H. destruct H as [Hc Hs].
  apply negb_true_iff in Hc. rewrite Hc, (IH Hs). reflexivity.
Qed.

Lemma split_app_sep (sep : ascii) (s t : string) :
  str_all (fun c => negb (Ascii.eqb c sep)) s = true ->
  PyStr.split sep (s ++ String sep t) = s :: PyStr.split sep t.
Proof.
  induction s as [|c s IH]; simpl.
  - rewrite Ascii.eqb_refl. reflexivity.
  - intros H. apply andb_true_iff in H. destruct H as [Hc Hs].
    apply negb_true_iff in Hc. rewrite Hc, (IH Hs). reflexivity.
Qed.

(** Splitting at newlines undoes joining with newlines. *)
Lemma split_join (lines : list string) :
  lines <> [] -> Forall (fun l => str_all not_LF l = true) lines ->
  PyStr.split PyStr.LF (PyStr.join PyStr.nl lines) = lines.
Proof.
  induction lines as [|l rest IH]; intros Hne Hall; [congruence | ].
  inversion Hall as [|? ? Hl Hrest]; subst.
  destruct rest as [|l' rest'].
  - simpl. apply split_no_sep. exact Hl.
  - change (PyStr.join PyStr.nl (l :: l' :: rest'))
      with (l ++ String PyStr.LF (PyStr.join PyStr.nl (l' :: rest'))).
    rewrite split_app_sep by exact Hl. f_equal. apply IH; [discriminate | exact Hrest].
Qed.

Lemma lstrip_length (s : string) : (String.length (PyStr.lstrip s) <= String.length s)%nat.
Proof.
  induction s as [|c s IH]; simpl; [lia | ]. destruct (PyStr.isspace c); simpl; lia.
Qed.

Lemma lstrip_fixed (s : string) :
  String.length (PyStr.lstrip s) = String.length s -> PyStr.lstrip s = s.
Proof.
  destruct s as [|c s]; simpl; [reflexivity | ].
  destruct (PyStr.isspace c); [ | reflexivity].
  pose proof (lstrip_length s). lia.
Qed.

Lemma rstrip_length (s : string) : (String.length (PyStr.rstrip s) <= String.length s)%nat.
Proof.
  induction s as [|c s IH]; simpl; [lia | ].
  destruct (PyStr.rstrip s); [destruct (PyStr.isspace c) | ]; simpl in *; lia.
Qed.

Lemma rstrip_fixed (s : string) :
  String.length (PyStr.rstrip s) = String.length s -> PyStr.rstrip s = s.
Proof.
  induction s as [|c s IH]; simpl; [reflexivity | ].
  pose proof (rstrip_length s) as L.
  destruct (PyStr.rstrip s) as [|d r] eqn:E.
  - destruct (PyStr.isspace c); simpl in *; intros H; [lia | ].
    destruct s; [reflexivity | simpl in H; lia].
  - simpl in *. intros H. rewrite IH by lia. reflexivity.
Qed.

(** A string that [strip] leaves alone has no white space at either end. *)
Lemma strip_fixed (s : string) :
  PyStr.strip s = s -> PyStr.lstrip s = s /\ PyStr.rstrip s = s.
Proof.
  unfold PyStr.strip. intros H.
  pose proof (lstrip_length s) as L1.
  pose proof (rstrip_length (PyStr.lstrip s)) as L2.
  assert (L : String.length (PyStr.rstrip (PyStr.lstrip s)) = String.length s)
    by (rewrite H; reflexivity).
  assert (Hl : PyStr.lstrip s = s) by (apply lstrip_fixed; lia).
  split; [exact Hl | ]. rewrite Hl in H. exact H.
Qed.

Lemma rstrip_app (a p : string) :
  PyStr.rstrip p = p -> p <> "" -> PyStr.rstrip (a ++ p) = a ++ p.
Proof.
  intros Hp Hne. induction a as [|c a IH]; simpl; [exact Hp | ].
  rewrite IH. destruct (a ++ p) eqn:E; [ | reflexivity].
  destruct a; simpl in E; [congruence | discriminate].
Qed.

Lemma append_empty (s : string) : s ++ "" = s.
Proof. induction s as [|c s IH]; simpl; [reflexivity | rewrite IH; reflexivity]. Qed.

Lemma splitlines_single (p : string) :
  str_all not_linebreak p = true -> p <> "" -> PyStr.splitlines p = [p].
Proof.
  induction p as [|c p IH]; [congruence | ]. intros H _.
  cbn [str_all] in H. apply andb_true_iff in H. destruct H as [Hc Hp].
  unfold not_linebreak in Hc. apply negb_true_iff in Hc.
  cbn [PyStr.splitlines]. rewrite Hc.
  destruct p as [|d p']; [reflexivity | ].
  rewrite IH by (auto; discriminate). reflexivity.
Qed.

Lemma no_linebreak_no_LF (p : string) :
  str_all not_linebreak p = true -> str_all not_LF p = true.
Proof.
  induction p as [|c p IH]; simpl; [reflexivity | ].
  intros H. apply andb_true_iff in H. destruct H as [Hc Hp].
  rewrite (IH Hp), andb_true_r.
  unfold not_linebreak, not_LF in *. apply negb_true_iff in Hc. apply negb_true_iff.
  destruct (Ascii.eqb c PyStr.LF) eqn:E; [ | reflexivity].
  apply Ascii.eqb_eq in E. subst c. discriminate Hc.
Qed.

(** ** The text format round trip *)

Lemma strip_marker_line (p : string) :
  PyStr.strip p = p -> p <> "" ->
  PyStr.strip ("Positive prompt: " ++ p) = "Positive prompt: " ++ p.
Proof.
  intros Hp Hne. destruct (strip_fixed p Hp) as [_ Hr].
  unfold PyStr.strip.
  change (PyStr.lstrip ("Positive prompt: " ++ p)) with ("Positive prompt: " ++ p).
  apply rstrip_app; assumption.
Qed.

Lemma marker_line_starts (p : string) :
  PyStr.startswith (PyStr.lower ("Positive prompt: " ++ p)) "positive prompt:" = true.
Proof. reflexivity. Qed.

Lemma strip_after_colon (p : string) :
  PyStr.strip p = p -> PyStr.strip (" " ++ p) = p.
Proof. intros Hp. exact Hp. Qed.

Section RoundTrip.
Variable json_loads : loader.

(** X3: a prompt of one line, with no white space at either end, written
    after "Positive prompt: " and followed by a "Steps" line, is returned
    unchanged by both parameters extractors, whatever lines follow. *)
Theorem parameters_round_trip (metadata : metadata_map) (p : string) (tail : list string) :
  assoc "parameters" metadata = Some (MStr (parameters_block p tail)) ->
  json_loads (MStr (parameters_block p tail)) = Err JSONDecodeError ->
  PyStr.strip p = p -> p <> "" -> str_all not_linebreak p = true ->
  Forall (fun l => str_all not_LF l = true) tail ->
  prompt_extractor.extract_positive_prompt json_loads metadata = Ok (JStr p)
  /\ unified_extractor_ui.extract_positive_from_parameters_strict json_loads metadata
     = Ok (Some p).
Proof.
  intros Hm Hj Hp Hne Hlb Htail.
  rewrite (simple_after_decode_failure _ _ _ Hm Hj),
    (strict_after_decode_failure _ _ _ Hm Hj).
  unfold parameters_block. rewrite split_join.
  2: discriminate.
  2: { constructor; [ | constructor; [reflexivity | exact Htail]].
       change (str_all not_LF ("Positive prompt: " ++ p))
         with (str_all not_LF p).
       apply no_linebreak_no_LF. exact Hlb. }
  destruct (strip_fixed p Hp) as [_ Hr].
  split.
  - cbn [prompt_extractor.scan_lines].
    rewrite (strip_marker_line p Hp Hne), marker_line_starts.
    change (nth_error (PyStr.split1 PyStr.COLON ("Positive prompt: " ++ p)) 1)
      with (Some (" " ++ p)).
    cbv beta iota. rewrite (strip_after_colon p Hp).
    change (prompt_extractor.continuation ("Steps: 20" :: tail)) with "".
    rewrite append_empty. reflexivity.
  - cbn [unified_extractor_ui.scan_lines].
    rewrite (strip_marker_line p Hp Hne), marker_line_starts.
    change (PyStr.has_char PyStr.COLON ("Positive prompt: " ++ p)) with true.
    change (nth_error (PyStr.split1 PyStr.COLON ("Positive prompt: " ++ p)) 1)
      with (Some (" " ++ p)).
    cbv beta iota. cbn [bind]. rewrite (strip_after_colon p Hp).
    change (unified_extractor_ui.continuation ("Steps: 20" :: tail)) with (@nil string).
    assert (T : truthy (JStr p) = true).
    { simpl. apply negb_true_iff, String.eqb_neq. exact Hne. }
    rewrite T. cbn [app PyStr.join]. rewrite Hr, (splitlines_single p Hlb Hne).
    cbn [unified_extractor_ui.drop_blank]. rewrite Hp.
    apply String.eqb_neq in Hne. rewrite Hne. reflexivity.
Qed.
End RoundTrip.

Lemma parameters_round_trip_witness :
  prompt_extractor.extract_positive_prompt (table_loader [])
    [("parameters", MStr canvas_parameters)]
  = Ok (JStr "a cat, oil on canvas")
  /\ unified_extractor_ui.extract_positive_from_parameters_strict (table_loader [])
       [("parameters", MStr canvas_parameters)] = Ok (Some "a cat, oil on canvas").
Proof.
  apply (parameters_round_trip (table_loader [])
           [("parameters", MStr canvas_parameters)]
           "a cat, oil on canvas" ["Sampler: Euler"; "Seed: 7"]);
    try reflexivity.
  - discriminate.
  - repeat constructor.
Defined.

(** ** The simple extractor returns one line *)

Lemma str_all_app (f : ascii -> bool) (a b : string) :
  str_all f (a ++ b) = str_all f a && str_all f b.
Proof.
  induction a as [|c a IH]; simpl; [reflexivity | ].
  rewrite IH, andb_assoc. reflexivity.
Qed.

Lemma str_all_lstrip (f : ascii -> bool) (s : string) :
  str_all f s = true -> str_all f (PyStr.lstrip s) = true.
Proof.
  induction s as [|c s IH]; simpl; [reflexivity | ].
  intros H. destruct (PyStr.isspace c); [ | exact H].
  apply andb_true_iff in H. tauto.
Qed.

Lemma str_all_rstrip (f : ascii -> bool) (s : string) :
  str_all f s = true -> str_all f (PyStr.rstrip s) = true.
Proof.
  induction s as [|c s IH]; simpl; [reflexivity | ].
  intros H. apply andb_true_iff in H. destruct H as [Hc Hs]. specialize (IH Hs).
  destruct (PyStr.rstrip s); [destruct (PyStr.isspace c) | ]; simpl in *;
    try reflexivity; rewrite Hc; auto.
Qed.

Lemma str_all_strip (f : ascii -> bool) (s : string) :
  str_all f s = true -> str_all f (PyStr.strip s) = true.
Proof. intros H. apply str_all_rstrip, str_all_lstrip, H. Qed.

Lemma split_pieces (sep : ascii) (s : string) :
  Forall (fun l => str_all (fun c => negb (Ascii.eqb c sep)) l = true) (PyStr.split sep s).
Proof.
  induction s as [|c s IH]; simpl; [repeat constructor | ].
  destruct (Ascii.eqb c sep) eqn:E; [constructor; [reflexivity | exact IH] | ].
  destruct (PyStr.split sep s) as [|h t]; [repeat constructor; simpl; rewrite E; reflexivity | ].
  inversion IH; subst. constructor; [simpl; rewrite E; assumption | assumption].
Qed.

Lemma split1_pieces (f : ascii -> bool) (sep : ascii) (s : string) :
  str_all f s = true -> Forall (fun l => str_all f l = true) (PyStr.split1 sep s).
Proof.
  induction s as [|c s IH]; simpl; [repeat constructor | ].
  intros H. apply andb_true_iff in H. destruct H as [Hc Hs]. specialize (IH Hs).
  destruct (Ascii.eqb c sep); [repeat constructor; exact Hs | ].
  destruct (PyStr.split1 sep s) as [|h t];
    [repeat constructor; simpl; rewrite Hc; reflexivity | ].
  inversion IH; subst. constructor; [simpl; rewrite Hc; assumption | assumption].
Qed.

Lemma simple_continuation_one_line (lines : list string) :
  Forall (fun l => str_all not_LF l = true) lines ->
  str_all not_LF (prompt_extractor.continuation lines) = true.
Proof.
  induction 1 as [|l rest Hl Hrest IH]; simpl; [reflexivity | ].
  destruct (_ || _); [reflexivity | ].
  cbn [str_all]. rewrite str_all_app, (str_all_strip _ _ Hl), IH. reflexivity.
Qed.

Lemma simple_scan_one_line (lines : list string) (r : string) :
  Forall (fun l => str_all not_LF l = true) lines ->
  prompt_extractor.scan_lines lines = Ok (JStr r) -> str_all not_LF r = true.
Proof.
  induction 1 as [|l rest Hl Hrest IH]; cbn [prompt_extractor.scan_lines];
    [discriminate | ].
  destruct (PyStr.startswith _ _); [ | exact IH].
  pose proof (split1_pieces not_LF PyStr.COLON _ (str_all_strip _ _ Hl)) as Hp.
  destruct (nth_error (PyStr.split1 PyStr.COLON (PyStr.strip l)) 1) as [after|] eqn:E;
    [ | discriminate].
  intros H. injection H as <-.
  apply nth_error_In in E. rewrite Forall_forall in Hp. specialize (Hp _ E).
  rewrite str_all_app, (str_all_strip _ _ Hp), (simple_continuation_one_line _ Hrest).
  reflexivity.
Qed.

Section OneLine.
Variable json_loads : loader.

(** X4: when the parameters string is not JSON, the prompt the simple
    extractor returns has no newline: the continuation lines are joined with
    spaces. *)
Theorem simple_prompt_is_one_line (metadata : metadata_map) (parameters_data r : string) :
  assoc "parameters" metadata = Some (MStr parameters_data) ->
  json_loads (MStr parameters_data) = Err JSONDecodeError ->
  prompt_extractor.extract_positive_prompt json_loads metadata = Ok (JStr r) ->
  str_all not_LF r = true.
Proof.
  intros Hm Hj H. rewrite (simple_after_decode_failure _ _ _ Hm Hj) in H.
  apply reraise_Ok in H. eapply simple_scan_one_line; [ | exact H].
  apply split_pieces.
Qed.
End OneLine.

Lemma simple_prompt_is_one_line_witness :
  prompt_extractor.extract_positive_prompt (table_loader [])
    [("parameters", MStr two_line_parameters)]
  = Ok (JStr "a cat on a mat, oil")
  /\ str_all not_LF "a cat on a mat, oil" = true.
Proof.
  split; [vm_compute; reflexivity | ].
  apply (simple_prompt_is_one_line (table_loader [])
           [("parameters", MStr two_line_parameters)]
           two_line_parameters "a cat on a mat, oil"); reflexivity.
Defined.

(** ** Records come from nodes, in order *)

Lemma picked_impl {A B : Type} (R S : A -> B -> Prop) xs ys :
  (forall x y, R x y -> S x y) -> picked R xs ys -> picked S xs ys.
Proof.
  intros H. induction 1; [apply picked_nil | apply picked_skip | apply picked_take]; auto.
Qed.

Lemma emit_loop_picked {A : Type} (step : A -> pyset -> result (option prompt_info))
    (xs : list A) (ps : pyset) out final :
  emit_loop step xs ps = Ok (out, final) ->
  picked (fun x info => exists qs, step x qs = Ok (Some info)) xs out.
Proof.
  revert ps out final. induction xs as [|x xs IH]; intros ps out final H; simpl in H.
  - injection H as <- <-. constructor.
  - step_in H. destruct a as [info|].
    + step_in H. destruct a as [more fin]. injection H as <- <-.
      apply picked_take; eauto.
    + apply picked_skip. eauto.
Qed.

Lemma prefix_trans (a b s : string) :
  String.prefix a b = true -> String.prefix b s = true -> String.prefix a s = true.
Proof.
  revert b s. induction a as [|c a IH]; intros b s Hab Hbs; [destruct s; reflexivity | ].
  destruct b as [|d b]; [discriminate Hab | ].
  destruct s as [|e s]; [discriminate Hbs | ].
  simpl in *. destruct (ascii_dec c d) as [-> | ]; [ | discriminate].
  destruct (ascii_dec d e) as [-> | ]; [ | discriminate]. eauto.
Qed.

(** A string that contains [b] contains every prefix of [b]. *)
Lemma contains_prefix (a b s : string) :
  String.prefix a b = true -> PyStr.contains b s = true -> PyStr.contains a s = true.
Proof.
  intros Hab. induction s as [|c s IH]; cbn [PyStr.contains]; intros H.
  - rewrite orb_false_r in *. eapply prefix_trans; eauto.
  - apply orb_true_iff in H. apply orb_true_iff. destruct H as [H | H].
    + left. eapply prefix_trans; eauto.
    + right. auto.
Qed.

Lemma orM_true (x y : result bool) :
  orM x y = Ok true -> x = Ok true \/ (x = Ok false /\ y = Ok true).
Proof.
  unfold orM. destruct x as [[]|e]; simpl; intros H; try discriminate H; auto.
Qed.

Lemma strip_nonempty_true v :
  strip_nonempty v = Ok true -> exists s, v = JStr s /\ PyStr.strip s <> "".
Proof.
  unfold strip_nonempty, str_strip. destruct v; simpl; intros H; try discriminate H.
  injection H as H. apply negb_true_iff, String.eqb_neq in H. eauto.
Qed.

Lemma no_negative_true s :
  no_negative_at_start (JStr s) = Ok true ->
  PyStr.contains "negative" (PyStr.take 50 (PyStr.lower s)) = false.
Proof.
  unfold no_negative_at_start. simpl. intros H. injection H as H.
  apply negb_true_iff in H. exact H.
Qed.

Lemma cli_workflow_node_sound node ps info :
  comfyprompt_extractor.workflow_node node ps = Ok (Some info) -> cli_accepts node info.
Proof.
  intros H. pose proof (cli_workflow_node_text _ _ _ H) as (s & Hs & Hblank).
  unfold comfyprompt_extractor.workflow_node in H. unroll H.
  injection H as <-. cbn [text] in Hs. subst.
  repeat match goal with
         | Hb : negb ?b = false |- _ => apply negb_false_iff in Hb; subst b
         | Hc : _ && negb _ = true |- _ =>
             apply andb_true_iff in Hc; destruct Hc as [? Hc];
             apply negb_true_iff in Hc; subst
         end.
  match goal with
  | Hn : _ ||| starts_negative _ = Ok false |- _ =>
      apply orM_false in Hn; destruct Hn as [Hn Hstart];
      apply orM_false in Hn; destruct Hn as [Hn _];
      apply orM_false in Hn; destruct Hn as [_ Hneg];
      injection Hneg as Hneg;
      unfold starts_negative in Hstart; simpl in Hstart; injection Hstart as Hstart
  end.
  match goal with
  | Ht : str_lower ?raw = Ok ?t, Hg : get node "title" (JStr "") = Ok ?raw,
    Hw : get node "widgets_values" _ = Ok ?w |- _ =>
      exists t, s, w; unfold lowered_title; rewrite Hg; cbn [bind]
  end.
  repeat (split; [first [assumption | reflexivity] | ]).
  match goal with
  | Hp : _ ||| _ = Ok true |- _ =>
      apply orM_true in Hp; destruct Hp as [Hp | [_ Hp]];
      [ apply orM_true in Hp; destruct Hp as [Hp | [_ Hp]];
        [ apply orM_true in Hp; destruct Hp as [Hp | [_ Hp]];
          injection Hp as Hp; left;
          [ eapply contains_prefix; [ | exact Hp]; reflexivity | exact Hp ]
        | right ]
      | right ];
      apply andM_true in Hp; destruct Hp as [Hp Hfree];
      apply andM_true in Hp; destruct Hp as [Hp _];
      injection Hp as Hp; apply String.eqb_eq in Hp;
      (split; [auto | apply no_negative_true; exact Hfree])
  end.
Qed.

(** X5: the records of the workflow extractor of comfyprompt_extractor.py
    are picked from the nodes of the array in their order, and each one is the
    record of a node that passes the tests. *)
Theorem cli_workflow_records_in_order (workflow_data : json) (processed_nodes : pyset)
    (out : list prompt_info) (final : pyset) :
  comfyprompt_extractor.extract_positive_from_workflow workflow_data processed_nodes
    = Ok (out, final) ->
  exists nodes node_list,
    get workflow_data "nodes" (JArr []) = Ok nodes
    /\ iter nodes = Ok node_list
    /\ picked cli_accepts node_list out.
Proof.
  unfold comfyprompt_extractor.extract_positive_from_workflow. intros H.
  do 2 step_in H.
  eexists; eexists; split; [reflexivity | split; [eassumption | ]].
  apply emit_loop_picked in H. eapply picked_impl; [ | exact H].
  intros x y [qs Hs]. eapply cli_workflow_node_sound; eauto.
Qed.

Lemma ui_workflow_node_sound node ps info :
  unified_extractor_ui.workflow_node node ps = Ok (Some info) -> ui_accepts node info.
Proof.
  intros H. unfold unified_extractor_ui.workflow_node in H. unroll H.
  injection H as <-.
  repeat match goal with
         | Hb : negb ?b = false |- _ => apply negb_false_iff in Hb; subst b
         | Hc : _ && _ = true |- _ => apply andb_true_iff in Hc; destruct Hc as [Hc ?]
         | Hc : negb ?b = true |- _ => apply negb_true_iff in Hc; subst b
         | Hc : ?b = true |- _ => is_var b; subst b
         end.
  match goal with
  | Hn : _ ||| _ &&& (strip_empty ?v ||| starts_negative ?v) = Ok false |- _ =>
      apply orM_false in Hn; destruct Hn as [Hn Htext];
      apply orM_false in Hn; destruct Hn as [_ Hneg];
      injection Hneg as Hneg
  end.
  match goal with
  | Ht : str_lower ?raw = Ok ?t, Hg : get node "title" (JStr "") = Ok ?raw,
    Hw : get node "widgets_values" _ = Ok ?w, Hv : getitem0 ?w = Ok ?v |- _ =>
      exists t, v, w; unfold lowered_title; rewrite Hg; cbn [bind]
  end.
  repeat (split; [first [assumption | reflexivity] | ]).
  split; [ | split; [ | split; [exact Hneg | split]]].
  - cbn [text]. match goal with |- JStr (str ?m) = _ => destruct a7 end;
      try reflexivity; discriminate.
  - destruct a7; try reflexivity; discriminate.
  - intros s ->. cbn [is_str andM bind] in Htext.
    apply orM_false in Htext. destruct Htext as [He Hs].
    apply strip_empty_false in He. destruct He as (s' & [= <-] & He).
    unfold starts_negative in Hs. simpl in Hs. injection Hs as Hs. auto.
  - match goal with
    | Hp : _ ||| _ = Ok true |- _ =>
        apply orM_true in Hp; destruct Hp as [Hp | [_ Hp]];
        [ apply orM_true in Hp; destruct Hp as [Hp | [_ Hp]];
          [ apply orM_true in Hp; destruct Hp as [Hp | [_ Hp]];
            injection Hp as Hp; left;
            [ eapply contains_prefix; [ | exact Hp]; reflexivity | exact Hp ]
          | right ]
        | right ];
        apply andM_true in Hp; destruct Hp as [Hp Hfree];
        apply andM_true in Hp; destruct Hp as [Hp _];
        apply andM_true in Hp; destruct Hp as [Hp Hstr];
        injection Hp as Hp; apply String.eqb_eq in Hp;
        injection Hstr as Hstr; destruct a7; try discriminate Hstr;
        (split; [auto | eexists; split; [reflexivity | apply no_negative_true; exact Hfree]])
    end.
Qed.

(** X6: the records of the workflow extractor of unified_extractor_ui.py are
    picked from the nodes of the array in their order, and each one is the
    record of a node that passes the tests, with the normalised first widget
    value as text. *)
Theorem ui_workflow_records_in_order (workflow_data : json) (processed_nodes : pyset)
    (out : list prompt_info) (final : pyset) :
  unified_extractor_ui.extract_positive_from_workflow workflow_data processed_nodes
    = Ok (out, final) ->
  exists nodes node_list,
    get workflow_data "nodes" (JArr []) = Ok nodes
    /\ iter nodes = Ok node_list
    /\ picked ui_accepts node_list out.
Proof.
  unfold unified_extractor_ui.extract_positive_from_workflow. intros H.
  do 2 step_in H.
  eexists; eexists; split; [reflexivity | split; [eassumption | ]].
  apply emit_loop_picked in H. eapply picked_impl; [ | exact H].
  intros x y [qs Hs]. eapply ui_workflow_node_sound; eauto.
Qed.

(** ** The two generations of extractors agree on strings *)

Ltac same_step :=
  match goal with
  | |- bind ?m _ = bind ?m _ =>
      let E := fresh "E" in destruct m eqn:E; cbn [bind]; [ | reflexivity]
  | |- (if ?b then _ else _) = (if ?b then _ else _) =>
      let E := fresh "E" in destruct b eqn:E; [try reflexivity | try reflexivity]
  end.

(** A set that does not hold [x] has no subset that does. *)
Lemma set_in_below x ps qs :
  set_in x qs = Ok false -> incl ps qs -> set_in x ps = Ok false.
Proof.
  unfold set_in. destruct (hashable x); [ | discriminate].
  intros H Hi. injection H as H. f_equal.
  destruct (existsb (key_eqb x) ps) eqn:E; [ | reflexivity].
  apply existsb_exists in E. destruct E as (y & Hy & Hxy).
  rewrite <- H. symmetry. apply existsb_exists.
  exists y. split; [apply Hi; exact Hy | exact Hxy].
Qed.

Lemma workflow_node_agree processed_nodes node ps :
  incl processed_nodes ps ->
  widget_is_string processed_nodes node ->
  comfyprompt_extractor.workflow_node node ps = unified_extractor_ui.workflow_node node ps.
Proof.
  intros Hi Hw.
  unfold comfyprompt_extractor.workflow_node, unified_extractor_ui.workflow_node.
  repeat same_step.
  match goal with
  | Hid : get node "id" JNull = Ok ?i, Hin : set_in ?i ps = Ok false,
    Hty : get node "type" (JStr "") = Ok ?t, Hc : is_text_encode node ?t = Ok ?c,
    Hn : negb ?c = false,
    Hg : get node "widgets_values" _ = Ok ?w, Hv : getitem0 ?w = Ok ?v |- _ =>
      apply negb_false_iff in Hn; rewrite Hn in Hc;
      pose proof (Hw _ _ _ _ Hid (set_in_below _ _ _ Hin Hi) Hty Hc Hg Hv) as Hstr;
      destruct v; try discriminate Hstr
  end.
  unfold strip_nonempty, strip_empty, starts_negative, no_negative_at_start,
    str_strip, str_lower.
  cbn [bind is_str unified_extractor_ui.is_str_int_float str].
  destruct (PyStr.contains "positive" a2), (PyStr.contains "pos" a2),
    (PyStr.contains "negative" a2), (PyStr.contains "neg" a2),
    (a2 =? ""), (a2 =? "untitled"), (PyStr.strip s =? ""),
    (PyStr.contains "negative" (PyStr.take 50 (PyStr.lower s))),
    (PyStr.startswith (PyStr.strip (PyStr.lower s)) "negative");
    cbn; try reflexivity;
    destruct (get node "title" (JStr "Untitled")); reflexivity.
Qed.

(** Two steps that agree on every set above [ps0] give the same loop from
    such a set: the set only grows. *)
Lemma emit_loop_ext {A : Type} (f g : A -> pyset -> result (option prompt_info))
    (xs : list A) (ps0 ps : pyset) :
  incl ps0 ps ->
  Forall (fun x => forall qs, incl ps0 qs -> f x qs = g x qs) xs ->
  emit_loop f xs ps = emit_loop g xs ps.
Proof.
  intros Hi H. revert ps Hi.
  induction H as [|x xs Hx Hxs IH]; intros ps Hi; simpl; [reflexivity | ].
  rewrite (Hx ps Hi). destruct (g x ps) as [[info|]|e]; simpl; [ | auto | reflexivity].
  rewrite (IH (set_add (node_id info) ps)); [reflexivity | ].
  apply incl_tl. exact Hi.
Qed.

(** X7: on a workflow in which every text-encode node whose identifier is
    not in the processed set has a string as first widget value, when it has
    one, the workflow extractors of comfyprompt_extractor.py and of
    unified_extractor_ui.py return the same; the other nodes may hold
    anything. *)
Theorem workflow_extractors_agree (workflow_data : json) (processed_nodes : pyset) :
  (forall nodes node_list,
     get workflow_data "nodes" (JArr []) = Ok nodes -> iter nodes = Ok node_list ->
     Forall (widget_is_string processed_nodes) node_list) ->
  comfyprompt_extractor.extract_positive_from_workflow workflow_data processed_nodes
  = unified_extractor_ui.extract_positive_from_workflow workflow_data processed_nodes.
Proof.
  intros H. unfold comfyprompt_extractor.extract_positive_from_workflow,
    unified_extractor_ui.extract_positive_from_workflow.
  destruct (get workflow_data "nodes" (JArr [])) as [nodes|e] eqn:E; [ | reflexivity].
  cbn [bind]. destruct (iter nodes) as [node_list|e] eqn:E'; [ | reflexivity].
  cbn [bind]. apply (emit_loop_ext _ _ _ processed_nodes); [apply incl_refl | ].
  eapply Forall_impl; [ | exact (H _ _ eq_refl E')].
  intros node Hn qs Hi. apply (workflow_node_agree processed_nodes); assumption.
Qed.

Lemma prompt_text_agree (key : string) (class_type v : json) :
  is_str v = true \/ v = JNull ->
  (go <- Ok (truthy v) &&& (s <- str_strip v;; Ok (truthy (JStr s)));;
   (if negb go
    then Ok None
    else
     is_negative <-
     strip_empty v
     ||| Ok (PyStr.contains "negative" (PyStr.take 50 (PyStr.lower (str v))));;
     (if negb is_negative
      then
       Ok (Some {| text := v; node_id := JStr key; node_type := class_type;
                   title := JStr ("Node " ++ key); source := "prompt_data" |})
      else Ok None)))
  = match v with
    | JNull => Ok None
    | _ =>
        let text_content := unified_extractor_ui.normalize v in
        if negb (PyStr.strip text_content =? "")
        then
          let is_negative :=
            PyStr.contains "negative" (PyStr.take 50 (PyStr.lower text_content)) in
          if negb is_negative
          then Ok (Some {| text := JStr text_content; node_id := JStr key;
                           node_type := class_type; title := JStr ("Node " ++ key);
                           source := "prompt_data" |})
          else Ok None
        else Ok None
    end.
Proof.
  intros [Hs | ->]; [ | reflexivity].
  destruct v; try discriminate Hs. destruct s as [|c s]; [reflexivity | ].
  unfold strip_empty, str_strip.
  cbn [truthy andM orM bind str unified_extractor_ui.normalize String.eqb negb].
  destruct (PyStr.strip (String c s) =? ""); cbn [negb bind]; [reflexivity | ].
  destruct (PyStr.contains "negative" _); reflexivity.
Qed.

Lemma prompt_entry_agree processed_nodes entry ps :
  incl processed_nodes ps ->
  text_is_string processed_nodes entry ->
  comfyprompt_extractor.prompt_entry entry ps = unified_extractor_ui.prompt_entry entry ps.
Proof.
  destruct entry as [key value]. intros Hi Ht.
  unfold comfyprompt_extractor.prompt_entry, unified_extractor_ui.prompt_entry.
  repeat same_step.
  assert (Ht' : forall inputs v,
            get value "inputs" (JObj []) = Ok inputs ->
            getitem_str inputs "text" = Ok v
            \/ (contains_str "text" inputs = Ok false /\ getitem_str inputs "prompt" = Ok v) ->
            is_str v = true \/ v = JNull).
  { match goal with
    | Hc : get value "class_type" _ = Ok ?c, Hin : set_in (JStr key) ps = Ok false,
      Hn : negb (eq_str ?c "CLIPTextEncode") = false |- _ =>
        apply negb_false_iff in Hn;
        intros inputs v; apply (Ht _ _ _ (set_in_below _ _ _ Hin Hi) Hc Hn)
    end. }
  clear Ht. rename Ht' into Ht.
  match goal with
  | Hc : contains_str "text" ?inputs = Ok ?b |- _ => destruct b
  end.
  - match goal with
    | |- context [getitem_str ?i "text"] =>
        destruct (getitem_str i "text") as [v|e] eqn:G; cbn [bind]; [ | reflexivity]
    end.
    apply prompt_text_agree. eapply Ht; eauto.
  - match goal with
    | |- context [contains_str "prompt" ?i] =>
        destruct (contains_str "prompt" i) as [[]|e] eqn:P; cbn [bind]; try reflexivity;
        destruct (getitem_str i "prompt") as [v|e] eqn:G; cbn [bind]; [ | reflexivity]
    end.
    apply prompt_text_agree. eapply Ht; eauto.
Qed.

(** X8: on a prompt graph in which every "CLIPTextEncode" entry whose key is
    not in the processed set has a string (or [null]) as text input, when it
    has one, the prompt-graph extractors of comfyprompt_extractor.py and of
    unified_extractor_ui.py return the same; the other entries may hold
    anything. *)
Theorem prompt_graph_extractors_agree (prompt_data : json) (processed_nodes : pyset) :
  (forall entries,
     items prompt_data = Ok entries -> Forall (text_is_string processed_nodes) entries) ->
  comfyprompt_extractor.extract_positive_from_prompt_data prompt_data processed_nodes
  = unified_extractor_ui.extract_positive_from_prompt_data prompt_data processed_nodes.
Proof.
  intros H. unfold comfyprompt_extractor.extract_positive_from_prompt_data,
    unified_extractor_ui.extract_positive_from_prompt_data.
  destruct (items prompt_data) as [entries|e] eqn:E; [ | reflexivity].
  cbn [bind]. apply (emit_loop_ext _ _ _ processed_nodes); [apply incl_refl | ].
  eapply Forall_impl; [ | exact (H _ eq_refl)].
  intros entry He qs Hi. apply (prompt_entry_agree processed_nodes); assumption.
Qed.

(** ** A second run on the returned set *)

Lemma set_in_incl x ps ps' :
  set_in x ps = Ok true -> incl ps ps' -> set_in x ps' = Ok true.
Proof.
  unfold set_in. destruct (hashable x); [ | discriminate].
  intros H Hi. injection H as H. f_equal.
  apply existsb_exists in H. destruct H as (y & Hy & Hxy).
  apply existsb_exists. exists y. split; [apply Hi; exact Hy | exact Hxy].
Qed.

Lemma set_in_member x ps b ps' :
  set_in x ps = Ok b -> In x ps' -> set_in x ps' = Ok true.
Proof.
  unfold set_in. destruct (hashable x) eqn:Hh; [ | discriminate].
  intros _ Hin. f_equal. apply existsb_exists. exists x.
  split; [exact Hin | apply key_eqb_refl; exact Hh].
Qed.

Lemma set_in_returns x ps b ps' : set_in x ps = Ok b -> exists b', set_in x ps' = Ok b'.
Proof. unfold set_in. destruct (hashable x); [eauto | discriminate]. Qed.

Lemma cli_workflow_node_settled : settled comfyprompt_extractor.workflow_node.
Proof.
  intros node ps r ps' H Hincl Hr.
  pose proof H as H0. unfold comfyprompt_extractor.workflow_node in H |- *.
  do 5 (step_in H; cbn [bind]).
  destruct a3.
  - rewrite (set_in_incl _ _ _ E3 Hincl). reflexivity.
  - destruct (set_in_returns _ _ _ ps' E3) as [[] Hb]; rewrite Hb; cbn [bind];
      [reflexivity | ].
    destruct r as [info|]; [ | exact H].
    apply cli_workflow_node_source in H0. destruct H0 as [_ Hid].
    rewrite E in Hid. injection Hid as ->.
    rewrite (set_in_member _ _ _ _ E3 (Hr _ eq_refl)) in Hb. discriminate.
Qed.

Lemma ui_workflow_node_settled : settled unified_extractor_ui.workflow_node.
Proof.
  intros node ps r ps' H Hincl Hr.
  pose proof H as H0. unfold unified_extractor_ui.workflow_node in H |- *.
  do 5 (step_in H; cbn [bind]).
  destruct a3.
  - rewrite (set_in_incl _ _ _ E3 Hincl). reflexivity.
  - destruct (set_in_returns _ _ _ ps' E3) as [[] Hb]; rewrite Hb; cbn [bind];
      [reflexivity | ].
    destruct r as [info|]; [ | exact H].
    apply ui_workflow_node_source in H0. destruct H0 as [_ Hid].
    rewrite E in Hid. injection Hid as ->.
    rewrite (set_in_member _ _ _ _ E3 (Hr _ eq_refl)) in Hb. discriminate.
Qed.

Lemma cli_prompt_entry_settled : settled comfyprompt_extractor.prompt_entry.
Proof.
  intros [key value] ps r ps' H Hincl Hr.
  pose proof H as H0. unfold comfyprompt_extractor.prompt_entry in H |- *.
  destruct (negb (is_dict value)); [reflexivity | ].
  do 2 (step_in H; cbn [bind]).
  destruct a0.
  - rewrite (set_in_incl _ _ _ E0 Hincl). reflexivity.
  - destruct (set_in_returns _ _ _ ps' E0) as [[] Hb]; rewrite Hb; cbn [bind];
      [reflexivity | ].
    destruct r as [info|]; [ | exact H].
    apply cli_prompt_entry_source in H0. destruct H0 as (_ & Hid & _). simpl in Hid.
    specialize (Hr _ eq_refl). rewrite Hid in Hr.
    rewrite (set_in_member _ _ _ _ E0 Hr) in Hb. discriminate.
Qed.

Lemma ui_prompt_entry_settled : settled unified_extractor_ui.prompt_entry.
Proof.
  intros [key value] ps r ps' H Hincl Hr.
  pose proof H as H0. unfold unified_extractor_ui.prompt_entry in H |- *.
  destruct (negb (is_dict value)); [reflexivity | ].
  do 2 (step_in H; cbn [bind]).
  destruct a0.
  - rewrite (set_in_incl _ _ _ E0 Hincl). reflexivity.
  - destruct (set_in_returns _ _ _ ps' E0) as [[] Hb]; rewrite Hb; cbn [bind];
      [reflexivity | ].
    destruct r as [info|]; [ | exact H].
    apply ui_prompt_entry_source in H0. destruct H0 as (_ & Hid & _). simpl in Hid.
    specialize (Hr _ eq_refl). rewrite Hid in Hr.
    rewrite (set_in_member _ _ _ _ E0 Hr) in Hb. discriminate.
Qed.

Lemma emit_loop_settled {A : Type} (step : A -> pyset -> result (option prompt_info))
    (xs : list A) (ps : pyset) out final :
  settled step ->
  emit_loop step xs ps = Ok (out, final) ->
  forall big, incl final big -> emit_loop step xs big = Ok ([], big).
Proof.
  intros Hstep. revert ps out final.
  induction xs as [|x xs IH]; intros ps out final H big Hbig; [reflexivity | ].
  simpl in H. step_in H. cbn [emit_loop].
  destruct a as [info|].
  - step_in H. destruct a as [more fin]. injection H as <- <-.
    pose proof (emit_loop_set _ _ _ _ _ E0) as Hset.
    assert (Hsub : incl (set_add (node_id info) ps) big).
    { intros y Hy. apply Hbig. rewrite Hset. apply in_or_app. right. exact Hy. }
    rewrite (Hstep x ps (Some info) big E).
    + cbn [bind]. eapply IH; eauto.
    + intros y Hy. apply Hsub. right. exact Hy.
    + intros i [= <-]. apply Hsub. left. reflexivity.
  - pose proof (emit_loop_set _ _ _ _ _ H) as Hset.
    rewrite (Hstep x ps None big E).
    + cbn [bind]. eapply IH; eauto.
    + intros y Hy. apply Hbig. rewrite Hset. apply in_or_app. right. exact Hy.
    + discriminate.
Qed.

(** X9: running a graph extractor again on the same data, with the processed
    set the first run returned, emits nothing and returns that set: every
    node of the first run is either in the set by now or was turned down for
    a reason that does not depend on the set. *)
Theorem second_run_emits_nothing (data : json) (processed_nodes : pyset)
    (out : list prompt_info) (final : pyset) :
  (comfyprompt_extractor.extract_positive_from_workflow data processed_nodes
     = Ok (out, final) ->
   comfyprompt_extractor.extract_positive_from_workflow data final = Ok ([], final))
  /\ (unified_extractor_ui.extract_positive_from_workflow data processed_nodes
     = Ok (out, final) ->
   unified_extractor_ui.extract_positive_from_workflow data final = Ok ([], final))
  /\ (comfyprompt_extractor.extract_positive_from_prompt_data data processed_nodes
     = Ok (out, final) ->
   comfyprompt_extractor.extract_positive_from_prompt_data data final = Ok ([], final))
  /\ (unified_extractor_ui.extract_positive_from_prompt_data data processed_nodes
     = Ok (out, final) ->
   unified_extractor_ui.extract_positive_from_prompt_data data final = Ok ([], final)).
Proof.
  unfold comfyprompt_extractor.extract_positive_from_workflow,
    unified_extractor_ui.extract_positive_from_workflow,
    comfyprompt_extractor.extract_positive_from_prompt_data,
    unified_extractor_ui.extract_positive_from_prompt_data.
  repeat split; intros H.
  - destruct (get data "nodes" (JArr [])) as [n|]; [ | discriminate]. cbn [bind] in *.
    destruct (iter n) as [l|]; [ | discriminate]. cbn [bind] in *.
    eapply emit_loop_settled; eauto using cli_workflow_node_settled, incl_refl.
  - destruct (get data "nodes" (JArr [])) as [n|]; [ | discriminate]. cbn [bind] in *.
    destruct (iter n) as [l|]; [ | discriminate]. cbn [bind] in *.
    eapply emit_loop_settled; eauto using ui_workflow_node_settled, incl_refl.
  - destruct (items data) as [l|]; [ | discriminate]. cbn [bind] in *.
    eapply emit_loop_settled; eauto using cli_prompt_entry_settled, incl_refl.
  - destruct (items data) as [l|]; [ | discriminate]. cbn [bind] in *.
    eapply emit_loop_settled; eauto using ui_prompt_entry_settled, incl_refl.
Qed.

(** ** The prompt-graph pass and the identifiers of the workflow pass *)

Lemma string_key_skips (k : string) (ps : pyset) :
  Forall (fun y => is_str y = false) ps -> existsb (key_eqb (JStr k)) ps = false.
Proof.
  induction 1 as [|y ps Hy Hps IH]; simpl; [reflexivity | ].
  rewrite IH, orb_false_r. destruct y; try reflexivity; discriminate.
Qed.

Lemma prompt_loop_same_strings (step : string * json -> pyset -> result (option prompt_info))
    (entries : list (string * json)) (ps1 ps2 : pyset) :
  (forall entry qs1 qs2,
     set_in (JStr (fst entry)) qs1 = set_in (JStr (fst entry)) qs2 ->
     step entry qs1 = step entry qs2) ->
  (forall k, existsb (key_eqb (JStr k)) ps1 = existsb (key_eqb (JStr k)) ps2) ->
  records (emit_loop step entries ps1) = records (emit_loop step entries ps2).
Proof.
  intros Hstep. revert ps1 ps2.
  induction entries as [|entry rest IH]; intros ps1 ps2 Hps; [reflexivity | ].
  cbn [emit_loop]. rewrite (Hstep entry ps1 ps2) by (unfold set_in; simpl; f_equal; apply Hps).
  destruct (step entry ps2) as [[info|]|e]; cbn [bind]; [ | apply IH; exact Hps | reflexivity].
  specialize (IH (set_add (node_id info) ps1) (set_add (node_id info) ps2)).
  unfold records in *.
  destruct (emit_loop step rest (set_add (node_id info) ps1)) as [[o1 f1]|e1],
    (emit_loop step rest (set_add (node_id info) ps2)) as [[o2 f2]|e2];
    cbn [bind] in *;
    (assert (Hk : forall k, existsb (key_eqb (JStr k)) (set_add (node_id info) ps1)
                            = existsb (key_eqb (JStr k)) (set_add (node_id info) ps2))
       by (intros k; simpl; rewrite Hps; reflexivity));
    specialize (IH Hk); congruence.
Qed.

Lemma cli_prompt_entry_set entry qs1 qs2 :
  set_in (JStr (fst entry)) qs1 = set_in (JStr (fst entry)) qs2 ->
  comfyprompt_extractor.prompt_entry entry qs1 = comfyprompt_extractor.prompt_entry entry qs2.
Proof.
  destruct entry as [key value]. cbn [fst]. intros H.
  unfold comfyprompt_extractor.prompt_entry. rewrite H. reflexivity.
Qed.

Lemma ui_prompt_entry_set entry qs1 qs2 :
  set_in (JStr (fst entry)) qs1 = set_in (JStr (fst entry)) qs2 ->
  unified_extractor_ui.prompt_entry entry qs1 = unified_extractor_ui.prompt_entry entry qs2.
Proof.
  destruct entry as [key value]. cbn [fst]. intros H.
  unfold unified_extractor_ui.prompt_entry. rewrite H. reflexivity.
Qed.

(** X10: a processed set that holds no string has no effect on the
    prompt-graph extractors: the keys of a prompt graph are strings, and a
    string is equal to no number, so the identifiers the workflow pass leaves
    in the set, when they are numbers, never stop an entry. *)
Theorem prompt_graph_ignores_numbers (prompt_data : json) (processed_nodes : pyset) :
  Forall (fun y => is_str y = false) processed_nodes ->
  records (comfyprompt_extractor.extract_positive_from_prompt_data prompt_data processed_nodes)
  = records (comfyprompt_extractor.extract_positive_from_prompt_data prompt_data [])
  /\ records (unified_extractor_ui.extract_positive_from_prompt_data prompt_data processed_nodes)
     = records (unified_extractor_ui.extract_positive_from_prompt_data prompt_data []).
Proof.
  intros H.
  unfold comfyprompt_extractor.extract_positive_from_prompt_data,
    unified_extractor_ui.extract_positive_from_prompt_data.
  destruct (items prompt_data) as [entries|e]; [ | split; reflexivity]. cbn [bind].
  split; apply prompt_loop_same_strings;
    try (intros k; rewrite (string_key_skips k _ H); reflexivity).
  - apply cli_prompt_entry_set.
  - apply ui_prompt_entry_set.
Qed.

Lemma prompt_graph_ignores_numbers_witness :
  records (unified_extractor_ui.extract_positive_from_prompt_data one_node_graph
             [JInt 2; JInt 1])
  = records (unified_extractor_ui.extract_positive_from_prompt_data one_node_graph [])
  /\ records (unified_extractor_ui.extract_positive_from_prompt_data one_node_graph [])
     = Ok [ {| text := JStr "a cat"; node_id := JStr "1";
               node_type := JStr "CLIPTextEncode"; title := JStr "Node 1";
               source := "prompt_data" |} ].
Proof.
  split; [ | vm_compute; reflexivity].
  apply (proj2 (prompt_graph_ignores_numbers one_node_graph [JInt 2; JInt 1]
                  ltac:(repeat constructor))).
Defined.

(** ** Malformed and missing keys *)

Lemma assoc_without_same (k : string) (metadata : metadata_map) :
  assoc k (without k metadata) = None.
Proof.
  induction metadata as [|[k' v] rest IH]; simpl; [reflexivity | ].
  destruct (k' =? k) eqn:E; simpl; [exact IH | rewrite E; exact IH].
Qed.

Lemma assoc_without_other (k k' : string) (metadata : metadata_map) :
  k' <> k -> assoc k' (without k metadata) = assoc k' metadata.
Proof.
  intros Hne. induction metadata as [|[k0 v] rest IH]; simpl; [reflexivity | ].
  destruct (k0 =? k) eqn:E; simpl.
  - apply String.eqb_eq in E. subst k0.
    destruct (k =? k') eqn:E'; [apply String.eqb_eq in E'; congruence | exact IH].
  - destruct (k0 =? k'); [reflexivity | exact IH].
Qed.

Lemma try_loads_rejected {A : Type} (json_loads : loader) v (body : json -> result A) handler :
  json_loads v = Err JSONDecodeError -> try_loads json_loads v body handler = handler.
Proof. unfold try_loads. intros ->. reflexivity. Qed.

Section Malformed.
Variable json_loads : loader.

(** X11: a "workflow" or "prompt" value that [json.loads] rejects with
    [JSONDecodeError] counts as a missing key, in both two-pass pipelines; with
    neither key the result is the empty list. *)
Theorem malformed_json_is_absent (metadata : metadata_map) :
  (forall k v, (k = "workflow" \/ k = "prompt") ->
     assoc k metadata = Some v -> json_loads v = Err JSONDecodeError ->
     comfyprompt_extractor.extract_positive_prompts_only json_loads metadata
     = comfyprompt_extractor.extract_positive_prompts_only json_loads (without k metadata)
     /\ unified_extractor_ui.extract_positive_prompts_comfyui json_loads metadata
        = unified_extractor_ui.extract_positive_prompts_comfyui json_loads (without k metadata))
  /\ (assoc "workflow" metadata = None -> assoc "prompt" metadata = None ->
      comfyprompt_extractor.extract_positive_prompts_only json_loads metadata = Ok []
      /\ unified_extractor_ui.extract_positive_prompts_comfyui json_loads metadata = Ok []).
Proof.
  split.
  - intros k v [-> | ->] Hk Hj;
      unfold comfyprompt_extractor.extract_positive_prompts_only,
        unified_extractor_ui.extract_positive_prompts_comfyui.
    + rewrite assoc_without_same, (assoc_without_other "workflow" "prompt") by discriminate.
      rewrite Hk. repeat rewrite (try_loads_rejected _ _ _ _ Hj). split; reflexivity.
    + rewrite assoc_without_same, (assoc_without_other "prompt" "workflow") by discriminate.
      rewrite Hk.
      split.
      * destruct (match assoc "workflow" metadata with
                  | Some v0 => _ | None => _ end) as [[fw ps]|e]; [ | reflexivity].
        cbn [bind]. destruct fw; [ | reflexivity].
        rewrite (try_loads_rejected _ _ _ _ Hj). reflexivity.
      * destruct (match assoc "workflow" metadata with
                  | Some v0 => _ | None => _ end) as [[fw ps]|e]; [ | reflexivity].
        cbn [bind]. destruct fw; [ | reflexivity].
        rewrite (try_loads_rejected _ _ _ _ Hj). reflexivity.
  - intros Hw Hp.
    unfold comfyprompt_extractor.extract_positive_prompts_only,
      unified_extractor_ui.extract_positive_prompts_comfyui.
    rewrite Hw, Hp. split; reflexivity.
Qed.

(** X12: the parameters pipeline always returns, with at most one record;
    the record is the one of the "parameters" key and its text is the string
    the strict extractor returned. *)
Theorem parameters_pipeline_total (metadata : metadata_map) :
  exists prompts,
    unified_extractor_ui.extract_positive_prompts_parameters json_loads metadata = Ok prompts
    /\ (List.length prompts <= 1)%nat
    /\ forall info, In info prompts ->
         node_id info = JStr "parameters" /\ source info = "parameters"
         /\ exists s, text info = JStr s /\ s <> ""
            /\ unified_extractor_ui.extract_positive_from_parameters_strict json_loads metadata
               = Ok (Some s).
Proof.
  unfold unified_extractor_ui.extract_positive_prompts_parameters.
  unfold unified_extractor_ui.extract_positive_from_parameters_strict at 1.
  destruct (unified_extractor_ui.extract_positive_from_parameters_strict json_loads metadata)
    as [r|e] eqn:E.
  - unfold unified_extractor_ui.extract_positive_from_parameters_strict in E. rewrite E.
    cbn [bind]. destruct r as [t|].
    + destruct (truthy (JStr t)) eqn:T.
      * eexists. split; [reflexivity | ]. split; [simpl; lia | ].
        intros info [<- | []]. repeat split. exists t. repeat split.
        simpl in T. apply negb_true_iff, String.eqb_neq in T. exact T.
      * exists []. split; [reflexivity | ]. split; [simpl; lia | intros ? []].
    + exists []. split; [reflexivity | ]. split; [simpl; lia | intros ? []].
  - unfold unified_extractor_ui.extract_positive_from_parameters_strict in E.
    destruct (unified_extractor_ui.strict_body json_loads metadata); discriminate E.
Qed.
End Malformed.

(** ** comfyui_extractor.py: the ComfyUI entries of the metadata *)

Lemma dict_set_same {A : Type} (k : string) (v : A) d :
  assoc k (comfyui_extractor.dict_set k v d) = Some v.
Proof.
  induction d as [|[k' v'] rest IH]; simpl; [rewrite String.eqb_refl; reflexivity | ].
  destruct (k' =? k) eqn:E; simpl; rewrite E; [reflexivity | exact IH].
Qed.

Lemma dict_set_other {A : Type} (k k' : string) (v : A) d :
  k' <> k -> assoc k' (comfyui_extractor.dict_set k v d) = assoc k' d.
Proof.
  intros Hne. induction d as [|[k0 v0] rest IH]; simpl.
  - destruct (k =? k') eqn:E; [apply String.eqb_eq in E; congruence | reflexivity].
  - destruct (k0 =? k) eqn:E; simpl.
    + apply String.eqb_eq in E. subst k0.
      destruct (k =? k') eqn:E'; [apply String.eqb_eq in E'; congruence | reflexivity].
    + destruct (k0 =? k'); [reflexivity | exact IH].
Qed.

Lemma dict_set_keys {A : Type} (k k' : string) (v : A) d :
  In k' (map fst (comfyui_extractor.dict_set k v d)) <-> k' = k \/ In k' (map fst d).
Proof.
  induction d as [|[k0 v0] rest IH]; simpl.
  - intuition.
  - destruct (k0 =? k) eqn:E; simpl.
    + apply String.eqb_eq in E. subst k0. intuition.
    + rewrite IH. intuition.
Qed.

Lemma dict_set_NoDup {A : Type} (k : string) (v : A) d :
  NoDup (map fst d) -> NoDup (map fst (comfyui_extractor.dict_set k v d)).
Proof.
  induction d as [|[k0 v0] rest IH]; simpl; intros H.
  - constructor; [intros [] | constructor].
  - inversion H as [|? ? Hk Hrest]; subst.
    destruct (k0 =? k) eqn:E; simpl; [exact H | ].
    constructor; [ | auto].
    intros Hin. apply dict_set_keys in Hin. destruct Hin as [-> | Hin]; [ | contradiction].
    rewrite String.eqb_refl in E. discriminate.
Qed.

Section ComfyData.
Variable json_loads : loader.
Variable metadata : metadata_map.

Lemma visit_Ok key data data' :
  comfyui_extractor.visit json_loads metadata key data = Ok data' ->
  (comfy_key key = false /\ data' = data)
  \/ (comfy_key key = true
      /\ exists v s, assoc key metadata = Some v /\ decoded json_loads v s
                     /\ data' = comfyui_extractor.dict_set (target_of key) s data).
Proof.
  unfold comfyui_extractor.visit, comfy_key, target_of.
  destruct (existsb (String.eqb key) comfyui_extractor.comfyui_keys); cbn [orb].
  - intros H. right. split; [reflexivity | ].
    unfold comfyui_extractor.store, comfyui_extractor.getitem in H.
    destruct (assoc key metadata) as [v|]; [ | discriminate]. cbn [bind] in H.
    apply try_loads_Ok in H. destruct H as [(d & Hd & H) | [Hd H]];
      injection H as <-; exists v; eexists; (split; [reflexivity | split; [ | reflexivity]]);
      [left | right]; eauto.
  - destruct (PyStr.contains "comfy" (PyStr.lower key)
              || PyStr.contains "workflow" (PyStr.lower key)).
    + intros H. right. split; [reflexivity | ].
      unfold comfyui_extractor.store, comfyui_extractor.getitem in H.
      destruct (assoc key metadata) as [v|]; [ | discriminate]. cbn [bind] in H.
      apply try_loads_Ok in H. destruct H as [(d & Hd & H) | [Hd H]];
        injection H as <-; exists v; eexists;
        (split; [reflexivity | split; [ | reflexivity]]); [left | right]; eauto.
    + intros H. injection H as <-. left. auto.
Qed.

(** What the loop leaves in [comfyui_data]: the keys stay distinct, every
    key is the target of a ComfyUI key already visited or was there before,
    and an entry is the decoding of the last visited key with that target. *)
Lemma visit_all_keys keys data data' :
  comfyui_extractor.visit_all json_loads metadata keys data = Ok data' ->
  (NoDup (map fst data) -> NoDup (map fst data'))
  /\ (forall k, In k (map fst data') <->
        In k (map fst data)
        \/ exists key, In key keys /\ comfy_key key = true /\ k = target_of key).
Proof.
  revert data. induction keys as [|key rest IH]; intros data H; simpl in H.
  - injection H as <-. split; [auto | ]. intros k. split; [auto | ].
    intros [Hk | (key & [] & _)]. exact Hk.
  - step_in H. destruct (IH _ H) as [Hnd Hkeys]. apply visit_Ok in E.
    destruct E as [[Hc ->] | (Hc & v & s & Hv & Hs & ->)].
    + split; [exact Hnd | ]. intros k. rewrite Hkeys. split.
      * intros [Hk | (key' & Hin & Hck & ->)]; [auto | ].
        right. exists key'. split; [right; exact Hin | auto].
      * intros [Hk | (key' & [<- | Hin] & Hck & ->)]; [auto | congruence | ].
        right. eauto.
    + split; [intros Hd; apply Hnd, dict_set_NoDup, Hd | ].
      intros k. rewrite Hkeys, dict_set_keys. split.
      * intros [[-> | Hk] | (key' & Hin & Hck & ->)]; [ | auto | ].
        -- right. exists key. split; [left; reflexivity | auto].
        -- right. exists key'. split; [right; exact Hin | auto].
      * intros [Hk | (key' & [<- | Hin] & Hck & ->)]; [auto | auto | ].
        right. eauto.
Qed.
End ComfyData.

Lemma has_key_In {A : Type} (k : string) (d : list (string * A)) :
  has_key k d = true <-> In k (map fst d).
Proof.
  unfold has_key. induction d as [|[k' v] rest IH]; simpl; [intuition discriminate | ].
  destruct (k' =? k) eqn:E.
  - apply String.eqb_eq in E. intuition.
  - rewrite IH. split; [auto | ]. intros [-> | H]; [ | exact H].
    rewrite String.eqb_refl in E. discriminate.
Qed.

Lemma known_key (key : string) :
  existsb (String.eqb key) comfyui_extractor.comfyui_keys = true ->
  key = "workflow" \/ key = "prompt" \/ key = "Workflow" \/ key = "Prompt".
Proof.
  unfold comfyui_extractor.comfyui_keys. cbn [existsb]. rewrite !orb_true_iff, !String.eqb_eq.
  intuition discriminate.
Qed.

Lemma target_workflow (key : string) :
  target_of key = "workflow" <-> key = "workflow" \/ key = "Workflow".
Proof.
  unfold target_of.
  destruct (existsb (String.eqb key) comfyui_extractor.comfyui_keys) eqn:E.
  - apply known_key in E. destruct E as [-> | [-> | [-> | ->]]]; cbn;
      intuition discriminate.
  - split; [intros -> | intros [-> | ->]]; discriminate E.
Qed.

Lemma target_prompt (key : string) :
  target_of key = "prompt" <-> key = "prompt" \/ key = "Prompt".
Proof.
  unfold target_of.
  destruct (existsb (String.eqb key) comfyui_extractor.comfyui_keys) eqn:E.
  - apply known_key in E. destruct E as [-> | [-> | [-> | ->]]]; cbn;
      intuition discriminate.
  - split; [intros -> | intros [-> | ->]]; discriminate E.
Qed.

Lemma target_not_capital (key : string) :
  target_of key <> "Workflow" /\ target_of key <> "Prompt".
Proof.
  unfold target_of.
  destruct (existsb (String.eqb key) comfyui_extractor.comfyui_keys) eqn:E.
  - apply known_key in E. destruct E as [-> | [-> | [-> | ->]]]; cbn;
      split; discriminate.
  - split; intros ->; discriminate E.
Qed.

Lemma known_is_comfy (key : string) :
  key = "workflow" \/ key = "Workflow" \/ key = "prompt" \/ key = "Prompt" ->
  comfy_key key = true.
Proof. intros [-> | [-> | [-> | ->]]]; reflexivity. Qed.

Section ComfyKeys.
Variable json_loads : loader.

(** X13: the keys of [comfyui_data] are distinct and are the targets of the
    ComfyUI keys of the metadata: "workflow" is there exactly when the
    metadata has "workflow" or "Workflow" (so [save_workflow_only] has
    something to write exactly then), "prompt" exactly when it has "prompt"
    or "Prompt", and the capitalised spellings are never keys of the
    result. *)
Theorem comfyui_data_keys (metadata : metadata_map) data :
  comfyui_extractor.extract_comfyui_workflow json_loads metadata = Ok data ->
  NoDup (map fst data)
  /\ (forall k, In k (map fst data) <->
        exists key, In key (map fst metadata) /\ comfy_key key = true /\ k = target_of key)
  /\ has_key "workflow" data = has_key "workflow" metadata || has_key "Workflow" metadata
  /\ (comfyui_extractor.save_workflow_only data <> None <->
      has_key "workflow" metadata || has_key "Workflow" metadata = true)
  /\ has_key "prompt" data = has_key "prompt" metadata || has_key "Prompt" metadata
  /\ has_key "Workflow" data = false /\ has_key "Prompt" data = false.
Proof.
  unfold comfyui_extractor.extract_comfyui_workflow. intros H. apply reraise_Ok in H.
  destruct (visit_all_keys _ _ _ _ _ H) as [Hnd Hkeys].
  assert (K : forall k, In k (map fst data) <->
            exists key, In key (map fst metadata) /\ comfy_key key = true
                        /\ k = target_of key).
  { intros k. rewrite Hkeys. simpl. intuition. }
  assert (W : has_key "workflow" data
              = has_key "workflow" metadata || has_key "Workflow" metadata).
  { apply eq_true_iff_eq. rewrite orb_true_iff, !has_key_In, K. split.
    - intros (key & Hin & _ & Ht). symmetry in Ht. apply target_workflow in Ht.
      destruct Ht as [-> | ->]; auto.
    - intros [Hin | Hin]; eexists; (split; [exact Hin | split; [reflexivity | reflexivity]]). }
  split; [apply Hnd; constructor | ]. split; [exact K | ]. split; [exact W | ].
  split; [ | split; [ | split]].
  - unfold comfyui_extractor.save_workflow_only. rewrite <- W. unfold has_key.
    destruct (assoc "workflow" data); split; congruence.
  - apply eq_true_iff_eq. rewrite orb_true_iff, !has_key_In, K. split.
    + intros (key & Hin & _ & Ht). symmetry in Ht. apply target_prompt in Ht.
      destruct Ht as [-> | ->]; auto.
    + intros [Hin | Hin]; eexists; (split; [exact Hin | split; [reflexivity | reflexivity]]).
  - destruct (has_key "Workflow" data) eqn:E; [ | reflexivity].
    apply has_key_In, K in E. destruct E as (key & _ & _ & Ht).
    symmetry in Ht. apply target_not_capital in Ht. contradiction.
  - destruct (has_key "Prompt" data) eqn:E; [ | reflexivity].
    apply has_key_In, K in E. destruct E as (key & _ & _ & Ht).
    symmetry in Ht. apply target_not_capital in Ht. contradiction.
Qed.
End ComfyKeys.

Lemma target_is_comfy (key : string) :
  comfy_key key = true -> comfy_key (target_of key) = true.
Proof.
  unfold target_of.
  destruct (existsb (String.eqb key) comfyui_extractor.comfyui_keys) eqn:E; [ | auto].
  intros _. apply known_key in E. destruct E as [-> | [-> | [-> | ->]]]; reflexivity.
Qed.

Lemma assoc_app_fresh {A : Type} (k : string) (v : A) pre post :
  ~ In k (map fst pre) -> assoc k (pre ++ (k, v) :: post)%list = Some v.
Proof.
  induction pre as [|[k' v'] pre IH]; simpl; intros H.
  - rewrite String.eqb_refl. reflexivity.
  - destruct (k' =? k) eqn:E; [apply String.eqb_eq in E; tauto | apply IH; tauto].
Qed.

Section ComfyValues.
Variable json_loads : loader.
Variable metadata : metadata_map.

Lemma visit_all_app pre post data :
  comfyui_extractor.visit_all json_loads metadata (pre ++ post)%list data
  = (data1 <- comfyui_extractor.visit_all json_loads metadata pre data;;
     comfyui_extractor.visit_all json_loads metadata post data1).
Proof.
  revert data. induction pre as [|key pre IH]; intros data; simpl; [reflexivity | ].
  destruct (comfyui_extractor.visit json_loads metadata key data); simpl; [apply IH | reflexivity].
Qed.

(** Keys with another target leave the entry under [t] as it is. *)
Lemma visit_all_preserves keys t data data' :
  comfyui_extractor.visit_all json_loads metadata keys data = Ok data' ->
  (forall k, In k keys -> comfy_key k = true -> target_of k <> t) ->
  assoc t data' = assoc t data.
Proof.
  revert data. induction keys as [|key rest IH]; intros data H Hne; simpl in H.
  - injection H as <-. reflexivity.
  - step_in H. rewrite (IH _ H) by (intros; apply Hne; simpl; auto).
    apply visit_Ok in E. destruct E as [[_ ->] | (Hc & v & s & _ & _ & ->)]; [reflexivity | ].
    apply dict_set_other. intros Heq. apply (Hne key); simpl; auto.
Qed.

(** Every ComfyUI key the loop passes has a value that was decoded or
    rejected as JSON. *)
Lemma visit_all_decoded keys data data' :
  comfyui_extractor.visit_all json_loads metadata keys data = Ok data' ->
  forall key, In key keys -> comfy_key key = true ->
  exists v s, assoc key metadata = Some v /\ decoded json_loads v s.
Proof.
  revert data. induction keys as [|key rest IH]; intros data H k Hin Hc; simpl in H.
  - destruct Hin.
  - step_in H. destruct Hin as [<- | Hin]; [ | eapply IH; eauto].
    apply visit_Ok in E. destruct E as [[Hc' _] | (_ & v & s & Hv & Hs & _)]; [congruence | ].
    eauto.
Qed.

Lemma visit_total key data :
  (comfy_key key = true -> exists v s, assoc key metadata = Some v /\ decoded json_loads v s) ->
  exists data', comfyui_extractor.visit json_loads metadata key data = Ok data'.
Proof.
  unfold comfyui_extractor.visit, comfy_key.
  destruct (existsb (String.eqb key) comfyui_extractor.comfyui_keys); cbn [orb].
  - intros H. destruct (H eq_refl) as (v & s & Hv & Hs).
    unfold comfyui_extractor.store, comfyui_extractor.getitem, try_loads. rewrite Hv.
    cbn [bind]. destruct Hs as [(d & -> & _) | [-> _]]; eauto.
  - destruct (PyStr.contains "comfy" (PyStr.lower key)
              || PyStr.contains "workflow" (PyStr.lower key)); [ | eauto].
    intros H. destruct (H eq_refl) as (v & s & Hv & Hs).
    unfold comfyui_extractor.store, comfyui_extractor.getitem, try_loads. rewrite Hv.
    cbn [bind]. destruct Hs as [(d & -> & _) | [-> _]]; eauto.
Qed.

Lemma visit_all_total keys data :
  (forall key, In key keys -> comfy_key key = true ->
     exists v s, assoc key metadata = Some v /\ decoded json_loads v s) ->
  exists data', comfyui_extractor.visit_all json_loads metadata keys data = Ok data'.
Proof.
  revert data. induction keys as [|key rest IH]; intros data H; simpl; [eauto | ].
  destruct (visit_total key data) as [d1 ->]; [apply H; simpl; auto | ].
  cbn [bind]. apply IH. intros; apply H; simpl; auto.
Qed.
End ComfyValues.

Section ComfyLast.
Variable json_loads : loader.

(** X14: the entry of [comfyui_data] under a target is the decoding of the
    value of the last metadata key with that target: a later "Workflow"
    overwrites what "workflow" stored.  [decoded] is the JSON value when
    [json.loads] accepts the metadata value and the metadata value itself
    when it raises [JSONDecodeError]. *)
Theorem comfyui_data_last_wins (pre post : metadata_map) (key : string) (v : meta_value) data :
  comfyui_extractor.extract_comfyui_workflow json_loads (pre ++ (key, v) :: post)%list = Ok data ->
  ~ In key (map fst pre) ->
  comfy_key key = true ->
  (forall k, In k (map fst post) -> target_of k <> target_of key) ->
  exists s, decoded json_loads v s /\ assoc (target_of key) data = Some s.
Proof.
  unfold comfyui_extractor.extract_comfyui_workflow. intros H Hfresh Hc Hlast.
  apply reraise_Ok in H. rewrite map_app in H. cbn [map fst] in H.
  rewrite visit_all_app in H. step_in H. cbn [comfyui_extractor.visit_all] in H. step_in H.
  rename E0 into Hvisit. apply visit_Ok in Hvisit.
  destruct Hvisit as [[Hc' _] | (_ & v' & s & Hv & Hs & ->)]; [congruence | ].
  rewrite assoc_app_fresh in Hv by exact Hfresh. injection Hv as <-.
  exists s. split; [exact Hs | ].
  rewrite (visit_all_preserves _ _ _ _ _ _ H) by (intros; apply Hlast; assumption).
  apply dict_set_same.
Qed.

(** X15: the extraction returns exactly when [json.loads] accepts, or
    rejects with [JSONDecodeError], the value of every ComfyUI key of the
    metadata; the values under the other keys are never handed to it.
    When it does not return, what it raises is the wrapping [Exception]. *)
Theorem comfyui_extraction_returns (metadata : metadata_map) :
  ((exists data, comfyui_extractor.extract_comfyui_workflow json_loads metadata = Ok data)
   <-> (forall key v, assoc key metadata = Some v -> comfy_key key = true ->
          exists s, decoded json_loads v s))
  /\ (forall e, comfyui_extractor.extract_comfyui_workflow json_loads metadata = Err e ->
        e = Exception_).
Proof.
  unfold comfyui_extractor.extract_comfyui_workflow. split; [split | ].
  - intros [data H] key v Hv Hc. apply reraise_Ok in H.
    destruct (visit_all_decoded _ _ _ _ _ H key) as (v' & s & Hv' & Hs); [ | exact Hc | ].
    + apply has_key_In. unfold has_key. rewrite Hv. reflexivity.
    + rewrite Hv in Hv'. injection Hv' as <-. eauto.
  - intros H.
    destruct (visit_all_total json_loads metadata (map fst metadata) []) as [data Hd].
    + intros key Hin Hc. apply has_key_In in Hin. unfold has_key in Hin.
      destruct (assoc key metadata) as [v|] eqn:Hv; [ | discriminate].
      destruct (H key v Hv Hc) as [s Hs]. eauto.
    + exists data. rewrite Hd. reflexivity.
  - intros e. unfold reraise, catch.
    destruct (comfyui_extractor.visit_all json_loads metadata (map fst metadata) []);
      [discriminate | congruence].
Qed.
End ComfyLast.

(** ** The statements above at the example file *)

Lemma cli_workflow_records_in_order_witness :
  exists nodes node_list,
    get two_node_workflow "nodes" (JArr []) = Ok nodes
    /\ iter nodes = Ok node_list
    /\ picked cli_accepts node_list
         [ {| text := JStr "a cat"; node_id := JInt 1; node_type := JStr "CLIPTextEncode";
              title := JStr "Positive"; source := "workflow" |};
           {| text := JStr "oil on canvas"; node_id := JInt 2;
              node_type := JStr "CLIPTextEncode"; title := JStr "Style (pos)";
              source := "workflow" |} ].
Proof.
  apply (cli_workflow_records_in_order two_node_workflow [] _ [JInt 2; JInt 1]).
  vm_compute; reflexivity.
Defined.

Lemma ui_workflow_records_in_order_witness :
  exists nodes node_list,
    get (JObj (workflow_of [clip_node 7 "Positive" (JArr [JStr "a"; JStr "b"])]))
      "nodes" (JArr []) = Ok nodes
    /\ iter nodes = Ok node_list
    /\ picked ui_accepts node_list
         [ {| text := JStr ("a" ++ PyStr.nl ++ "b"); node_id := JInt 7;
              node_type := JStr "CLIPTextEncode"; title := JStr "Positive";
              source := "workflow" |} ].
Proof.
  apply (ui_workflow_records_in_order
           (JObj (workflow_of [clip_node 7 "Positive" (JArr [JStr "a"; JStr "b"])]))
           [] _ [JInt 7]).
  vm_compute; reflexivity.
Defined.

Lemma workflow_extractors_agree_witness :
  comfyprompt_extractor.extract_positive_from_workflow sampler_workflow [JInt 3]
  = unified_extractor_ui.extract_positive_from_workflow sampler_workflow [JInt 3]
  /\ unified_extractor_ui.extract_positive_from_workflow sampler_workflow [JInt 3]
     = Ok ([ {| text := JStr "a cat"; node_id := JInt 1; node_type := JStr "CLIPTextEncode";
                title := JStr "Positive"; source := "workflow" |} ], [JInt 1; JInt 3]).
Proof.
  split; [ | vm_compute; reflexivity].
  apply (workflow_extractors_agree sampler_workflow [JInt 3]).
  intros nodes node_list Hn Hi. injection Hn as <-. injection Hi as <-.
  repeat apply Forall_cons; try apply Forall_nil;
    intros i t w v Hid Hin Hty Hc Hw Hv;
    injection Hid as <-; injection Hty as <-; injection Hw as <-;
    first [discriminate Hin | discriminate Hc | injection Hv as <-; reflexivity].
Defined.

Lemma prompt_graph_extractors_agree_witness :
  comfyprompt_extractor.extract_positive_from_prompt_data linked_graph [JStr "3"]
  = unified_extractor_ui.extract_positive_from_prompt_data linked_graph [JStr "3"]
  /\ unified_extractor_ui.extract_positive_from_prompt_data linked_graph [JStr "3"]
     = Ok ([ {| text := JStr "a cat"; node_id := JStr "1";
                node_type := JStr "CLIPTextEncode"; title := JStr "Node 1";
                source := "prompt_data" |} ], [JStr "1"; JStr "3"]).
Proof.
  split; [ | vm_compute; reflexivity].
  apply (prompt_graph_extractors_agree linked_graph [JStr "3"]).
  intros entries He. injection He as <-.
  repeat apply Forall_cons; try apply Forall_nil;
    intros c inputs v Hset Hc Hclip Hin Hv; cbn [fst snd] in *;
    first [ discriminate Hset
          | injection Hc as <-; discriminate Hclip
          | injection Hin as <-;
            destruct Hv as [Hv | [Hv _]];
            [injection Hv as <-; left; reflexivity | discriminate Hv] ].
Defined.

Lemma second_run_emits_nothing_witness :
  comfyprompt_extractor.extract_positive_from_workflow two_node_workflow [JInt 2; JInt 1]
  = Ok ([], [JInt 2; JInt 1]).
Proof.
  apply (proj1 (second_run_emits_nothing two_node_workflow []
                  [ {| text := JStr "a cat"; node_id := JInt 1;
                       node_type := JStr "CLIPTextEncode"; title := JStr "Positive";
                       source := "workflow" |};
                    {| text := JStr "oil on canvas"; node_id := JInt 2;
                       node_type := JStr "CLIPTextEncode"; title := JStr "Style (pos)";
                       source := "workflow" |} ]
                  [JInt 2; JInt 1])).
  vm_compute; reflexivity.
Defined.

Lemma malformed_json_is_absent_witness :
  comfyprompt_extractor.extract_positive_prompts_only two_pass_loader
    [("workflow", MStr "{"); ("prompt", MStr one_node_graph_text)]
  = comfyprompt_extractor.extract_positive_prompts_only two_pass_loader
      (without "workflow" [("workflow", MStr "{"); ("prompt", MStr one_node_graph_text)])
  /\ unified_extractor_ui.extract_positive_prompts_comfyui two_pass_loader
       [("workflow", MStr "{"); ("prompt", MStr one_node_graph_text)]
     = unified_extractor_ui.extract_positive_prompts_comfyui two_pass_loader
         (without "workflow" [("workflow", MStr "{"); ("prompt", MStr one_node_graph_text)]).
Proof.
  apply (proj1 (malformed_json_is_absent two_pass_loader
                  [("workflow", MStr "{"); ("prompt", MStr one_node_graph_text)])
           "workflow" (MStr "{")).
  - left. reflexivity.
  - reflexivity.
  - vm_compute; reflexivity.
Defined.

Lemma comfyui_data_keys_witness :
  NoDup ["workflow"; "prompt"]
  /\ comfyui_extractor.save_workflow_only
       [("workflow", comfyui_extractor.Parsed two_node_workflow);
        ("prompt", comfyui_extractor.Raw (MStr "{"))] <> None.
Proof.
  pose proof (comfyui_data_keys two_pass_loader
                [("Workflow", MStr two_node_workflow_text); ("dpi", MOther (Ok "(72, 72)"));
                 ("Prompt", MStr "{")]
                [("workflow", comfyui_extractor.Parsed two_node_workflow);
                 ("prompt", comfyui_extractor.Raw (MStr "{"))]
                ltac:(vm_compute; reflexivity)) as (Hnd & _ & _ & Hsave & _).
  split; [exact Hnd | ]. apply Hsave. reflexivity.
Defined.

Lemma comfyui_data_last_wins_witness :
  exists s,
    decoded two_pass_loader (MStr two_node_workflow_text) s
    /\ assoc "workflow"
         [("workflow", comfyui_extractor.Parsed two_node_workflow)] = Some s.
Proof.
  apply (comfyui_data_last_wins two_pass_loader
           [("workflow", MStr "{")] [("Software", MStr "x")]
           "Workflow" (MStr two_node_workflow_text)
           [("workflow", comfyui_extractor.Parsed two_node_workflow)]).
  - vm_compute; reflexivity.
  - intros [H | []]. discriminate H.
  - reflexivity.
  - intros k [<- | []]. discriminate.
Defined.

Lemma comfyui_extraction_returns_witness :
  exists data,
    comfyui_extractor.extract_comfyui_workflow two_pass_loader
      [("workflow", MStr two_node_workflow_text); ("dpi", MOther (Ok "(72, 72)"))] = Ok data.
Proof.
  apply (proj2 (proj1 (comfyui_extraction_returns two_pass_loader
           [("workflow", MStr two_node_workflow_text); ("dpi", MOther (Ok "(72, 72)"))]))).
  intros key v Hv Hc.
  cbn [assoc] in Hv.
  destruct (String.eqb_spec "workflow" key) as [<- | Hne].
  - injection Hv as <-. eexists. left. eexists. split; [vm_compute; reflexivity | reflexivity].
  - destruct (String.eqb_spec "dpi" key) as [<- | Hne']; [discriminate Hc | discriminate Hv].
Defined.

(** ** comfyprompt_extractor.py: the arguments of [main] *)

Lemma output_dir_index_spec (args : list string) (i : Z) :
  (~ In "--output" args /\ comfyprompt_extractor_main.output_dir_index i args = (-1)%Z)
  \/ exists pre post,
       args = (pre ++ "--output" :: post)%list /\ ~ In "--output" pre
       /\ comfyprompt_extractor_main.output_dir_index i args
          = (i + Z.of_nat (List.length pre) + 1)%Z.
Proof.
  revert i. induction args as [|arg rest IH]; intros i; simpl.
  - left. split; [tauto | reflexivity].
  - destruct (arg =? "--output") eqn:E.
    + apply String.eqb_eq in E. subst arg. right. exists [], rest.
      split; [reflexivity | split; [simpl; tauto | simpl; lia]].
    + apply String.eqb_neq in E. destruct (IH (i + 1)%Z) as [[Hn Hi] | (pre & post & -> & Hn & Hi)].
      * left. split; [intros [H | H]; [congruence | tauto] | exact Hi].
      * right. exists (arg :: pre), post. split; [reflexivity | ].
        split; [intros [H | H]; [congruence | tauto] | ].
        rewrite Hi. cbn [List.length]. lia.
Qed.

Lemma option_listed (args : list string) :
  existsb (String.eqb "--output") (comfyprompt_extractor_main.options args) = true
  <-> In "--output" args.
Proof.
  unfold comfyprompt_extractor_main.options. rewrite existsb_exists. split.
  - intros (x & Hx & Hq). apply String.eqb_eq in Hq. subst x.
    apply filter_In in Hx. tauto.
  - intros H. exists "--output". split; [ | reflexivity].
    apply filter_In. split; [exact H | reflexivity].
Qed.

Section MainArguments.
Variable find_png : list string -> list string.
Variable ensure_dir : string -> bool.

Lemma output_block_dir (args files files' : list string) (d : string) :
  comfyprompt_extractor_main.output_block ensure_dir args files
  = comfyprompt_extractor_main.Ready files' (Some d) ->
  files' = files /\ ensure_dir d = true
  /\ In d (comfyprompt_extractor_main.paths args)
  /\ exists pre post, args = (pre ++ "--output" :: d :: post)%list /\ ~ In "--output" pre.
Proof.
  unfold comfyprompt_extractor_main.output_block. intros H.
  destruct (existsb (String.eqb "--output") (comfyprompt_extractor_main.options args))
    eqn:E; [ | discriminate H].
  apply option_listed in E.
  destruct (output_dir_index_spec args 0) as [[Hn _] | (pre & post & Hargs & Hn & Hi)];
    [contradiction | ].
  rewrite Hi in H.
  destruct (negb _ && _); [ | discriminate H].
  unfold comfyprompt_extractor_main.getitem in H.
  replace (0 <=? 0 + Z.of_nat (List.length pre) + 1)%Z with true in H
    by (symmetry; apply Z.leb_le; lia).
  replace (Z.to_nat (0 + Z.of_nat (List.length pre) + 1)) with (S (List.length pre)) in H
    by lia.
  rewrite Hargs in H at 1.
  rewrite nth_error_app2 in H by lia.
  replace (S (List.length pre) - List.length pre)%nat with 1%nat in H by lia.
  cbn [nth_error] in H. destruct post as [|a post]; [discriminate H | ].
  destruct (negb (comfyprompt_extractor_main.is_option a)) eqn:Ha; [ | discriminate H].
  destruct (ensure_dir a) eqn:Hd; [ | discriminate H].
  injection H as <- <-. split; [reflexivity | ]. split; [exact Hd | ]. split.
  - apply filter_In. split; [ | exact Ha].
    rewrite Hargs. apply in_or_app. right. right. left. reflexivity.
  - exists pre, post. split; [exact Hargs | exact Hn].
Qed.

Lemma output_block_none (args files files' : list string) :
  comfyprompt_extractor_main.output_block ensure_dir args files
  = comfyprompt_extractor_main.Ready files' None ->
  files' = files /\ ~ In "--output" args.
Proof.
  unfold comfyprompt_extractor_main.output_block. intros H.
  destruct (existsb (String.eqb "--output") (comfyprompt_extractor_main.options args))
    eqn:E.
  - destruct (negb _ && _); [ | discriminate H].
    destruct (comfyprompt_extractor_main.getitem _ _) as [a|]; [ | discriminate H].
    destruct (negb _); [ | discriminate H]. destruct (ensure_dir a); discriminate H.
  - injection H as <-. split; [reflexivity | ]. intros Hin.
    apply option_listed in Hin. congruence.
Qed.

Lemma main_ready (args files : list string) (output_dir : option string) :
  comfyprompt_extractor_main.main find_png ensure_dir args
  = comfyprompt_extractor_main.Ready files output_dir ->
  ~ In "--help" args
  /\ files <> []
  /\ find_png (comfyprompt_extractor_main.paths args) = files
  /\ comfyprompt_extractor_main.output_block ensure_dir args files
     = comfyprompt_extractor_main.Ready files output_dir.
Proof.
  unfold comfyprompt_extractor_main.main. intros H.
  destruct args as [|arg rest]; [discriminate H | ].
  destruct (existsb (String.eqb "--help") (arg :: rest)) eqn:Eh; [discriminate H | ].
  destruct (comfyprompt_extractor_main.paths (arg :: rest)) as [|p ps] eqn:Ep;
    [discriminate H | ].
  destruct (find_png (p :: ps)) as [|f fs] eqn:Ef; [discriminate H | ].
  assert (Hfiles : files = f :: fs).
  { destruct output_dir as [d|].
    - apply output_block_dir in H. tauto.
    - apply output_block_none in H. tauto. }
  subst files. split; [ | split; [discriminate | split; [reflexivity | exact H]]].
  intros Hin. assert (existsb (String.eqb "--help") (arg :: rest) = true); [ | congruence].
  apply existsb_exists. exists "--help". split; [exact Hin | reflexivity].
Qed.

(** X16: whenever [main] reaches its loop over the files with an output
    directory, that directory is the argument after the first [--output],
    it exists by then, and it is also one of [paths], the inputs that were
    searched for the PNG files of the loop; [--help] is not among the
    arguments and the list of files is not empty.  Whenever [main] reaches
    the loop without an output directory, [--output] is not among the
    arguments. *)
Theorem output_directory_is_an_input_path (args files : list string)
    (output_dir : option string) :
  comfyprompt_extractor_main.main find_png ensure_dir args
  = comfyprompt_extractor_main.Ready files output_dir ->
  ~ In "--help" args
  /\ files <> []
  /\ files = find_png (comfyprompt_extractor_main.paths args)
  /\ match output_dir with
     | Some d =>
         ensure_dir d = true
         /\ In d (comfyprompt_extractor_main.paths args)
         /\ exists pre post,
              args = (pre ++ "--output" :: d :: post)%list /\ ~ In "--output" pre
     | None => ~ In "--output" args
     end.
Proof.
  intros H. apply main_ready in H. destruct H as (Hh & Hne & Hf & Hb).
  split; [exact Hh | ]. split; [exact Hne | ]. split; [symmetry; exact Hf | ].
  destruct output_dir as [d|].
  - apply output_block_dir in Hb. tauto.
  - apply output_block_none in Hb. tauto.
Qed.
End MainArguments.

Lemma output_directory_is_an_input_path_witness :
  ~ In "--help" ["a.png"; "--save-txt"; "--output"; "out"]
  /\ ["a.png"; "out/b.png"] <> []
  /\ ["a.png"; "out/b.png"]
     = example_find_png
         (comfyprompt_extractor_main.paths ["a.png"; "--save-txt"; "--output"; "out"])
  /\ example_ensure_dir "out" = true
  /\ In "out" (comfyprompt_extractor_main.paths ["a.png"; "--save-txt"; "--output"; "out"])
  /\ exists pre post,
       ["a.png"; "--save-txt"; "--output"; "out"] = (pre ++ "--output" :: "out" :: post)%list
       /\ ~ In "--output" pre.
Proof.
  apply (output_directory_is_an_input_path example_find_png example_ensure_dir
           ["a.png"; "--save-txt"; "--output"; "out"] ["a.png"; "out/b.png"] (Some "out")).
  reflexivity.
Defined.

(** ** The counters of [update_results] *)

Lemma append_texts_map (positive_prompts : list prompt_info) (texts : list json) :
  update_results.append_texts positive_prompts texts
  = (texts ++ map text positive_prompts)%list.
Proof.
  unfold update_results.append_texts. revert texts.
  induction positive_prompts as [|info rest IH]; intros texts; simpl.
  - rewrite app_nil_r. reflexivity.
  - rewrite IH, <- app_assoc. reflexivity.
Qed.

Lemma count_files_from (results : list (list prompt_info)) (t : update_results.tally) :
  let t' := fold_left update_results.count_file results t in
  update_results.all_prompt_texts t'
  = (update_results.all_prompt_texts t ++ List.concat (map (map text) results))%list
  /\ update_results.total_prompts t'
     = (update_results.total_prompts t
        + Z.of_nat (List.length (List.concat (map (map text) results))))%Z
  /\ update_results.files_with_prompts t'
     = (update_results.files_with_prompts t
        + Z.of_nat (List.length (filter has_prompts results)))%Z.
Proof.
  revert t. induction results as [|positive_prompts rest IH]; intros t; cbn zeta.
  - simpl. rewrite app_nil_r. repeat split; lia.
  - cbn [fold_left map List.concat filter].
    destruct (IH (update_results.count_file t positive_prompts)) as (Ha & Ht & Hf).
    rewrite Ha, Ht, Hf. destruct positive_prompts as [|info more].
    + cbn [update_results.count_file has_prompts map app]. repeat split.
    + cbn [update_results.count_file has_prompts update_results.all_prompt_texts
           update_results.total_prompts update_results.files_with_prompts].
      rewrite append_texts_map, <- app_assoc.
      split; [reflexivity | ]. rewrite length_app, length_map.
      cbn [List.length]. split; lia.
Qed.

(** X17: after the loop of [update_results], [all_prompt_texts] holds the
    texts of all results in their order, [total_prompts] is its length and
    [files_with_prompts] the number of results with a prompt; so the summary
    says that nothing was found exactly when the copy and save buttons stay
    disabled, and [self.all_prompt_texts] is the list of all texts on either
    branch. *)
Theorem update_results_counters (results : list (list prompt_info)) :
  let t := update_results.count_files results in
  update_results.all_prompt_texts t = List.concat (map (map text) results)
  /\ update_results.total_prompts t
     = Z.of_nat (List.length (update_results.all_prompt_texts t))
  /\ update_results.files_with_prompts t
     = Z.of_nat (List.length (filter has_prompts results))
  /\ update_results.nothing_found t = negb (update_results.buttons_enabled t)
  /\ update_results.stored_texts t = update_results.all_prompt_texts t.
Proof.
  cbn zeta. unfold update_results.count_files.
  destruct (count_files_from results
              {| update_results.total_prompts := 0; update_results.files_with_prompts := 0;
                 update_results.all_prompt_texts := [] |}) as (Ha & Ht & Hf).
  cbn [update_results.all_prompt_texts update_results.total_prompts
       update_results.files_with_prompts app] in Ha, Ht, Hf.
  set (t := fold_left update_results.count_file results _) in *.
  assert (Hzero : List.length (filter has_prompts results) = 0%nat
                  <-> List.length (List.concat (map (map text) results)) = 0%nat).
  { clear. induction results as [|[|info more] rest IH]; simpl; [tauto | exact IH | ].
    split; discriminate. }
  split; [exact Ha | ]. split; [rewrite Ha; lia | ]. split; [lia | ].
  unfold update_results.stored_texts, update_results.nothing_found,
    update_results.buttons_enabled.
  rewrite Ht, Hf. split.
  - destruct (Z.ltb_spec 0 (0 + Z.of_nat (List.length (List.concat (map (map text) results)))));
      cbn [negb]; [apply Z.eqb_neq | apply Z.eqb_eq]; lia.
  - destruct (Z.ltb_spec 0 (0 + Z.of_nat (List.length (List.concat (map (map text) results)))));
      [reflexivity | ].
    rewrite Ha. destruct (List.concat (map (map text) results)); [reflexivity | simpl in *; lia].
Qed.

(** ** The debug view and the extractor *)

Section Debug.
Variable json_loads : loader.

Lemma debug_view_content (metadata : metadata_map)
    (st : prompt_extractor_debug.structure) :
  prompt_extractor_debug.parameters_structure json_loads metadata = Ok st ->
  prompt_extractor_debug.all_keys st = map fst metadata
  /\ prompt_extractor_debug.parameters_found st = has_key "parameters" metadata
  /\ match prompt_extractor_debug.parameters_content st with
     | prompt_extractor_debug.NoContent =>
         prompt_extractor_debug.parameters_found st = false
         /\ prompt_extractor.extract_positive_prompt json_loads metadata = Ok JNull
     | prompt_extractor_debug.StringContent parameters_data =>
         assoc "parameters" metadata = Some parameters_data
         /\ json_loads parameters_data = Err JSONDecodeError
         /\ prompt_extractor.extract_positive_prompt json_loads metadata
            = reraise (lines <- prompt_extractor.split_lines parameters_data;;
                       prompt_extractor.scan_lines lines)
     | prompt_extractor_debug.JsonContent parsed_data =>
         (exists parameters_data,
            assoc "parameters" metadata = Some parameters_data
            /\ json_loads parameters_data = Ok parsed_data)
         /\ forall entries value,
              parsed_data = JObj entries ->
              first_present prompt_extractor.possible_keys entries = Some value ->
              prompt_extractor.extract_positive_prompt json_loads metadata = Ok value
     end.
Proof.
  unfold prompt_extractor_debug.parameters_structure,
    prompt_extractor.extract_positive_prompt, has_key.
  intros H. apply reraise_Ok in H.
  destruct (assoc "parameters" metadata) as [parameters_data|].
  - apply try_loads_Ok in H. destruct H as [(parsed & Hj & H) | [Hj H]]; injection H as <-;
      cbn [prompt_extractor_debug.all_keys prompt_extractor_debug.parameters_found
           prompt_extractor_debug.parameters_content].
    + split; [reflexivity | ]. split; [reflexivity | ]. split; [eauto | ].
      intros entries value -> Hv. unfold try_loads. rewrite Hj, Hv. reflexivity.
    + split; [reflexivity | ]. split; [reflexivity | ]. split; [reflexivity | ].
      split; [exact Hj | ]. unfold try_loads. rewrite Hj. reflexivity.
  - injection H as <-. cbn. auto.
Qed.

Lemma extractor_returns_debug_returns (metadata : metadata_map) (r : json) :
  prompt_extractor.extract_positive_prompt json_loads metadata = Ok r ->
  exists st, prompt_extractor_debug.parameters_structure json_loads metadata = Ok st.
Proof.
  unfold prompt_extractor_debug.parameters_structure,
    prompt_extractor.extract_positive_prompt.
  intros H. apply reraise_Ok in H.
  destruct (assoc "parameters" metadata) as [parameters_data|];
    [ | eexists; reflexivity].
  unfold try_loads in *.
  destruct (json_loads parameters_data) as [parsed|[]]; try discriminate H;
    eexists; reflexivity.
Qed.

(** X18: [extract_parameters_structure] and [extract_positive_prompt] on
    the same file.  Whenever the debug view returns, the file opened as an
    image, the structure lists every key of its metadata and reports the
    "parameters" key when there is one.  If the image is a PNG the content
    tells what the extractor returns: [None] without content, the scan of the
    lines for a string content, the value of the first of the known keys for
    a decoded dict that has one.  If the image is not a PNG the extractor
    raises, wrapped in [Exception], where the debug view returned: only the
    extractor checks the format.  Whenever the extractor returns, so does the
    debug view. *)
Theorem debug_view_tells_the_prompt (opened : result prompt_extractor_debug.image) :
  (forall st,
     prompt_extractor_debug.extract_parameters_structure json_loads opened = Ok st ->
     exists img,
       opened = Ok img
       /\ prompt_extractor_debug.all_keys st = map fst (prompt_extractor_debug.info img)
       /\ prompt_extractor_debug.parameters_found st
          = has_key "parameters" (prompt_extractor_debug.info img)
       /\ (prompt_extractor_debug.format img <> "PNG" ->
           prompt_extractor_debug.extract_positive_prompt json_loads opened = Err Exception_)
       /\ (prompt_extractor_debug.format img = "PNG" ->
           match prompt_extractor_debug.parameters_content st with
           | prompt_extractor_debug.NoContent =>
               prompt_extractor_debug.parameters_found st = false
               /\ prompt_extractor_debug.extract_positive_prompt json_loads opened = Ok JNull
           | prompt_extractor_debug.StringContent parameters_data =>
               assoc "parameters" (prompt_extractor_debug.info img) = Some parameters_data
               /\ json_loads parameters_data = Err JSONDecodeError
               /\ prompt_extractor_debug.extract_positive_prompt json_loads opened
                  = reraise (lines <- prompt_extractor.split_lines parameters_data;;
                             prompt_extractor.scan_lines lines)
           | prompt_extractor_debug.JsonContent parsed_data =>
               (exists parameters_data,
                  assoc "parameters" (prompt_extractor_debug.info img) = Some parameters_data
                  /\ json_loads parameters_data = Ok parsed_data)
               /\ forall entries value,
                    parsed_data = JObj entries ->
                    first_present prompt_extractor.possible_keys entries = Some value ->
                    prompt_extractor_debug.extract_positive_prompt json_loads opened
                    = Ok value
           end))
  /\ forall r,
       prompt_extractor_debug.extract_positive_prompt json_loads opened = Ok r ->
       exists st,
         prompt_extractor_debug.extract_parameters_structure json_loads opened = Ok st.
Proof.
  unfold prompt_extractor_debug.extract_parameters_structure,
    prompt_extractor_debug.extract_positive_prompt.
  destruct opened as [img|e]; cbn [reraise catch bind].
  - split.
    + intros st H. exists img. split; [reflexivity | ].
      destruct (debug_view_content _ _ H) as (Hk & Hf & Hc).
      split; [exact Hk | ]. split; [exact Hf | ]. split.
      * intros Hne. apply String.eqb_neq in Hne. rewrite Hne. reflexivity.
      * intros Hpng. apply String.eqb_eq in Hpng. rewrite Hpng. cbn [negb]. exact Hc.
    + intros r H.
      destruct (prompt_extractor_debug.format img =? "PNG"); cbn [negb] in H;
        [ | discriminate H].
      eapply extractor_returns_debug_returns. exact H.
  - split; [intros st H; discriminate H | intros r H; discriminate H].
Qed.
End Debug.

Lemma debug_view_tells_the_prompt_witness :
  prompt_extractor_debug.extract_positive_prompt (table_loader [(ab_text, ab_value)])
    (Ok {| prompt_extractor_debug.format := "PNG";
           prompt_extractor_debug.info := [("parameters", MStr ab_text)] |})
  = Ok (JArr [JStr "a"; JStr "b"]).
Proof.
  destruct (proj1 (debug_view_tells_the_prompt (table_loader [(ab_text, ab_value)])
                     (Ok {| prompt_extractor_debug.format := "PNG";
                            prompt_extractor_debug.info := [("parameters", MStr ab_text)] |}))
              {| prompt_extractor_debug.parameters_found := true;
                 prompt_extractor_debug.parameters_content :=
                   prompt_extractor_debug.JsonContent ab_value;
                 prompt_extractor_debug.all_keys := ["parameters"] |}
              ltac:(vm_compute; reflexivity)) as (img & Himg & _ & _ & _ & H).
  injection Himg as <-.
  apply (proj2 (H eq_refl) [("prompt", JArr [JStr "a"; JStr "b"])]); reflexivity.
Defined.

(** ** The node types of the workflow summary *)

Lemma counts_set_sum (k : json) (node_types : print_workflow_summary.counts) :
  counts_sum (print_workflow_summary.counts_set k
                (print_workflow_summary.counts_get k node_types + 1) node_types)
  = (counts_sum node_types + 1)%Z.
Proof.
  unfold counts_sum. induction node_types as [|[k' m] rest IH]; simpl; [lia | ].
  destruct (key_eqb k' k); simpl; lia.
Qed.

Lemma counts_get_positive (k : json) (node_types : print_workflow_summary.counts) :
  Forall (fun kn => 1 <= snd kn)%Z node_types ->
  (0 <= print_workflow_summary.counts_get k node_types)%Z.
Proof.
  induction 1 as [|[k' m] rest Hm _ IH]; simpl; [lia | ].
  destruct (key_eqb k' k); simpl in *; lia.
Qed.

Lemma counts_set_positive (k : json) (n : Z) (node_types : print_workflow_summary.counts) :
  (1 <= n)%Z ->
  Forall (fun kn => 1 <= snd kn)%Z node_types ->
  Forall (fun kn => 1 <= snd kn)%Z (print_workflow_summary.counts_set k n node_types).
Proof.
  intros Hn. induction 1 as [|[k' m] rest Hm Hrest IH]; simpl.
  - constructor; [exact Hn | constructor].
  - destruct (key_eqb k' k); constructor; auto.
Qed.

Lemma counts_set_keys (k : json) (n : Z) (node_types : print_workflow_summary.counts) :
  map fst (print_workflow_summary.counts_set k n node_types)
  = if existsb (fun k' => key_eqb k' k) (map fst node_types)
    then map fst node_types
    else (map fst node_types ++ [k])%list.
Proof.
  induction node_types as [|[k' m] rest IH]; simpl; [reflexivity | ].
  destruct (key_eqb k' k); simpl; [reflexivity | ].
  rewrite IH. destruct (existsb _ _); reflexivity.
Qed.

(** [distinct_ids] reads the list from its end: a new last key must be
    unequal to all the others. *)
Lemma distinct_ids_snoc (ids : list json) (x : json) :
  distinct_ids ids -> existsb (fun y => key_eqb y x) ids = false ->
  distinct_ids (ids ++ [x]).
Proof.
  induction ids as [|y rest IH]; simpl; intros H Hx.
  - split; [intros ? [] | exact I].
  - apply orb_false_iff in Hx. destruct Hx as [Hyx Hrest]. destruct H as [Hy Hd].
    split; [ | apply IH; assumption].
    intros z Hz. apply in_app_or in Hz. destruct Hz as [Hz | [<- | []]]; [auto | ].
    rewrite key_eqb_sym. exact Hyx.
Qed.

Lemma count_nodes_spec (nodes : list json) (node_types h : print_workflow_summary.counts) :
  print_workflow_summary.count_nodes nodes node_types = Ok h ->
  counts_sum h = (counts_sum node_types + Z.of_nat (List.length nodes))%Z
  /\ (Forall (fun kn => 1 <= snd kn)%Z node_types -> Forall (fun kn => 1 <= snd kn)%Z h)
  /\ (distinct_ids (map fst node_types) -> distinct_ids (map fst h))
  /\ (forall k, In k (map fst h) ->
        In k (map fst node_types)
        \/ exists node, In node nodes /\ get node "type" (JStr "Unknown") = Ok k).
Proof.
  revert node_types. induction nodes as [|node rest IH]; intros node_types H; simpl in H.
  - injection H as <-. simpl. repeat split; auto; lia.
  - step_in H. unfold print_workflow_summary.count_node in E. step_in E.
    destruct (hashable a0) eqn:Hh; [ | discriminate E]. injection E as <-.
    destruct (IH _ H) as (Hsum & Hpos & Hdist & Hkeys). clear IH.
    rewrite counts_set_sum in Hsum. cbn [List.length]. split; [lia | ].
    split; [ | split].
    + intros Hp. apply Hpos, counts_set_positive; [ | exact Hp].
      pose proof (counts_get_positive a0 node_types Hp). lia.
    + intros Hd. apply Hdist. rewrite counts_set_keys.
      destruct (existsb _ _) eqn:Hex; [exact Hd | apply distinct_ids_snoc; assumption].
    + intros k Hk. apply Hkeys in Hk. destruct Hk as [Hk | (n & Hn & Hg)].
      * rewrite counts_set_keys in Hk.
        destruct (existsb _ _); [left; exact Hk | ].
        apply in_app_or in Hk. destruct Hk as [Hk | [<- | []]]; [left; exact Hk | ].
        right. exists node. split; [left; reflexivity | assumption].
      * right. exists n. split; [right; exact Hn | exact Hg].
Qed.

(** X19: the node types the summary prints: the counts add up to the number
    of nodes, every count is at least one, no two keys of the dict are
    equal, and every key is the type of a node (or 'Unknown' for a node
    without one). *)
Theorem node_type_counts_add_up (value : json) (h : print_workflow_summary.counts) :
  print_workflow_summary.node_types value = Ok h ->
  exists nodes node_list,
    get value "nodes" (JArr []) = Ok nodes
    /\ iter nodes = Ok node_list
    /\ counts_sum h = Z.of_nat (List.length node_list)
    /\ Forall (fun kn => 1 <= snd kn)%Z h
    /\ distinct_ids (map fst h)
    /\ forall k, In k (map fst h) ->
         exists node, In node node_list /\ get node "type" (JStr "Unknown") = Ok k.
Proof.
  unfold print_workflow_summary.node_types. intros H. do 2 step_in H.
  match goal with E : get value _ _ = Ok ?n |- _ => exists n end.
  destruct (truthy _) eqn:T.
  - step_in H. eexists. split; [reflexivity | ]. split; [reflexivity | ].
    apply count_nodes_spec in H. destruct H as (Hsum & Hpos & Hdist & Hkeys).
    split; [exact Hsum | ]. split; [apply Hpos; constructor | ].
    split; [apply Hdist; exact I | ].
    intros k Hk. destruct (Hkeys k Hk) as [[] | Hn]. exact Hn.
  - injection H as <-. exists [].
    split; [reflexivity | ].
    split.
    + match goal with
      | Hl : len ?n = Ok _ |- _ =>
          destruct n as [ | | | | s|l|l]; try discriminate Hl;
          [destruct s | destruct l | destruct l]; try discriminate T; reflexivity
      end.
    + repeat split; [constructor | intros k []].
Qed.

Lemma node_type_counts_add_up_witness :
  exists nodes node_list,
    get two_node_workflow "nodes" (JArr []) = Ok nodes
    /\ iter nodes = Ok node_list
    /\ counts_sum [(JStr "CLIPTextEncode", 2%Z)] = Z.of_nat (List.length node_list)
    /\ Forall (fun kn => 1 <= snd kn)%Z [(JStr "CLIPTextEncode", 2%Z)]
    /\ distinct_ids (map fst [(JStr "CLIPTextEncode", 2%Z)])
    /\ forall k, In k (map fst [(JStr "CLIPTextEncode", 2%Z)]) ->
         exists node, In node node_list /\ get node "type" (JStr "Unknown") = Ok k.
Proof.
  apply (node_type_counts_add_up two_node_workflow [(JStr "CLIPTextEncode", 2%Z)]).
  vm_compute; reflexivity.
Defined.
